(** * DataModule: acquisition and caching of OHLCV candles

    A shallow embedding of [src/data/datamodule.py].  The Python object
    [self], the file system below the working directory and the log of the
    requests sent to the exchange are one explicit state; every method is a
    function in a state-and-exception monad over it.

    Conventions of the embedding:
    - Python integers are [Z]; the float64 values of the pagination loop
      (true division, [min], [np.around], [int]) are exact rationals [Q];
    - candle prices and volumes are rationals that the code only passes on;
    - a text is kept up to what [json.loads] makes of it: either the text of
      a JSON document, or a text that is no JSON document;
    - the exchange is an oracle: its answer to a request may depend on all
      the requests sent before. *)

From Stdlib Require Import ZArith QArith Qround String Ascii List Lia Bool.
From Stdlib Require DecimalString DecimalPos.
From stdpp Require Import base option list gmap strings.

Set Warnings "-register-all".
Local Open Scope Z_scope.
#[local] Arguments append (s1 s2)%_string_scope : simpl nomatch.

(** ** Exceptions and outcomes *)

Inductive exn :=
| SystemExit
| TypeError
| ValueError
| KeyError
| IndexError
| AttributeError
| ZeroDivisionError
| JSONDecodeError
| FileExistsError
| FileNotFoundError
| NotADirectoryError
| IsADirectoryError
| UnicodeDecodeError.

(** [except OSError] catches the four file-system exceptions. *)
Definition is_OSError (e : exn) : bool :=
  match e with
  | FileExistsError | FileNotFoundError | NotADirectoryError | IsADirectoryError => true
  | _ => false
  end.

(** The result of running a piece of code: a value, an exception that
    propagates, or [Timeout] when the fuel of a [while] loop ran out. *)
Inductive outcome (A : Type) :=
| Ok (a : A)
| Raise (e : exn)
| Timeout.
Arguments Ok {A} a.
Arguments Raise {A} e.
Arguments Timeout {A}.

(** ** Candles, data frames and JSON *)

(** One candle as [fetch_ohlcv] returns it: [[time, open, high, low, close, volume]]. *)
Record ohlcv := {
  c_time : Z;
  c_open : Q;
  c_high : Q;
  c_low : Q;
  c_close : Q;
  c_volume : Q
}.

(** One row of the data frame: the six columns of the candle and the column
    [pair].  The index label of a row is always its [time]: the frame is
    built with [index = [candle[0] ...]], or re-indexed with
    [set_index('time', drop=False)]. *)
Record row := {
  time : Z;
  open : Q;
  high : Q;
  low : Q;
  close : Q;
  volume : Q;
  pair : string
}.

Definition DataFrame := list row.

(** [list(df.index.values)] *)
Definition index_values (df : DataFrame) : list Z := map time df.

Inductive json :=
| JNull
| JBool (b : bool)
| JInt (z : Z)
| JFloat (q : Q)
| JStr (t : text)
| JArr (l : list json)
| JObj (kv : list (string * json))
with text :=
| Plain (s : string)   (* a text that is not a JSON document *)
| Enc (j : json).      (* the text of the JSON document [j] *)

(** A [text] is made of characters: it is what [read()] returns for a file
    whose bytes decode, or a [str] inside a document. *)

(** What the consumer finds in [history_data] for a pair: a frame, or the
    [False] that [read_data_from_datafile] returns on a read failure. *)
Inductive series :=
| Frame (df : DataFrame)
| PyFalse.

(** ** The file system *)

Abbreviation path := (list string).

(** An entry of the file system: a directory, a file whose bytes decode to
    the text [t], or a file whose bytes are no text in the encoding that
    [open] uses; such a file opens, and [read()] raises
    [UnicodeDecodeError] on it. *)
Inductive node :=
| Dir
| File (t : text)
| Blob.

(** ** The exchange *)

(** A request [fetch_ohlcv(symbol, timeframe, since, limit)]. *)
Record request := {
  r_symbol : string;
  r_timeframe : string;
  r_since : Z;
  r_limit : Z
}.

(** The attribute [timeframes] of an exchange: it is missing, it holds
    [None], or it holds the timeframes that the exchange lists. *)
Inductive timeframes_attr :=
| Missing
| Unset
| Listed (tfs : list string).

Record Exchange := {
  has_fetchOHLCV : bool;
  timeframes : timeframes_attr;
  parse8601 : string -> option Z;        (* [None] on a malformed date *)
  milliseconds : Z;
  fetch_ohlcv : list request -> request -> list ohlcv
    (* the answer to a request, given the requests sent before it *)
}.

(** An attribute of the module [ccxt], as [load_exchange] uses it:
    [getattr(ccxt, exchange_id)] and then a call without arguments.  It is
    the class of an exchange, and the call gives the exchange; or it is
    anything else, and the call raises the exception [e] ([Some e]: a text
    or a list cannot be called, a function misses its arguments) or returns
    an object that is no exchange ([None]). *)
Inductive attribute :=
| ExchangeClass (x : Exchange)
| Other (called : option exn).

(** ** Configuration and state *)

Record Config := {
  cfg_exchange : string;
  cfg_timeframe : string;
  cfg_pairs : list string;
  cfg_backtesting_from : string;
  cfg_backtesting_to : string;
  cfg_backtesting_till_now : string
}.

(** [exchange] is the exchange that [self.exchange] holds, [None] when it
    holds none: the [None] of the class, or an object that is no exchange.
    Either way every use of it as an exchange raises [AttributeError]. *)
Record state := {
  exchange : option Exchange;
  timeframe_calc : option Z;
  backtesting_from : option Z;
  backtesting_to : option Z;
  history_data : gmap string series;
  fs : gmap path node;
  fetch_log : list request     (* the requests sent so far, oldest first *)
}.

Definition set_exchange (x : option Exchange) (s : state) : state :=
  {| exchange := x; timeframe_calc := timeframe_calc s;
     backtesting_from := backtesting_from s; backtesting_to := backtesting_to s;
     history_data := history_data s; fs := fs s; fetch_log := fetch_log s |}.

Definition set_timeframe_calc (d : option Z) (s : state) : state :=
  {| exchange := exchange s; timeframe_calc := d;
     backtesting_from := backtesting_from s; backtesting_to := backtesting_to s;
     history_data := history_data s; fs := fs s; fetch_log := fetch_log s |}.

Definition set_backtesting_from (d : option Z) (s : state) : state :=
  {| exchange := exchange s; timeframe_calc := timeframe_calc s;
     backtesting_from := d; backtesting_to := backtesting_to s;
     history_data := history_data s; fs := fs s; fetch_log := fetch_log s |}.

Definition set_backtesting_to (d : option Z) (s : state) : state :=
  {| exchange := exchange s; timeframe_calc := timeframe_calc s;
     backtesting_from := backtesting_from s; backtesting_to := d;
     history_data := history_data s; fs := fs s; fetch_log := fetch_log s |}.

Definition set_history_data (h : gmap string series) (s : state) : state :=
  {| exchange := exchange s; timeframe_calc := timeframe_calc s;
     backtesting_from := backtesting_from s; backtesting_to := backtesting_to s;
     history_data := h; fs := fs s; fetch_log := fetch_log s |}.

Definition set_fs (f : gmap path node) (s : state) : state :=
  {| exchange := exchange s; timeframe_calc := timeframe_calc s;
     backtesting_from := backtesting_from s; backtesting_to := backtesting_to s;
     history_data := history_data s; fs := f; fetch_log := fetch_log s |}.

Definition set_fetch_log (l : list request) (s : state) : state :=
  {| exchange := exchange s; timeframe_calc := timeframe_calc s;
     backtesting_from := backtesting_from s; backtesting_to := backtesting_to s;
     history_data := history_data s; fs := fs s; fetch_log := l |}.

(** The state of a fresh [DataModule]: the class attributes, all [None] and
    an empty [history_data], over a given file system. *)
Definition fresh (f : gmap path node) : state :=
  {| exchange := None; timeframe_calc := None;
     backtesting_from := None; backtesting_to := None;
     history_data := ∅; fs := f; fetch_log := [] |}.

(** ** The monad *)

Definition M (A : Type) : Type := state -> outcome A * state.

Definition ret {A} (a : A) : M A := fun s => (Ok a, s).
Definition raise {A} (e : exn) : M A := fun s => (Raise e, s).
Definition bind {A B} (m : M A) (k : A -> M B) : M B :=
  fun s =>
    match m s with
    | (Ok a, s') => k a s'
    | (Raise e, s') => (Raise e, s')
    | (Timeout, s') => (Timeout, s')
    end.
Definition get_state : M state := fun s => (Ok s, s).
Definition modify (f : state -> state) : M unit := fun s => (Ok tt, f s).
Definition lift {A} (o : outcome A) : M A := fun s => (o, s).

Notation "x <- m ;; k" := (bind m (fun x => k))
  (at level 100, m at next level, right associativity).
Notation "m ;;; k" := (bind m (fun _ => k))
  (at level 100, right associativity).

(** An operand that must be a number: arithmetic and comparison on [None]
    raise [TypeError]. *)
Definition number (o : option Z) : M Z :=
  match o with
  | Some z => ret z
  | None => raise TypeError
  end.

(** [try: m except <caught>: handler] *)
Definition try_except {A} (m : M A) (caught : exn -> bool) (handler : M A) : M A :=
  fun s =>
    match m s with
    | (Raise e, s') => if caught e then handler s' else (Raise e, s')
    | r => r
    end.

(** ** Python and library functions *)

Definition msec : Z := 1000.
Definition minute : Z := 60 * msec.
Definition hour : Z := 60 * minute.
Definition day : Z := 24 * hour.

(** *** Strings *)

Definition is_digit (c : ascii) : bool :=
  (48 <=? nat_of_ascii c)%nat && (nat_of_ascii c <=? 57)%nat.

Definition digit_value (c : ascii) : Z := Z.of_nat (nat_of_ascii c) - 48.

Fixpoint all_digits (s : string) : bool :=
  match s with
  | EmptyString => true
  | String c s' => is_digit c && all_digits s'
  end.

Fixpoint int_digits (acc : Z) (s : string) : Z :=
  match s with
  | EmptyString => acc
  | String c s' => int_digits (10 * acc + digit_value c) s'
  end.

(** [int(s)] for a text of decimal digits; anything else raises. *)
Definition py_int (s : string) : outcome Z :=
  match s with
  | EmptyString => Raise ValueError
  | _ => if all_digits s then Ok (int_digits 0 s) else Raise ValueError
  end.

(** [s.split(sep)] *)
Fixpoint str_split (sep : ascii) (s : string) : list string :=
  match s with
  | EmptyString => [EmptyString]
  | String c s' =>
      if Ascii.eqb c sep then EmptyString :: str_split sep s'
      else match str_split sep s' with
           | w :: ws => String c w :: ws
           | [] => [String c EmptyString]
           end
  end.

(** The longest prefix of digits, and what follows it. *)
Fixpoint span_digits (s : string) : string * string :=
  match s with
  | EmptyString => (EmptyString, EmptyString)
  | String c s' =>
      if is_digit c then
        let '(ds, rest) := span_digits s' in (String c ds, rest)
      else (EmptyString, s)
  end.

(** The class [[mdh]] under [re.I]. *)
Definition is_unit_letter (c : ascii) : bool :=
  match c with
  | "m" | "d" | "h" | "M" | "D" | "H" => true
  | _ => false
  end%char.

(** [re.match(r"([0-9]+)([mdh])", s, re.I)] finds a match: [[0-9]+] is
    greedy and gives nothing back to [[mdh]], which no digit matches, so the
    match is the longest run of digits at the start followed by one unit
    letter; what comes after is not looked at. *)
Definition re_match_timeframe (s : string) : bool :=
  match span_digits s with
  | (String _ _, String c _) => is_unit_letter c
  | _ => false
  end.

(** [re.split(r'([0-9]+)', s)]: the pieces between the runs of digits, with
    the runs themselves (the group is captured) in between.  [cur] is the
    piece being read, [in_digits] tells whether it is a run of digits. *)
Fixpoint re_split_digits_from (cur : string) (in_digits : bool) (s : string) : list string :=
  match s with
  | EmptyString => if in_digits then [cur; EmptyString] else [cur]
  | String c s' =>
      if Bool.eqb (is_digit c) in_digits
      then re_split_digits_from (cur +:+ String c EmptyString) in_digits s'
      else cur :: re_split_digits_from (String c EmptyString) (is_digit c) s'
  end.

Definition re_split_digits (s : string) : list string :=
  re_split_digits_from EmptyString false s.

(** [l[i]] *)
Definition py_item {A} (l : list A) (i : nat) : outcome A :=
  match nth_error l i with
  | Some a => Ok a
  | None => Raise IndexError
  end.

(** [l.index(x)]: the position of the first occurrence. *)
Fixpoint list_index (x : Z) (l : list Z) : outcome nat :=
  match l with
  | [] => Raise ValueError
  | y :: l' =>
      if x =? y then Ok O
      else match list_index x l' with
           | Ok i => Ok (S i)
           | r => r
           end
  end.

(** [df[i:j]] for positions [i], [j] that are not negative. *)
Definition slice {A} (l : list A) (i j : nat) : list A :=
  firstn (j - i) (skipn i l).

(** *** Floating point, as exact rationals *)

(** [min(a, b)]: [b] when [b < a], else [a]. *)
Definition py_min (a b : Q) : Q :=
  if Qle_bool a b then a else b.

(** [int(q)]: truncation toward zero. *)
Definition Qtrunc (q : Q) : Z := Z.quot (Qnum q) (Z.pos (Qden q)).

(** [np.around(q)]: the nearest integer, a half goes to the even one. *)
Definition Qaround (q : Q) : Z :=
  let n := Qnum q in
  let d := Z.pos (Qden q) in
  let f := n / d in
  let r2 := 2 * (n mod d) in
  if r2 <? d then f
  else if d <? r2 then f + 1
  else if Z.even f then f else f + 1.

(** *** JSON *)

(** A text is taken as the JSON document it is the text of, and a number as
    its value: how a number is spelled, and how many decimal places of a
    float [to_json] keeps, is below what the model tells apart. *)

(** One record of [df.to_json(orient="records")]: the columns in order. *)
Definition record_of_row (r : row) : json :=
  JObj [ ("time"%string, JInt (time r));
         ("open"%string, JFloat (open r));
         ("high"%string, JFloat (high r));
         ("low"%string, JFloat (low r));
         ("close"%string, JFloat (close r));
         ("volume"%string, JFloat (volume r));
         ("pair"%string, JStr (Plain (pair r))) ].

(** [df.to_json(orient="records")]: a [str], the text of a JSON array. *)
Definition to_json_records (df : DataFrame) : text :=
  Enc (JArr (map record_of_row df)).

(** [json.dump(obj, outfile)] writes the text of the document [obj]. *)
Definition json_dump (obj : json) : text := Enc obj.

(** [json.loads(data)] *)
Definition json_loads (data : text) : outcome json :=
  match data with
  | Enc j => Ok j
  | Plain _ => Raise JSONDecodeError
  end.

Definition row_of_record (j : json) : option row :=
  match j with
  | JObj [ (k1, JInt t); (k2, JFloat o); (k3, JFloat h); (k4, JFloat l);
           (k5, JFloat c); (k6, JFloat v); (k7, JStr (Plain p)) ] =>
      if bool_decide ([k1; k2; k3; k4; k5; k6; k7] =
                      ["time"; "open"; "high"; "low"; "close"; "volume"; "pair"]%string)
      then Some {| time := t; open := o; high := h; low := l;
                   close := c; volume := v; pair := p |}
      else None
  | _ => None
  end.

Fixpoint rows_of_records (l : list json) : option DataFrame :=
  match l with
  | [] => Some []
  | j :: l' =>
      match row_of_record j, rows_of_records l' with
      | Some r, Some df => Some (r :: df)
      | _, _ => None
      end
  end.

(** [pd.read_json(json_file, orient="records")]: [json_file] has to be a
    [str] holding the text of an array of records.  Only the records that
    [save_dataframe] writes, with the seven columns of this program, are in
    the model.  Any other value is given an exception here: it stands for
    whatever [pandas] makes of a document that this program did not write,
    and no property below tells which exception that is. *)
Definition pd_read_json (json_file : json) : outcome DataFrame :=
  match json_file with
  | JStr (Enc (JArr l)) =>
      match rows_of_records l with
      | Some df => Ok df
      | None => Raise ValueError
      end
  | _ => Raise ValueError
  end.

(** [df.set_index('time', drop=False, inplace=True)]: a frame read from an
    empty array has no column at all, so none called [time]. *)
Definition set_index_time (df : DataFrame) : outcome DataFrame :=
  match df with
  | [] => Raise KeyError
  | _ => Ok df
  end.

(** [pd.DataFrame(ohlcv_data, index=index, columns=[...])] and [df['pair'] = pair] *)
Definition make_row (pair : string) (c : ohlcv) : row :=
  {| time := c_time c; open := c_open c; high := c_high c; low := c_low c;
     close := c_close c; volume := c_volume c; pair := pair |}.

Definition make_frame (pair : string) (ohlcv_data : list ohlcv) : DataFrame :=
  map (make_row pair) ohlcv_data.

(** *** Files *)

Definition parent (p : path) : path := removelast p.

(** [os.path.exists(p)] *)
Definition path_exists (p : path) : M bool :=
  fun s => (Ok (match fs s !! p with Some _ => true | None => false end), s).

(** Whether an entry can be made at [p]: the directory it goes into has to
    be there.  The working directory, [[]], always is. *)
Definition check_parent (p : path) : M unit :=
  fun s =>
    match parent p with
    | [] => (Ok tt, s)
    | q => match fs s !! q with
           | Some Dir => (Ok tt, s)
           | Some _ => (Raise NotADirectoryError, s)
           | None => (Raise FileNotFoundError, s)
           end
    end.

(** [os.mkdir(p)] *)
Definition mkdir (p : path) : M unit :=
  match p with
  | [] => raise FileNotFoundError
  | _ =>
      e <- path_exists p ;;
      if (e : bool) then raise FileExistsError
      else check_parent p ;;; modify (fun s => set_fs (<[p := Dir]> (fs s)) s)
  end.

(** [os.makedirs(name)], on the components of [name] in reverse: the head is
    made first when it is missing (an [FileExistsError] from it is passed
    over), then the directory itself. *)
Fixpoint makedirs_rev (rname : list string) : M unit :=
  match rname with
  | [] => mkdir []
  | _ :: rhead =>
      (match rhead with
       | [] => ret tt
       | _ => e <- path_exists (rev rhead) ;;
              if (e : bool) then ret tt
              else try_except (makedirs_rev rhead)
                     (fun x => match x with FileExistsError => true | _ => false end)
                     (ret tt)
       end) ;;;
      mkdir (rev rname)
  end.

Definition makedirs (name : path) : M unit := makedirs_rev (rev name).

(** [with open(p, 'r') as f: f.read()] *)
Definition read_file (p : path) : M text :=
  s <- get_state ;;
  match fs s !! p with
  | Some (File t) => ret t
  | Some Blob => raise UnicodeDecodeError
  | Some Dir => raise IsADirectoryError
  | None => check_parent p ;;; raise FileNotFoundError
  end.

(** [with open(p, 'w') as f: ...] writing [t] *)
Definition write_file (p : path) (t : text) : M unit :=
  s <- get_state ;;
  match fs s !! p with
  | Some Dir => raise IsADirectoryError
  | _ => check_parent p ;;; modify (fun s => set_fs (<[p := File t]> (fs s)) s)
  end.

(** [os.remove(p)]: a directory is not removed, and a missing entry is
    reported as the directory it should be in allows. *)
Definition remove_file (p : path) : M unit :=
  s <- get_state ;;
  match fs s !! p with
  | Some Dir => raise IsADirectoryError
  | Some _ => modify (fun s => set_fs (delete p (fs s)) s)
  | None => check_parent p ;;; raise FileNotFoundError
  end.

(** ** The methods of [DataModule] *)

Section DataModule.

(** [self.config], and the module [ccxt] as the attributes it has by name. *)
Variable config : Config.
Variable ccxt : string -> option attribute.

(** [generate_datafile_name]: [coin, base = pair.split('/')] needs exactly
    two parts. *)
Definition generate_datafile_name (pair : string) : M string :=
  match str_split "/" pair with
  | [coin; base] =>
      ret ("data-" +:+ coin +:+ base +:+ cfg_timeframe config +:+ ".json")%string
  | _ => raise ValueError
  end.

(** [os.path.join("data/backtesting-data", self.config["exchange"])]; the
    name of an exchange is an attribute name of [ccxt], one component. *)
Definition exchange_path : path :=
  ["data"; "backtesting-data"; cfg_exchange config]%string.

(** [create_directory]: the failure of [os.makedirs] is printed only. *)
Definition create_directory (directory : path) : M unit :=
  try_except (makedirs directory) is_OSError (ret tt).

Definition check_datafolder (pair : string) : M bool :=
  filename <- generate_datafile_name pair ;;
  e <- path_exists exchange_path ;;
  (if (e : bool) then ret tt else create_directory exchange_path) ;;;
  path_exists (exchange_path ++ [filename]).

Definition save_dataframe (pair : string) (df : DataFrame) : M unit :=
  filename <- generate_datafile_name pair ;;
  let filepath := exchange_path ++ [filename] in
  let df_json := to_json_records df in
  write_file filepath (json_dump (JStr df_json)).

Definition remove_backtesting_file (pair : string) : M unit :=
  filename <- generate_datafile_name pair ;;
  let filepath := exchange_path ++ [filename] in
  remove_file filepath.


(** [self.exchange.fetch_ohlcv(symbol=..., timeframe=..., since=..., limit=...)] *)
Definition exchange_fetch_ohlcv (symbol : string) (since limit : Z) : M (list ohlcv) :=
  s <- get_state ;;
  match exchange s with
  | None => raise AttributeError
  | Some x =>
      let rq := {| r_symbol := symbol; r_timeframe := cfg_timeframe config;
                   r_since := since; r_limit := limit |} in
      modify (set_fetch_log (fetch_log s ++ [rq])) ;;;
      ret (fetch_ohlcv x (fetch_log s) rq)
  end.

Definition fetch_ohlcv_limit : Z := 1000.

(** The [while] loop of [download_data_for_pair]; one unit of fuel for each
    pass through its body. *)
Fixpoint download_loop (fuel : nat) (pair : string) (start_date data_to : Z)
    (index : list Z) (ohlcv_data : list ohlcv) : M (list Z * list ohlcv) :=
  if start_date <? data_to then
    match fuel with
    | O => lift Timeout
    | S fuel' =>
        s <- get_state ;;
        d <- number (timeframe_calc s) ;;
        if d =? 0 then raise ZeroDivisionError else
        let remaining_ticks := (inject_Z (data_to - start_date) / inject_Z d)%Q in
        let asked_ticks := py_min remaining_ticks (inject_Z fetch_ohlcv_limit) in
        result <- exchange_fetch_ohlcv pair start_date (Qtrunc asked_ticks) ;;
        download_loop fuel' pair
          (start_date + Qaround (asked_ticks * inject_Z d)%Q) data_to
          (index ++ map c_time result) (ohlcv_data ++ result)
    end
  else ret (index, ohlcv_data).

Definition download_data_for_pair (fuel : nat) (pair : string)
    (data_from data_to : option Z) (save : bool) : M DataFrame :=
  start_date <- number data_from ;;
  data_to <- number data_to ;;
  r <- download_loop fuel pair start_date data_to [] [] ;;
  let df := make_frame pair (snd r) in
  (if save then save_dataframe pair df else ret tt) ;;;
  ret df.

Definition read_data_from_datafile (fuel : nat) (pair : string) : M series :=
  filename <- generate_datafile_name pair ;;
  let filepath := exchange_path ++ [filename] in
  data <- try_except (t <- read_file filepath ;; ret (Some t)) (fun _ => true) (ret None) ;;
  match data with
  | None => ret PyFalse
  | Some data =>
      json_file <- lift (json_loads data) ;;
      df <- lift (pd_read_json json_file) ;;
      df <- lift (set_index_time df) ;;
      let index_list := index_values df in
      df_begin <- lift (py_item index_list 0) ;;
      df_end <- lift (py_item index_list (length index_list - 1)) ;;
      s <- get_state ;;
      b_to <- number (backtesting_to s) ;;
      d <- number (timeframe_calc s) ;;
      let final_timestamp := b_to - d in
      b_from <- number (backtesting_from s) ;;
      df <- (if b_from <? df_begin then
               prev_df <- download_data_for_pair fuel pair (Some b_from) (Some df_begin) false ;;
               ret (prev_df ++ df)
             else ret df) ;;
      df <- (if df_end <? final_timestamp then
               new_df <- download_data_for_pair fuel pair (Some df_end) (Some b_to) false ;;
               ret (df ++ new_df)
             else ret df) ;;
      let index_list := index_values df in
      i <- lift (list_index b_from index_list) ;;
      j <- lift (list_index final_timestamp index_list) ;;
      let df := slice df i (j + 1) in
      save_dataframe pair df ;;;
      ret (Frame df)
  end.

(** The body of the loop of [load_historical_data] for one pair, without
    the assignment to [history_data]. *)
Definition load_pair (fuel : nat) (pair : string) : M series :=
  found <- check_datafolder pair ;;
  if negb found then
    s <- get_state ;;
    df <- download_data_for_pair fuel pair (backtesting_from s) (backtesting_to s) true ;;
    ret (Frame df)
  else read_data_from_datafile fuel pair.

Fixpoint load_pairs (fuel : nat) (pairs : list string) : M unit :=
  match pairs with
  | [] => ret tt
  | pair :: rest =>
      df <- load_pair fuel pair ;;
      modify (fun s => set_history_data (<[pair := df]> (history_data s)) s) ;;;
      load_pairs fuel rest
  end.

(** What [start_backtesting] is called with. *)
Record handover := {
  h_data : gmap string series;
  h_from : option Z;
  h_to : option Z
}.

Definition load_historical_data (fuel : nat) : M handover :=
  load_pairs fuel (cfg_pairs config) ;;;
  s <- get_state ;;
  ret {| h_data := history_data s; h_from := backtesting_from s; h_to := backtesting_to s |}.

Definition config_timeframe_calc : M unit :=
  let timeframe := cfg_timeframe config in
  if negb (re_match_timeframe timeframe) then raise SystemExit else
  let items := re_split_digits timeframe in
  unit_text <- lift (py_item items 2) ;;
  if String.eqb unit_text "m" then
    count_text <- lift (py_item items 1) ;;
    count <- lift (py_int count_text) ;;
    modify (set_timeframe_calc (Some (count * minute)))
  else if String.eqb unit_text "h" then
    count_text <- lift (py_item items 1) ;;
    count <- lift (py_int count_text) ;;
    modify (set_timeframe_calc (Some (count * hour)))
  else ret tt.

Definition config_from_to : M unit :=
  let test_from := cfg_backtesting_from config in
  let test_to := cfg_backtesting_to config in
  let test_till_now := cfg_backtesting_till_now config in
  s <- get_state ;;
  match exchange s with
  | None => raise AttributeError
  | Some x =>
      modify (set_backtesting_from (parse8601 x (test_from +:+ "T00:00:00Z"))) ;;;
      if String.eqb test_till_now "True" then
        modify (set_backtesting_to (Some (milliseconds x)))
      else if String.eqb test_till_now "False" then
        modify (set_backtesting_to (parse8601 x (test_to +:+ "T00:00:00Z")))
      else ret tt
  end.

(** [load_markets]; the call [self.exchange.load_markets()] goes to the
    exchange and leaves the module as it is: it is taken to return. *)
Definition load_markets (fuel : nat) : M handover :=
  config_from_to ;;;
  load_historical_data fuel.

(** [load_exchange].  Under the [try], [getattr] raises [AttributeError]
    when [ccxt] has no such attribute; otherwise the attribute is assigned
    to [self.exchange] and called.  Only [AttributeError] is caught there:
    any other exception of the call propagates, and an object that is no
    exchange fails at [self.exchange.has], after the [try]. *)
Definition load_exchange (fuel : nat) : M handover :=
  let exchange_id := cfg_exchange config in
  match ccxt exchange_id with
  | None => raise SystemExit
  | Some (Other called) =>
      modify (set_exchange None) ;;;
      match called with
      | Some AttributeError => raise SystemExit
      | Some e => raise e
      | None => raise AttributeError
      end
  | Some (ExchangeClass x) =>
      modify (set_exchange (Some x)) ;;;
      if negb (has_fetchOHLCV x) then raise SystemExit else
      match timeframes x with
      | Missing => raise SystemExit
      | Unset => raise TypeError
      | Listed tfs =>
          if negb (bool_decide (cfg_timeframe config ∈ tfs)) then raise SystemExit
          else load_markets fuel
      end
  end.

(** [DataModule.__init__] *)
Definition init (fuel : nat) : M handover :=
  config_timeframe_calc ;;;
  load_exchange fuel.

End DataModule.

(** ** The words of the specification *)

(** The timestamps [a, a + d, ..., a + (n - 1) * d]. *)
Fixpoint grid (a d : Z) (n : nat) : list Z :=
  match n with
  | O => []
  | S n' => a :: grid (a + d) d n'
  end.

(** A series covers the window [[from, to)] exactly: it starts at [from],
    ends at [to - d], consecutive timestamps are [d] apart, none is there
    twice. *)
Definition exactly_covers (from to d : Z) (l : list Z) : Prop :=
  head l = Some from /\
  last l = Some (to - d) /\
  (forall i a b, l !! i = Some a -> l !! S i = Some b -> b - a = d) /\
  NoDup l.

(** The timeframes of the specification: a positive count and a unit that
    is [m] or [h], nothing else. *)
Definition valid_timeframe (s : string) : Prop :=
  exists ds u, s = ds +:+ u /\ ds <> EmptyString /\ all_digits ds = true /\
    0 < int_digits 0 ds /\ (u = "m"%string \/ u = "h"%string).

(** A path lies inside the directory [d]: the directory itself or below. *)
Definition inside (d p : path) : Prop := exists q, p = d ++ q.

(** The top-level value of the JSON document in a file is an array. *)
Definition holds_json_array (n : node) : Prop :=
  exists l, n = File (Enc (JArr l)).

(** ** Exchanges and configurations for the examples *)

Definition candle_at (t : Z) : ohlcv :=
  {| c_time := t; c_open := 1; c_high := 2; c_low := 1 # 2;
     c_close := 3 # 2; c_volume := 10 |}.

Fixpoint candles_from (since d : Z) (n : nat) : list ohlcv :=
  match n with
  | O => []
  | S n' => candle_at since :: candles_from (since + d) d n'
  end.

(** Two dates, as [parse8601] reads them. *)
Definition parse_dates (s : string) : option Z :=
  if String.eqb s "2021-01-01T00:00:00Z" then Some 1609459200000
  else if String.eqb s "2021-01-02T00:00:00Z" then Some 1609545600000
  else None.

(** An exchange that answers every request with exactly the candles asked
    for: [limit] candles, [d] apart, from [since] on. *)
Definition regular_exchange (d : Z) : Exchange :=
  {| has_fetchOHLCV := true;
     timeframes := Listed ["1m"; "1h"; "1d"]%string;
     parse8601 := parse_dates;
     milliseconds := 1609549200000;
     fetch_ohlcv := fun _ rq => candles_from (r_since rq) d (Z.to_nat (r_limit rq)) |}.

(** An exchange on which the pair is listed from [listed] on: it has no
    candle before, so it answers with fewer candles than asked for. *)
Definition listed_exchange (d listed : Z) : Exchange :=
  {| has_fetchOHLCV := true;
     timeframes := Listed ["1m"; "1h"; "1d"]%string;
     parse8601 := parse_dates;
     milliseconds := 1609549200000;
     fetch_ohlcv := fun _ rq =>
       filter (fun c => listed <= c_time c)
              (candles_from (r_since rq) d (Z.to_nat (r_limit rq))) |}.

(** An exchange that answers with the newest candle first. *)
Definition newest_first_exchange (d : Z) : Exchange :=
  {| has_fetchOHLCV := true;
     timeframes := Listed ["1m"; "1h"; "1d"]%string;
     parse8601 := parse_dates;
     milliseconds := 1609549200000;
     fetch_ohlcv := fun _ rq =>
       rev (candles_from (r_since rq) d (Z.to_nat (r_limit rq))) |}.

(** The exchange answers on the grid of the timeframe. *)
Definition answers_on_grid (x : Exchange) (d : Z) : Prop :=
  forall log rq,
    map c_time (fetch_ohlcv x log rq) = grid (r_since rq) d (Z.to_nat (r_limit rq)).

(** A module [ccxt] with the exchange [binance] and the attribute
    [__version__], a text. *)
Definition binance_only (x : Exchange) (name : string) : option attribute :=
  if String.eqb name "binance" then Some (ExchangeClass x)
  else if String.eqb name "__version__" then Some (Other (Some TypeError))
  else None.

Definition config_1h : Config :=
  {| cfg_exchange := "binance"; cfg_timeframe := "1h";
     cfg_pairs := ["BTC/USDT"%string];
     cfg_backtesting_from := "2021-01-01"; cfg_backtesting_to := "2021-01-02";
     cfg_backtesting_till_now := "False" |}.

Definition with_timeframe (tf : string) (c : Config) : Config :=
  {| cfg_exchange := cfg_exchange c; cfg_timeframe := tf;
     cfg_pairs := cfg_pairs c;
     cfg_backtesting_from := cfg_backtesting_from c;
     cfg_backtesting_to := cfg_backtesting_to c;
     cfg_backtesting_till_now := cfg_backtesting_till_now c |}.

Definition with_exchange (name : string) (c : Config) : Config :=
  {| cfg_exchange := name; cfg_timeframe := cfg_timeframe c;
     cfg_pairs := cfg_pairs c;
     cfg_backtesting_from := cfg_backtesting_from c;
     cfg_backtesting_to := cfg_backtesting_to c;
     cfg_backtesting_till_now := cfg_backtesting_till_now c |}.

Definition with_till_now (flag : string) (c : Config) : Config :=
  {| cfg_exchange := cfg_exchange c; cfg_timeframe := cfg_timeframe c;
     cfg_pairs := cfg_pairs c;
     cfg_backtesting_from := cfg_backtesting_from c;
     cfg_backtesting_to := cfg_backtesting_to c;
     cfg_backtesting_till_now := flag |}.

Definition with_pairs (pairs : list string) (c : Config) : Config :=
  {| cfg_exchange := cfg_exchange c; cfg_timeframe := cfg_timeframe c;
     cfg_pairs := pairs;
     cfg_backtesting_from := cfg_backtesting_from c;
     cfg_backtesting_to := cfg_backtesting_to c;
     cfg_backtesting_till_now := cfg_backtesting_till_now c |}.

(** The state of a module that passed its start-up: the exchange [x], the
    timeframe of [d] milliseconds and the window [[from, to)]. *)
Definition ready (x : Exchange) (d from to : Z) (f : gmap path node) : state :=
  {| exchange := Some x; timeframe_calc := Some d;
     backtesting_from := Some from; backtesting_to := Some to;
     history_data := ∅; fs := f; fetch_log := [] |}.

(** The cache file of [config_1h] for BTC/USDT, and the directory it is in. *)
Definition btc_dir : path := ["data"; "backtesting-data"; "binance"]%string.
Definition btc_file : path := btc_dir ++ ["data-BTCUSDT1h.json"%string].

(** A file system in which the cache file of BTC/USDT holds the node [n]. *)
Definition disk_with (n : node) : gmap path node :=
  <[btc_file := n]> (<[btc_dir := Dir]> (<[["data"; "backtesting-data"]%string := Dir]>
    (<[["data"%string] := Dir]> ∅))).

(** What [save_dataframe] writes for the frame [df]. *)
Definition cache_of (df : DataFrame) : node :=
  File (json_dump (JStr (to_json_records df))).

(** The frame of hourly candles of BTC/USDT on [grid a hour n]. *)
Definition hourly (a : Z) (n : nat) : DataFrame :=
  make_frame "BTC/USDT" (candles_from a hour n).

(** The decimal numeral of a positive number. *)
Definition decimal (n : Z) : string :=
  DecimalString.NilEmpty.string_of_uint (Pos.to_uint (Z.to_pos n)).

(** No digit in the text [u]. *)
Fixpoint no_digit (u : string) : bool :=
  match u with
  | EmptyString => true
  | String c u' => negb (is_digit c) && no_digit u'
  end.

(** ** Paginated downloads, as a user sees them *)

(** The number of requests a download of [[start, to)] takes at [d]
    milliseconds a candle: a page for every 1000 candles, rounded up. *)
Definition pages (start to d : Z) : nat :=
  Z.to_nat ((to - start + 1000 * d - 1) / (1000 * d)).

(** The requests of a download of [[start, to)]: each asks for the candles
    that are left, 1000 at most, and the next starts where these end. *)
Fixpoint page_requests (n : nat) (symbol tf : string) (start to d : Z) : list request :=
  match n with
  | O => []
  | S n' =>
      if start <? to then
        {| r_symbol := symbol; r_timeframe := tf; r_since := start;
           r_limit := Z.min ((to - start) / d) 1000 |}
        :: page_requests n' symbol tf (start + Z.min (to - start) (1000 * d)) to d
      else []
  end.

(** The answers of the exchange [x] to the requests [rqs], sent one after
    the other after the requests [log], put end to end. *)
Fixpoint answers (x : Exchange) (log rqs : list request) : list ohlcv :=
  match rqs with
  | [] => []
  | rq :: rest => fetch_ohlcv x log rq ++ answers x (log ++ [rq]) rest
  end.

(** ** Changes of the state, as a user sees them *)

(** From [s] to [s'] only requests were sent: the log grew, nothing else
    changed. *)
Definition only_requests (s s' : state) : Prop :=
  exists rqs, s' = set_fetch_log (fetch_log s ++ rqs) s.

(** From [s] to [s'] only directories on the way to [name] were made:
    every entry is as it was, or is a new directory at a prefix of [name]. *)
Definition only_dirs_towards (name : path) (s s' : state) : Prop :=
  s' = set_fs (fs s') s /\
  forall q, fs s' !! q = fs s !! q \/
            (fs s !! q = None /\ fs s' !! q = Some Dir /\ q `prefix_of` name).

(** How often the character [c] is in the text [s]. *)
Fixpoint count_char (c : ascii) (s : string) : nat :=
  match s with
  | EmptyString => O
  | String a s' => (if Ascii.eqb a c then 1 else 0) + count_char c s'
  end.

(** The steps of [read_data_from_datafile] that follow the decoding of the
    cache file into the frame [df], whose index starts at [df_begin] and ends
    at [df_end]: the two downloads, the slice and the saving. *)
Definition reconcile (cfg : Config) (fuel : nat) (pair : string) (df : DataFrame)
    (df_begin df_end b_from b_to d : Z) : M series :=
  let final_timestamp := b_to - d in
  df <- (if b_from <? df_begin then
           prev_df <- download_data_for_pair cfg fuel pair (Some b_from) (Some df_begin) false ;;
           ret (prev_df ++ df)
         else ret df) ;;
  df <- (if df_end <? final_timestamp then
           new_df <- download_data_for_pair cfg fuel pair (Some df_end) (Some b_to) false ;;
           ret (df ++ new_df)
         else ret df) ;;
  let index_list := index_values df in
  i <- lift (list_index b_from index_list) ;;
  j <- lift (list_index final_timestamp index_list) ;;
  let df := slice df i (j + 1) in
  save_dataframe cfg pair df ;;;
  ret (Frame df).

(** What loading the pair [pair] may do to the module, from [s] to [s']:
    the exchange, the duration, the window and [history_data] are as they
    were; the log of requests only grew; and every entry of the file system
    is as it was, or is a new directory on the way to the directory of the
    exchange, or is the cache file of the pair, written where no directory
    was. *)
Definition footprint (cfg : Config) (pair : string) (s s' : state) : Prop :=
  exchange s' = exchange s /\ timeframe_calc s' = timeframe_calc s /\
  backtesting_from s' = backtesting_from s /\ backtesting_to s' = backtesting_to s /\
  history_data s' = history_data s /\
  fetch_log s `prefix_of` fetch_log s' /\
  forall q, fs s' !! q = fs s !! q \/
    (fs s !! q = None /\ fs s' !! q = Some Dir /\ q `prefix_of` exchange_path cfg) \/
    (exists name t, generate_datafile_name cfg pair s = (Ok name, s) /\
       q = exchange_path cfg ++ [name] /\ fs s !! q <> Some Dir /\
       fs s' !! q = Some (File t)).

(** * Properties *)

Ltac munfold :=
  unfold number in *;
  unfold bind, ret, raise, lift, modify, get_state, try_except in *.

(** ** Timeframes *)

Lemma span_digits_app ds rest :
  all_digits ds = true ->
  match rest with String c _ => is_digit c = false | EmptyString => True end ->
  span_digits (ds +:+ rest) = (ds, rest).
Proof.
  intros Hds Hrest. induction ds as [|c ds IH]; simpl in *.
  - destruct rest as [|c r]; simpl; [reflexivity | now rewrite Hrest].
  - apply andb_prop in Hds as [Hc Hds]. rewrite Hc, (IH Hds). reflexivity.
Qed.

Lemma span_digits_spec s ds rest :
  span_digits s = (ds, rest) ->
  s = ds +:+ rest /\ all_digits ds = true /\
  match rest with String c _ => is_digit c = false | EmptyString => True end.
Proof.
  revert ds rest. induction s as [|c s IH]; simpl; intros ds rest H.
  - injection H as <- <-. auto.
  - destruct (is_digit c) eqn:Hc.
    + destruct (span_digits s) as [ds' rest'] eqn:Hs. injection H as <- <-.
      destruct (IH _ _ eq_refl) as (-> & Hd & Hr). simpl. rewrite Hc. auto.
    + injection H as <- <-. simpl. auto.
Qed.

Lemma unit_letter_not_digit c : is_unit_letter c = true -> is_digit c = false.
Proof.
  destruct c as [[] [] [] [] [] [] [] []]; simpl; intros H;
    try discriminate H; reflexivity.
Qed.

(** The timeframes that [re.match] accepts. *)
Lemma re_match_timeframe_spec s :
  re_match_timeframe s = true <->
  exists ds c rest, ds <> EmptyString /\ all_digits ds = true /\
    is_unit_letter c = true /\ s = ds +:+ String c rest.
Proof.
  unfold re_match_timeframe. split.
  - destruct (span_digits s) as [ds r] eqn:Hs.
    destruct (span_digits_spec _ _ _ Hs) as (-> & Hd & _).
    destruct ds as [|d ds]; [discriminate|]. destruct r as [|c r]; [discriminate|].
    intros Hc. exists (String d ds), c, r. repeat split; auto; discriminate.
  - intros (ds & c & rest & Hne & Hd & Hc & ->).
    rewrite span_digits_app by (simpl; auto using unit_letter_not_digit).
    destruct ds; [now destruct Hne | assumption].
Qed.

Lemma append_assoc (a b c : string) : (a +:+ b) +:+ c = a +:+ (b +:+ c).
Proof. induction a as [|x a IH]; simpl; [reflexivity | now rewrite IH]. Qed.

Lemma append_empty_r (a : string) : a +:+ EmptyString = a.
Proof. induction a as [|x a IH]; simpl; [reflexivity | now rewrite IH]. Qed.

Lemma re_split_digits_run cur ds rest :
  all_digits ds = true ->
  re_split_digits_from cur true (ds +:+ rest) =
  re_split_digits_from (cur +:+ ds) true rest.
Proof.
  revert cur. induction ds as [|c ds IH]; simpl; intros cur H.
  - now rewrite append_empty_r.
  - apply andb_prop in H as [Hc Hds]. rewrite Hc. simpl.
    rewrite IH by assumption. now rewrite append_assoc.
Qed.

Lemma re_split_digits_word cur u :
  no_digit u = true ->
  re_split_digits_from cur false u = [cur +:+ u].
Proof.
  revert cur. induction u as [|c u IH]; simpl; intros cur H.
  - now rewrite append_empty_r.
  - apply andb_prop in H as [Hc Hu]. destruct (is_digit c); [discriminate|]. simpl.
    rewrite IH by assumption. now rewrite append_assoc.
Qed.

(** The pieces of a count followed by a unit text without digits. *)
Lemma re_split_digits_count_unit ds c u :
  ds <> EmptyString -> all_digits ds = true ->
  is_digit c = false -> no_digit u = true ->
  re_split_digits (ds +:+ String c u) = [EmptyString; ds; String c u].
Proof.
  intros Hne Hds Hc Hu. destruct ds as [|d ds]; [congruence|]. simpl in Hds.
  apply andb_prop in Hds as [Hd Hds].
  unfold re_split_digits. simpl. rewrite Hd. simpl.
  rewrite re_split_digits_run by assumption. simpl. rewrite Hc. simpl.
  now rewrite re_split_digits_word.
Qed.

Lemma py_int_digits ds :
  ds <> EmptyString -> all_digits ds = true -> py_int ds = Ok (int_digits 0 ds).
Proof.
  intros Hne Hds. unfold py_int. rewrite Hds. destruct ds; [now destruct Hne | reflexivity].
Qed.

(** A count, then exactly [m]: minutes. *)
Lemma config_timeframe_calc_m cfg ds s :
  ds <> EmptyString -> all_digits ds = true ->
  cfg_timeframe cfg = ds +:+ "m" ->
  config_timeframe_calc cfg s =
  (Ok tt, set_timeframe_calc (Some (int_digits 0 ds * minute)) s).
Proof.
  intros Hne Hds Htf. unfold config_timeframe_calc. rewrite Htf.
  assert (Hm : re_match_timeframe (ds +:+ "m") = true).
  { apply re_match_timeframe_spec. exists ds, "m"%char, EmptyString. auto. }
  rewrite Hm, re_split_digits_count_unit by auto. simpl.
  munfold. simpl. rewrite py_int_digits by auto. reflexivity.
Qed.

(** A count, then exactly [h]: hours. *)
Lemma config_timeframe_calc_h cfg ds s :
  ds <> EmptyString -> all_digits ds = true ->
  cfg_timeframe cfg = ds +:+ "h" ->
  config_timeframe_calc cfg s =
  (Ok tt, set_timeframe_calc (Some (int_digits 0 ds * hour)) s).
Proof.
  intros Hne Hds Htf. unfold config_timeframe_calc. rewrite Htf.
  assert (Hm : re_match_timeframe (ds +:+ "h") = true).
  { apply re_match_timeframe_spec. exists ds, "h"%char, EmptyString. auto. }
  rewrite Hm, re_split_digits_count_unit by auto. simpl.
  munfold. simpl. rewrite py_int_digits by auto. reflexivity.
Qed.

(** *** Decimal numerals *)

Lemma all_digits_uint d :
  all_digits (DecimalString.NilEmpty.string_of_uint d) = true.
Proof. induction d; simpl; auto. Qed.

Lemma string_of_uint_nonempty d :
  d <> Decimal.Nil -> DecimalString.NilEmpty.string_of_uint d <> EmptyString.
Proof. destruct d; simpl; congruence. Qed.

Lemma int_digits_uint d acc :
  int_digits acc (DecimalString.NilEmpty.string_of_uint d) =
  acc * 10 ^ Z.of_N (DecimalPos.Unsigned.usize d) +
  Z.of_N (DecimalPos.Unsigned.of_lu (Decimal.rev d)).
Proof.
  revert acc.
  induction d; intros acc; simpl DecimalString.NilEmpty.string_of_uint;
    simpl DecimalPos.Unsigned.usize;
    [ simpl; lia | .. ];
    cbn [int_digits]; unfold Decimal.rev; simpl Decimal.revapp;
    rewrite (DecimalPos.Unsigned.of_lu_revapp d); fold (Decimal.rev d);
    rewrite IHd;
    rewrite N2Z.inj_succ, Z.pow_succ_r by lia;
    rewrite N2Z.inj_add, N2Z.inj_mul, N2Z.inj_pow;
    simpl DecimalPos.Unsigned.of_lu;
    match goal with |- context [digit_value ?c] =>
      let v := eval vm_compute in (digit_value c) in change (digit_value c) with v end;
    simpl Z.of_N; lia.
Qed.

Lemma decimal_digits n :
  0 < n ->
  decimal n <> EmptyString /\ all_digits (decimal n) = true /\
  int_digits 0 (decimal n) = n.
Proof.
  intros Hn. unfold decimal. split; [|split].
  - apply string_of_uint_nonempty, DecimalPos.Unsigned.to_uint_nonnil.
  - apply all_digits_uint.
  - rewrite int_digits_uint, <- DecimalPos.Unsigned.of_uint_alt,
      DecimalPos.Unsigned.of_to. simpl. lia.
Qed.

(** C5.  For every positive integer [n], on the timeframe ["<n>m"]
    [config_timeframe_calc] returns normally and the duration
    [timeframe_calc] that the module holds afterwards is exactly [n * 60000]
    milliseconds; on ["<n>h"] it is exactly [n * 3600000]. *)
Theorem config_timeframe_calc_duration (cfg : Config) (n : Z) (s : state) :
  0 < n ->
  (cfg_timeframe cfg = decimal n +:+ "m" ->
   fst (config_timeframe_calc cfg s) = Ok tt /\
   timeframe_calc (snd (config_timeframe_calc cfg s)) = Some (n * 60000)) /\
  (cfg_timeframe cfg = decimal n +:+ "h" ->
   fst (config_timeframe_calc cfg s) = Ok tt /\
   timeframe_calc (snd (config_timeframe_calc cfg s)) = Some (n * 3600000)).
Proof.
  intros Hn. destruct (decimal_digits n Hn) as (Hne & Hds & Hval).
  split; intros Htf.
  - rewrite (config_timeframe_calc_m cfg (decimal n)), Hval by assumption.
    split; reflexivity.
  - rewrite (config_timeframe_calc_h cfg (decimal n)), Hval by assumption.
    split; reflexivity.
Qed.

Lemma config_timeframe_calc_duration_witness :
  0 < 15 /\
  (fst (config_timeframe_calc (with_timeframe "15m" config_1h) (fresh ∅)) = Ok tt /\
   timeframe_calc (snd (config_timeframe_calc (with_timeframe "15m" config_1h) (fresh ∅))) =
     Some 900000) /\
  (fst (config_timeframe_calc (with_timeframe "15h" config_1h) (fresh ∅)) = Ok tt /\
   timeframe_calc (snd (config_timeframe_calc (with_timeframe "15h" config_1h) (fresh ∅))) =
     Some 54000000).
Proof.
  split; [lia|]. split.
  - apply (proj1 (config_timeframe_calc_duration (with_timeframe "15m" config_1h) 15
                    (fresh ∅) ltac:(lia))).
    reflexivity.
  - apply (proj2 (config_timeframe_calc_duration (with_timeframe "15h" config_1h) 15
                    (fresh ∅) ltac:(lia))).
    reflexivity.
Defined.

(** *** What [config_timeframe_calc] rejects *)

Lemma re_split_digits_from_cons cur b s :
  exists x l, re_split_digits_from cur b s = x :: l.
Proof.
  revert cur b. induction s as [|c s IH]; intros cur b; simpl.
  - destruct b; eauto.
  - destruct (Bool.eqb (is_digit c) b); eauto.
Qed.

(** The pieces of an accepted timeframe: nothing, the count, and at least
    one more piece. *)
Lemma re_split_digits_accepted ds c rest :
  ds <> EmptyString -> all_digits ds = true -> is_digit c = false ->
  exists u l, re_split_digits (ds +:+ String c rest) = EmptyString :: ds :: u :: l.
Proof.
  intros Hne Hds Hc. destruct ds as [|d ds]; [now destruct Hne|]. simpl in Hds.
  apply andb_prop in Hds as [Hd Hds].
  unfold re_split_digits. simpl. rewrite Hd. simpl.
  rewrite re_split_digits_run by assumption. simpl. rewrite Hc. simpl.
  destruct (re_split_digits_from_cons (String c EmptyString) false rest) as (u & l & ->).
  eauto.
Qed.

Lemma config_timeframe_calc_accepted cfg s :
  re_match_timeframe (cfg_timeframe cfg) = true ->
  exists s', config_timeframe_calc cfg s = (Ok tt, s').
Proof.
  intros Hm. unfold config_timeframe_calc. rewrite Hm. simpl.
  apply re_match_timeframe_spec in Hm as (ds & c & rest & Hne & Hds & Hc & ->).
  destruct (re_split_digits_accepted ds c rest Hne Hds (unit_letter_not_digit _ Hc))
    as (u & l & ->).
  munfold. simpl. rewrite py_int_digits by assumption.
  destruct (String.eqb u "m"); [eauto|]. destruct (String.eqb u "h"); eauto.
Qed.

(** C4, as the code has it.  [config_timeframe_calc] aborts with
    [SystemExit] exactly on the timeframes that do not begin with one or more
    decimal digits followed by one of the letters m, d, h in either case; so
    a text without a leading digit, with a sign or with another unit letter
    is rejected, while a count of zero, the unit d and trailing characters
    are not.  On every other timeframe it returns normally, and when the
    timeframe is a count followed by exactly [m] or [h] it returns normally
    and the module holds a duration afterwards. *)
Theorem config_timeframe_calc_rejects (cfg : Config) (s : state) :
  (config_timeframe_calc cfg s = (Raise SystemExit, s) <->
   ~ exists ds c rest, ds <> EmptyString /\ all_digits ds = true /\
       is_unit_letter c = true /\ cfg_timeframe cfg = ds +:+ String c rest) /\
  (config_timeframe_calc cfg s = (Raise SystemExit, s) \/
   exists s', config_timeframe_calc cfg s = (Ok tt, s')) /\
  (forall ds u, ds <> EmptyString -> all_digits ds = true ->
     u = "m"%string \/ u = "h"%string -> cfg_timeframe cfg = ds +:+ u ->
     fst (config_timeframe_calc cfg s) = Ok tt /\
     exists d, timeframe_calc (snd (config_timeframe_calc cfg s)) = Some d).
Proof.
  assert (Hrej : re_match_timeframe (cfg_timeframe cfg) = false ->
                 config_timeframe_calc cfg s = (Raise SystemExit, s)).
  { intros H. unfold config_timeframe_calc. now rewrite H. }
  split; [|split].
  - rewrite <- re_match_timeframe_spec. split.
    + intros H Hm. destruct (config_timeframe_calc_accepted cfg s Hm) as (s' & Hs').
      congruence.
    + intros H. apply Hrej. now destruct (re_match_timeframe (cfg_timeframe cfg)).
  - destruct (re_match_timeframe (cfg_timeframe cfg)) eqn:Hm.
    + right. now apply config_timeframe_calc_accepted.
    + left. now apply Hrej.
  - intros ds u Hne Hds [-> | ->] Htf.
    + rewrite (config_timeframe_calc_m cfg ds) by assumption.
      split; [reflexivity|]. now exists (int_digits 0 ds * minute).
    + rewrite (config_timeframe_calc_h cfg ds) by assumption.
      split; [reflexivity|]. now exists (int_digits 0 ds * hour).
Qed.

Lemma config_timeframe_calc_rejects_witness :
  config_timeframe_calc (with_timeframe "m5" config_1h) (fresh ∅) =
    (Raise SystemExit, fresh ∅) /\
  config_timeframe_calc (with_timeframe "-5m" config_1h) (fresh ∅) =
    (Raise SystemExit, fresh ∅) /\
  config_timeframe_calc (with_timeframe "5x" config_1h) (fresh ∅) =
    (Raise SystemExit, fresh ∅) /\
  (fst (config_timeframe_calc (with_timeframe "5m" config_1h) (fresh ∅)) = Ok tt /\
   exists d,
     timeframe_calc (snd (config_timeframe_calc (with_timeframe "5m" config_1h) (fresh ∅))) =
       Some d).
Proof.
  split; [reflexivity|]. split; [reflexivity|]. split; [reflexivity|].
  apply (proj2 (proj2 (config_timeframe_calc_rejects (with_timeframe "5m" config_1h) (fresh ∅)))
           "5"%string "m"%string);
    [discriminate | reflexivity | now left | reflexivity].
Defined.

Lemma not_valid_suffix s :
  (forall ds, s <> ds +:+ "m") -> (forall ds, s <> ds +:+ "h") -> ~ valid_timeframe s.
Proof.
  intros Hm Hh (ds & u & Hs & _ & _ & _ & [-> | ->]); [eapply Hm | eapply Hh]; eauto.
Qed.

(** C4 fails as stated: ["1d"] is no count-and-unit of the specification,
    yet it is accepted and leaves the duration unset; so does ["1m!"], with
    characters after the unit; and ["0m"], with a count that is not
    positive, is accepted with the duration 0. *)
Lemma timeframe_accepted_without_duration :
  (~ valid_timeframe "1d" /\
   config_timeframe_calc (with_timeframe "1d" config_1h) (fresh ∅) = (Ok tt, fresh ∅) /\
   timeframe_calc (fresh ∅) = None) /\
  (~ valid_timeframe "1m!" /\
   config_timeframe_calc (with_timeframe "1m!" config_1h) (fresh ∅) = (Ok tt, fresh ∅)) /\
  (~ valid_timeframe "0m" /\
   config_timeframe_calc (with_timeframe "0m" config_1h) (fresh ∅) =
     (Ok tt, set_timeframe_calc (Some 0) (fresh ∅))).
Proof.
  split; [|split].
  - split; [|split; reflexivity].
    apply not_valid_suffix; intros [|a [|b [|c ds]]]; discriminate.
  - split; [|reflexivity].
    apply not_valid_suffix; intros [|a [|b [|c [|e ds]]]]; discriminate.
  - split; [|reflexivity].
    intros (ds & u & Hs & _ & _ & Hpos & Hu).
    destruct ds as [|a [|b [|c ds]]]; destruct Hu as [-> | ->]; try discriminate Hs.
    injection Hs as <-. vm_compute in Hpos. discriminate Hpos.
Qed.

(** ** The monad *)

Lemma bind_Ok {A B} (m : M A) (k : A -> M B) s a s1 :
  m s = (Ok a, s1) -> bind m k s = k a s1.
Proof. intros H. unfold bind. now rewrite H. Qed.

Lemma bind_Raise {A B} (m : M A) (k : A -> M B) s e s1 :
  m s = (Raise e, s1) -> bind m k s = (Raise e, s1).
Proof. intros H. unfold bind. now rewrite H. Qed.

Lemma bind_Ok_inv {A B} (m : M A) (k : A -> M B) s b s' :
  bind m k s = (Ok b, s') ->
  exists a s1, m s = (Ok a, s1) /\ k a s1 = (Ok b, s').
Proof.
  unfold bind. destruct (m s) as [[a | e |] s1]; intros H; try discriminate H. eauto.
Qed.

Lemma set_fetch_log_id s : set_fetch_log (fetch_log s) s = s.
Proof. now destruct s. Qed.

Lemma set_fetch_log_twice l l' s :
  set_fetch_log l (set_fetch_log l' s) = set_fetch_log l s.
Proof. reflexivity. Qed.

Lemma set_fs_id s : set_fs (fs s) s = s.
Proof. now destruct s. Qed.

(** ** The arithmetic of a page *)

(** [np.around] of a whole number is that number. *)
Lemma Qaround_whole (n : Z) (p : positive) (z : Z) :
  n = z * Z.pos p -> Qaround (n # p) = z.
Proof.
  intros ->. unfold Qaround. simpl Qnum. simpl Qden.
  rewrite Z.div_mul, Z.mod_mul by lia.
  replace (2 * 0 <? Z.pos p) with true by (symmetry; apply Z.ltb_lt; lia).
  reflexivity.
Qed.

Lemma Qdiv_whole (a : Z) (p : positive) :
  (inject_Z a / inject_Z (Z.pos p))%Q = (a # p).
Proof.
  unfold Qdiv, Qmult, Qinv, inject_Z. cbn [Qnum Qden].
  now rewrite Z.mul_1_r, Pos.mul_1_l.
Qed.

(** The number of candles asked for is what is left, 1000 at most. *)
Lemma asked_limit (a d : Z) :
  0 < d -> 0 < a ->
  Qtrunc (py_min (inject_Z a / inject_Z d)%Q (inject_Z fetch_ohlcv_limit)) =
  Z.min (a / d) 1000.
Proof.
  intros Hd Ha. destruct d as [|p|p]; try lia. rewrite Qdiv_whole.
  unfold py_min, Qle_bool, fetch_ohlcv_limit, inject_Z, Qtrunc. cbn [Qnum Qden].
  destruct (Z.leb_spec (a * 1) (1000 * Z.pos p)) as [H | H]; cbn [Qnum Qden].
  - rewrite Z.quot_div_nonneg by lia.
    rewrite Z.min_l; [reflexivity|]. apply Z.div_le_upper_bound; lia.
  - rewrite Z.min_r; [reflexivity|]. apply Z.div_le_lower_bound; lia.
Qed.

(** The cursor moves on by the time that is left, 1000 candles at most:
    nothing is lost in the division, and the rounding changes nothing. *)
Lemma asked_advance (a d : Z) :
  0 < d -> 0 < a ->
  Qaround (py_min (inject_Z a / inject_Z d)%Q (inject_Z fetch_ohlcv_limit) * inject_Z d)%Q =
  Z.min a (1000 * d).
Proof.
  intros Hd Ha. destruct d as [|p|p]; try lia. rewrite Qdiv_whole.
  unfold py_min, Qle_bool, fetch_ohlcv_limit, inject_Z. cbn [Qnum Qden].
  destruct (Z.leb_spec (a * 1) (1000 * Z.pos p)) as [H | H];
    unfold Qmult; cbn [Qnum Qden].
  - rewrite Z.min_l by lia. apply Qaround_whole. lia.
  - rewrite Z.min_r by lia. apply Qaround_whole. lia.
Qed.

(** ** The paginated download *)

Lemma pages_done start to d : 0 < d -> to <= start -> pages start to d = O.
Proof.
  intros Hd H. unfold pages.
  assert ((to - start + 1000 * d - 1) / (1000 * d) <= 0); [|lia].
  apply Z.lt_succ_r, Z.div_lt_upper_bound; lia.
Qed.

Lemma pages_step start to d :
  0 < d -> start < to ->
  pages start to d = S (pages (start + Z.min (to - start) (1000 * d)) to d).
Proof.
  intros Hd H. unfold pages.
  destruct (Z.le_gt_cases (to - start) (1000 * d)) as [Hle | Hgt].
  - rewrite Z.min_l by lia.
    replace (to - (start + (to - start)) + 1000 * d - 1) with (1000 * d - 1) by lia.
    rewrite (Z.div_small (1000 * d - 1)) by lia.
    replace (to - start + 1000 * d - 1) with ((to - start - 1) + 1 * (1000 * d)) by lia.
    rewrite Z.div_add, Z.div_small by lia. reflexivity.
  - rewrite Z.min_r by lia.
    replace (to - start + 1000 * d - 1)
      with ((to - (start + 1000 * d) + 1000 * d - 1) + 1 * (1000 * d)) by lia.
    rewrite Z.div_add by lia.
    assert (0 <= (to - (start + 1000 * d) + 1000 * d - 1) / (1000 * d))
      by (apply Z.div_pos; lia).
    lia.
Qed.

Lemma page_requests_done n symbol tf start to d :
  to <= start -> page_requests n symbol tf start to d = [].
Proof.
  intros H. destruct n; [reflexivity|]. simpl.
  now replace (start <? to) with false by (symmetry; apply Z.ltb_ge; lia).
Qed.

(** With fuel for every page, the loop ends normally: the requests it sent
    are the pages of the window, whatever the exchange answered, and its
    result is the answers put end to end. *)
Lemma download_loop_pages cfg x d fuel pair start to index ohlcv_data s :
  exchange s = Some x -> timeframe_calc s = Some d -> 0 < d ->
  (pages start to d <= fuel)%nat ->
  let rqs := page_requests (pages start to d) pair (cfg_timeframe cfg) start to d in
  download_loop cfg fuel pair start to index ohlcv_data s =
  (Ok (index ++ map c_time (answers x (fetch_log s) rqs),
       ohlcv_data ++ answers x (fetch_log s) rqs),
   set_fetch_log (fetch_log s ++ rqs) s).
Proof.
  intros Hx Hd Hpos. revert start index ohlcv_data s Hx Hd.
  induction fuel as [|fuel IH]; intros start index ohlcv_data s Hx Hd Hfuel rqs; subst rqs.
  - destruct (Z.ltb_spec start to) as [Hlt | Hge].
    + rewrite pages_step in Hfuel by assumption. lia.
    + simpl. replace (start <? to) with false by (symmetry; apply Z.ltb_ge; lia).
      rewrite page_requests_done by assumption. simpl.
      now rewrite !app_nil_r, set_fetch_log_id.
  - simpl. destruct (Z.ltb_spec start to) as [Hlt | Hge].
    + rewrite pages_step in * by assumption. simpl.
      replace (start <? to) with true by (symmetry; apply Z.ltb_lt; lia).
      unfold exchange_fetch_ohlcv. munfold. rewrite Hd. cbv beta iota.
      replace (d =? 0) with false by (symmetry; apply Z.eqb_neq; lia).
      rewrite Hx. cbv beta iota. rewrite asked_limit, asked_advance by lia.
      rewrite IH by (try assumption; simpl; lia). simpl.
      now rewrite !map_app, <- !app_assoc.
    + rewrite page_requests_done by assumption. simpl.
      now rewrite !app_nil_r, set_fetch_log_id.
Qed.

(** The requests of the pages: as many as there are pages, each for the
    pair, from inside the window, for 1000 candles at most, and for as many
    candles in all as the window has room for. *)
Lemma page_requests_bounds symbol tf d to n start :
  0 < d -> n = pages start to d ->
  let rqs := page_requests n symbol tf start to d in
  length rqs = n /\
  Forall (fun rq => r_symbol rq = symbol /\ r_timeframe rq = tf /\
                    start <= r_since rq < to /\ 0 <= r_limit rq <= 1000) rqs /\
  (start <= to -> foldr Z.add 0 (map r_limit rqs) = (to - start) / d).
Proof.
  intros Hd. revert start. induction n as [|n IH]; intros start Hn rqs; subst rqs.
  - simpl. repeat split; auto. intros Hle.
    destruct (Z.eq_dec start to) as [-> | Hne].
    + now rewrite Z.sub_diag, Z.div_0_l by lia.
    + rewrite pages_step in Hn by lia. discriminate.
  - destruct (Z.ltb_spec start to) as [Hlt | Hge].
    2: { rewrite pages_done in Hn by assumption. discriminate. }
    rewrite pages_step in Hn by assumption. injection Hn as Hn.
    simpl. replace (start <? to) with true by (symmetry; apply Z.ltb_lt; lia).
    destruct (IH _ Hn) as (Hlen & Hall & Hsum). repeat split.
    + simpl. now rewrite Hlen.
    + constructor.
      * simpl. repeat split; try lia.
        apply Z.min_glb; [apply Z.div_pos|]; lia.
      * eapply Forall_impl; [exact Hall|]. simpl. intros rq (? & ? & ? & ?).
        repeat split; auto; lia.
    + intros _. simpl. rewrite Hsum by lia.
      destruct (Z.le_gt_cases (to - start) (1000 * d)) as [Hle | Hgt].
      * rewrite (Z.min_l (to - start)) by lia.
        replace (to - (start + (to - start))) with 0 by lia.
        rewrite Z.div_0_l by lia. rewrite Z.min_l by (apply Z.div_le_upper_bound; lia). lia.
      * rewrite (Z.min_r (to - start)) by lia.
        rewrite Z.min_r by (apply Z.div_le_lower_bound; lia).
        replace (to - start) with ((to - (start + 1000 * d)) + 1000 * d) by lia.
        rewrite Z.div_add by lia. lia.
Qed.

(** The run of a download that is not saved. *)
Lemma download_unsaved (cfg : Config) (x : Exchange) (d from to : Z)
    (fuel : nat) (pair : string) (s : state) :
  exchange s = Some x -> timeframe_calc s = Some d -> 0 < d ->
  (pages from to d <= fuel)%nat ->
  let rqs := page_requests (pages from to d) pair (cfg_timeframe cfg) from to d in
  download_data_for_pair cfg fuel pair (Some from) (Some to) false s =
  (Ok (make_frame pair (answers x (fetch_log s) rqs)),
   set_fetch_log (fetch_log s ++ rqs) s).
Proof.
  intros Hx Hd Hpos Hfuel rqs. unfold download_data_for_pair. munfold.
  rewrite (download_loop_pages cfg x d) by assumption. reflexivity.
Qed.

(** X1.  A download that is not saved, at a positive duration and with fuel for
    every page, ends normally.  The requests it sends are fixed by the
    window and the duration, whatever the exchange answers; the frame it
    returns holds every candle of every answer, in the order they came; and
    nothing but the log of requests changes. *)
Theorem download_sends_the_pages (cfg : Config) (x : Exchange) (d from to : Z)
    (fuel : nat) (pair : string) (s : state) :
  exchange s = Some x -> timeframe_calc s = Some d -> 0 < d ->
  (pages from to d <= fuel)%nat ->
  let rqs := page_requests (pages from to d) pair (cfg_timeframe cfg) from to d in
  download_data_for_pair cfg fuel pair (Some from) (Some to) false s =
  (Ok (make_frame pair (answers x (fetch_log s) rqs)),
   set_fetch_log (fetch_log s ++ rqs) s).
Proof. exact (download_unsaved cfg x d from to fuel pair s). Qed.

Lemma download_sends_the_pages_witness :
  download_data_for_pair config_1h 1 "BTC/USDT" (Some 0) (Some (3 * hour)) false
    (ready (listed_exchange hour hour) hour 0 (3 * hour) ∅) =
  (Ok (hourly hour 2),
   set_fetch_log [{| r_symbol := "BTC/USDT"; r_timeframe := "1h";
                     r_since := 0; r_limit := 3 |}]
     (ready (listed_exchange hour hour) hour 0 (3 * hour) ∅)).
Proof.
  rewrite (download_sends_the_pages config_1h (listed_exchange hour hour) hour 0 (3 * hour)
             1 "BTC/USDT" (ready (listed_exchange hour hour) hour 0 (3 * hour) ∅));
    [reflexivity | reflexivity | reflexivity | reflexivity | vm_compute; lia].
Defined.

(** X2.  The requests of such a download: one for each page of 1000 candles of
    the window; each is for the pair, starts inside the window and asks for
    1000 candles at most; together they ask for as many candles as the
    window has room for, never more. *)
Theorem download_asks_within_limit (cfg : Config) (x : Exchange) (d from to : Z)
    (fuel : nat) (pair : string) (s : state) :
  exchange s = Some x -> timeframe_calc s = Some d -> 0 < d -> from <= to ->
  (pages from to d <= fuel)%nat ->
  exists rqs,
    fetch_log (snd (download_data_for_pair cfg fuel pair (Some from) (Some to) false s)) =
      fetch_log s ++ rqs /\
    length rqs = pages from to d /\
    Forall (fun rq => r_symbol rq = pair /\ r_timeframe rq = cfg_timeframe cfg /\
                      from <= r_since rq < to /\ 0 <= r_limit rq <= 1000) rqs /\
    foldr Z.add 0 (map r_limit rqs) = (to - from) / d.
Proof.
  intros Hx Hd Hpos Hle Hfuel.
  rewrite (download_unsaved cfg x d) by assumption. simpl.
  destruct (page_requests_bounds pair (cfg_timeframe cfg) d to (pages from to d) from
              Hpos eq_refl) as (Hlen & Hall & Hsum).
  eexists. repeat split; eauto.
Qed.

Lemma download_asks_within_limit_witness :
  exists rqs,
    fetch_log (snd (download_data_for_pair config_1h 3 "BTC/USDT" (Some 0)
                      (Some (2500 * hour)) false
                      (ready (regular_exchange hour) hour 0 (2500 * hour) ∅))) =
      [] ++ rqs /\
    length rqs = pages 0 (2500 * hour) hour /\
    Forall (fun rq => r_symbol rq = "BTC/USDT"%string /\ r_timeframe rq = "1h"%string /\
                      0 <= r_since rq < 2500 * hour /\ 0 <= r_limit rq <= 1000) rqs /\
    foldr Z.add 0 (map r_limit rqs) = (2500 * hour - 0) / hour.
Proof.
  apply (download_asks_within_limit config_1h (regular_exchange hour) hour 0 (2500 * hour)
           3 "BTC/USDT" (ready (regular_exchange hour) hour 0 (2500 * hour) ∅));
    [reflexivity | reflexivity | reflexivity | vm_compute; discriminate | vm_compute; lia].
Defined.

(** Whatever the duration, the fuel and the exchange, the loop touches
    nothing but the log of requests, and only adds to it. *)
Lemma download_loop_only_requests cfg fuel pair start to index ohlcv_data s :
  only_requests s (snd (download_loop cfg fuel pair start to index ohlcv_data s)).
Proof.
  revert start index ohlcv_data s.
  induction fuel as [|fuel IH]; intros start index ohlcv_data s; simpl.
  - destruct (start <? to); simpl; exists []; now rewrite app_nil_r, set_fetch_log_id.
  - destruct (start <? to); simpl;
      [|exists []; now rewrite app_nil_r, set_fetch_log_id].
    unfold exchange_fetch_ohlcv. munfold.
    destruct (timeframe_calc s) as [d|]; cbv beta iota;
      [|exists []; simpl; now rewrite app_nil_r, set_fetch_log_id].
    destruct (d =? 0);
      [exists []; simpl; now rewrite app_nil_r, set_fetch_log_id|].
    destruct (exchange s) as [x|]; cbv beta iota;
      [|exists []; simpl; now rewrite app_nil_r, set_fetch_log_id].
    match goal with |- only_requests _ (snd (download_loop _ _ _ ?st _ ?i ?o ?s1)) =>
      destruct (IH st i o s1) as (rqs & Hrqs); rewrite Hrqs end.
    simpl. eexists. rewrite <- app_assoc. reflexivity.
Qed.

Lemma download_only_requests cfg fuel pair data_from data_to s :
  only_requests s (snd (download_data_for_pair cfg fuel pair data_from data_to false s)).
Proof.
  unfold download_data_for_pair. munfold.
  destruct data_from as [a|]; cbv beta iota;
    [|exists []; simpl; now rewrite app_nil_r, set_fetch_log_id].
  destruct data_to as [b|]; cbv beta iota;
    [|exists []; simpl; now rewrite app_nil_r, set_fetch_log_id].
  pose proof (download_loop_only_requests cfg fuel pair a b [] [] s) as H.
  destruct (download_loop cfg fuel pair a b [] [] s) as [[r | e |] s1]; exact H.
Qed.

(** A download at no duration or at the duration zero. *)
Lemma download_no_duration (cfg : Config) (fuel : nat) (pair : string)
    (from to : Z) (save : bool) (s : state) :
  from < to -> (0 < fuel)%nat ->
  (timeframe_calc s = None ->
   download_data_for_pair cfg fuel pair (Some from) (Some to) save s = (Raise TypeError, s)) /\
  (timeframe_calc s = Some 0 ->
   download_data_for_pair cfg fuel pair (Some from) (Some to) save s =
     (Raise ZeroDivisionError, s)).
Proof.
  intros Hlt Hfuel. destruct fuel as [|fuel]; [lia|].
  unfold download_data_for_pair. munfold. simpl.
  replace (from <? to) with true by (symmetry; apply Z.ltb_lt; lia).
  munfold. split; intros ->; reflexivity.
Qed.

(** X3.  A download without a duration.  When the window is not empty and the
    duration was left unset, the download raises [TypeError]; when the
    duration is zero, it raises [ZeroDivisionError]; either way before any
    request is sent and without any change. *)
Theorem download_without_duration (cfg : Config) (fuel : nat) (pair : string)
    (from to : Z) (save : bool) (s : state) :
  from < to -> (0 < fuel)%nat ->
  (timeframe_calc s = None ->
   download_data_for_pair cfg fuel pair (Some from) (Some to) save s = (Raise TypeError, s)) /\
  (timeframe_calc s = Some 0 ->
   download_data_for_pair cfg fuel pair (Some from) (Some to) save s =
     (Raise ZeroDivisionError, s)).
Proof. exact (download_no_duration cfg fuel pair from to save s). Qed.

Lemma download_without_duration_witness :
  download_data_for_pair (with_timeframe "1d" config_1h) 1 "BTC/USDT" (Some 0) (Some day) true
    (set_exchange (Some (regular_exchange day)) (set_backtesting_from (Some 0)
       (set_backtesting_to (Some day) (fresh ∅)))) =
  (Raise TypeError,
   set_exchange (Some (regular_exchange day)) (set_backtesting_from (Some 0)
       (set_backtesting_to (Some day) (fresh ∅)))).
Proof.
  apply (download_without_duration (with_timeframe "1d" config_1h) 1 "BTC/USDT" 0 day true);
    [reflexivity | lia | reflexivity].
Defined.

(** X4.  A window that is empty or reversed.  The loop is not entered: the frame
    is empty and no request is sent, at any duration or none, with or
    without an exchange, and without any fuel. *)
Theorem download_empty_window (cfg : Config) (fuel : nat) (pair : string) (from to : Z)
    (s : state) :
  to <= from ->
  download_data_for_pair cfg fuel pair (Some from) (Some to) false s = (Ok [], s).
Proof.
  intros Hle. unfold download_data_for_pair. munfold.
  destruct fuel; simpl;
    now replace (from <? to) with false by (symmetry; apply Z.ltb_ge; lia).
Qed.

Lemma download_empty_window_witness :
  download_data_for_pair config_1h 0 "BTC/USDT" (Some (2 * hour)) (Some hour) false (fresh ∅) =
  (Ok [], fresh ∅).
Proof.
  apply (download_empty_window config_1h 0 "BTC/USDT" (2 * hour) hour (fresh ∅)).
  vm_compute. discriminate.
Defined.

(** ** Directories *)

Lemma only_dirs_towards_refl name s : only_dirs_towards name s s.
Proof. split; [now rewrite set_fs_id | auto]. Qed.

Lemma only_dirs_towards_trans n1 n2 name s1 s2 s3 :
  n1 `prefix_of` name -> n2 `prefix_of` name ->
  only_dirs_towards n1 s1 s2 -> only_dirs_towards n2 s2 s3 ->
  only_dirs_towards name s1 s3.
Proof.
  intros P1 P2 [E1 H1] [E2 H2]. split.
  - rewrite E2, E1. reflexivity.
  - intros q. destruct (H2 q) as [Hq2 | (Hn2 & Hd2 & Hp2)];
      destruct (H1 q) as [Hq1 | (Hn1 & Hd1 & Hp1)].
    + left. congruence.
    + right. repeat split; [assumption | congruence | now transitivity n1].
    + right. repeat split; [congruence | assumption | now transitivity n2].
    + congruence.
Qed.

Lemma mkdir_cases p s :
  (mkdir p s = (Ok tt, set_fs (<[p := Dir]> (fs s)) s) /\ fs s !! p = None) \/
  (exists e, mkdir p s = (Raise e, s) /\ is_OSError e = true).
Proof.
  unfold mkdir. destruct p as [|c p]; [right; eexists; split; reflexivity|].
  unfold path_exists, check_parent, bind, raise, modify. cbv beta iota.
  destruct (fs s !! (c :: p)) eqn:Hp; cbv beta iota;
    [right; eexists; split; reflexivity|].
  destruct (parent (c :: p)) as [|c' q']; [left; split; reflexivity|].
  destruct (fs s !! (c' :: q')) as [[|t|]|]; cbv beta iota;
    [left; split; reflexivity | right; eexists; split; reflexivity ..].
Qed.

Lemma insert_dir_only_dirs p s :
  fs s !! p = None -> only_dirs_towards p s (set_fs (<[p := Dir]> (fs s)) s).
Proof.
  intros Hp. split; [reflexivity|]. intros q. simpl.
  destruct (decide (p = q)) as [<- | Hne].
  - right. rewrite lookup_insert_eq. auto.
  - left. now rewrite lookup_insert_ne.
Qed.

(** [os.makedirs] ends normally or with an [OSError]; either way all it
    did was to make directories on the way to the name. *)
Lemma makedirs_rev_cases rname s :
  exists s', only_dirs_towards (rev rname) s s' /\
    (makedirs_rev rname s = (Ok tt, s') \/
     exists e, makedirs_rev rname s = (Raise e, s') /\ is_OSError e = true).
Proof.
  revert s. induction rname as [|c rhead IH]; intros s.
  - destruct (mkdir_cases [] s) as [[H Hp] | (e & H & He)].
    + eexists. split; [now apply insert_dir_only_dirs | left; exact H].
    + exists s. split; [apply only_dirs_towards_refl | right; eauto].
  - assert (Hhead : rev rhead `prefix_of` rev (c :: rhead)).
    { simpl. now exists [c]. }
    cbn [makedirs_rev].
    match goal with |- context [bind ?m _] => set (pre := m) end.
    assert (Hpre : exists s1, only_dirs_towards (rev rhead) s s1 /\
              (pre s = (Ok tt, s1) \/ exists e, pre s = (Raise e, s1) /\ is_OSError e = true)).
    { subst pre. destruct rhead as [|c' r'].
      - exists s. split; [apply only_dirs_towards_refl | now left].
      - unfold path_exists, bind, ret, try_except. cbv beta iota.
        destruct (fs s !! rev (c' :: r')); cbv beta iota.
        + exists s. split; [apply only_dirs_towards_refl | now left].
        + destruct (IH s) as (s1 & Hs1 & [Hok | (e & Hr & He)]).
          * exists s1. rewrite Hok. auto.
          * exists s1. rewrite Hr. split; [assumption|].
            destruct e; try discriminate He; eauto. }
    destruct Hpre as (s1 & Hs1 & [Hok | (e & Hr & He)]).
    + rewrite (bind_Ok _ _ _ _ _ Hok).
      destruct (mkdir_cases (rev (c :: rhead)) s1) as [[H Hp] | (e & H & He)].
      * eexists. split; [|left; exact H].
        eapply only_dirs_towards_trans; [exact Hhead | reflexivity | exact Hs1 |].
        now apply insert_dir_only_dirs.
      * exists s1. split; [|right; eauto].
        eapply only_dirs_towards_trans; [exact Hhead | reflexivity | exact Hs1 |].
        apply only_dirs_towards_refl.
    + rewrite (bind_Raise _ _ _ _ _ Hr). exists s1. split; [|right; eauto].
      eapply only_dirs_towards_trans; [exact Hhead | reflexivity | exact Hs1 |].
      apply only_dirs_towards_refl.
Qed.

(** [create_directory] never raises: a failure of [os.makedirs] is caught. *)
Lemma create_directory_ok directory s :
  exists s', create_directory directory s = (Ok tt, s') /\
             only_dirs_towards directory s s'.
Proof.
  unfold create_directory, makedirs, try_except, ret.
  destruct (makedirs_rev_cases (rev directory) s) as (s1 & Hs1 & [Hok | (e & Hr & He)]);
    rewrite rev_involutive in Hs1; exists s1.
  - now rewrite Hok.
  - now rewrite Hr, He.
Qed.

(** ** The name of the cache file *)

Lemma str_split_length sep s : length (str_split sep s) = S (count_char sep s).
Proof.
  induction s as [|a s IH]; simpl; [reflexivity|].
  destruct (Ascii.eqb a sep); simpl; [now rewrite IH|].
  destruct (str_split sep s) as [|w ws]; simpl in *; [discriminate | assumption].
Qed.

Lemma str_split_word sep s : count_char sep s = O -> str_split sep s = [s].
Proof.
  induction s as [|a s IH]; simpl; [reflexivity|].
  destruct (Ascii.eqb a sep); simpl; [discriminate|]. intros H. now rewrite IH.
Qed.

Lemma str_split_app sep a r :
  count_char sep a = O ->
  str_split sep (a +:+ String sep r) = a :: str_split sep r.
Proof.
  induction a as [|c a IH]; simpl.
  - now rewrite Ascii.eqb_refl.
  - destruct (Ascii.eqb c sep); simpl; [discriminate|]. intros H. now rewrite IH.
Qed.

(** The parts of a split, put together again with the separator. *)
Lemma str_split_two sep s coin base :
  str_split sep s = [coin; base] ->
  s = coin +:+ String sep base /\ count_char sep coin = O /\ count_char sep base = O.
Proof.
  revert coin. induction s as [|a s IH]; simpl; intros coin; [discriminate|].
  destruct (Ascii.eqb_spec a sep) as [-> | Hne].
  - intros [= <- Hs]. pose proof (str_split_length sep s) as Hl. rewrite Hs in Hl.
    simpl in Hl. injection Hl as Hl. rewrite (str_split_word sep s) in Hs by auto.
    injection Hs as ->. auto.
  - destruct (str_split sep s) as [|w ws] eqn:Hs; [discriminate|].
    intros [= <- ->]. destruct (IH w eq_refl) as (-> & Hc & Hb). simpl.
    destruct (Ascii.eqb_spec a sep); [contradiction|]. auto.
Qed.

(** X5.  The name of the cache file.  A pair with exactly one [/] gets the name
    [data-<coin><base><timeframe>.json]; any other pair raises
    [ValueError]; the state is not touched. *)
Theorem generate_datafile_name_cases (cfg : Config) (pair : string) (s : state) :
  (count_char "/" pair = 1%nat ->
   exists coin base, pair = coin +:+ "/" +:+ base /\
     generate_datafile_name cfg pair s =
       (Ok ("data-" +:+ coin +:+ base +:+ cfg_timeframe cfg +:+ ".json"), s)) /\
  (count_char "/" pair <> 1%nat ->
   generate_datafile_name cfg pair s = (Raise ValueError, s)).
Proof.
  unfold generate_datafile_name.
  pose proof (str_split_length "/" pair) as Hl. split; intros Hc.
  - rewrite Hc in Hl. destruct (str_split "/" pair) as [|coin [|base [|x l]]] eqn:Hs;
      try discriminate Hl.
    destruct (str_split_two _ _ _ _ Hs) as (-> & _ & _). exists coin, base. auto.
  - destruct (str_split "/" pair) as [|coin [|base [|x l]]] eqn:Hs; try reflexivity.
    simpl in Hl. congruence.
Qed.

Lemma generate_datafile_name_cases_witness :
  generate_datafile_name config_1h "BTCUSDT" (fresh ∅) = (Raise ValueError, fresh ∅) /\
  generate_datafile_name config_1h "BTC/USDT/X" (fresh ∅) = (Raise ValueError, fresh ∅) /\
  exists coin base, "BTC/USDT"%string = coin +:+ "/" +:+ base /\
     generate_datafile_name config_1h "BTC/USDT" (fresh ∅) =
       (Ok ("data-" +:+ coin +:+ base +:+ "1h" +:+ ".json"), fresh ∅).
Proof.
  split; [|split].
  - apply (proj2 (generate_datafile_name_cases config_1h "BTCUSDT" (fresh ∅))).
    vm_compute. discriminate.
  - apply (proj2 (generate_datafile_name_cases config_1h "BTC/USDT/X" (fresh ∅))).
    vm_compute. discriminate.
  - apply (proj1 (generate_datafile_name_cases config_1h "BTC/USDT" (fresh ∅))).
    reflexivity.
Defined.

(** X6.  Two pairs that differ only in where the [/] stands share one cache
    file: the name keeps the letters of the pair and drops the [/]. *)
Theorem generate_datafile_name_collision (cfg : Config) (a b c : string) (s : state) :
  count_char "/" a = O -> count_char "/" b = O -> count_char "/" c = O ->
  exists name,
    generate_datafile_name cfg ((a +:+ b) +:+ "/" +:+ c) s = (Ok name, s) /\
    generate_datafile_name cfg (a +:+ "/" +:+ (b +:+ c)) s = (Ok name, s).
Proof.
  intros Ha Hb Hc.
  assert (Hab : count_char "/" (a +:+ b) = O).
  { clear Hc. induction a as [|x a IH]; simpl in *; [assumption|].
    destruct (Ascii.eqb x "/"); [discriminate | auto]. }
  assert (Hbc : count_char "/" (b +:+ c) = O).
  { clear Ha Hab. induction b as [|x b IH]; simpl in *; [assumption|].
    destruct (Ascii.eqb x "/"); [discriminate | auto]. }
  unfold generate_datafile_name.
  change ("/" +:+ c) with (String "/" c). change ("/" +:+ (b +:+ c)) with (String "/" (b +:+ c)).
  rewrite !str_split_app, !str_split_word by assumption.
  eexists. split; [reflexivity|]. unfold ret. now rewrite !append_assoc.
Qed.

Lemma generate_datafile_name_collision_witness :
  exists name,
    generate_datafile_name config_1h "BTCU/SDT" (fresh ∅) = (Ok name, fresh ∅) /\
    generate_datafile_name config_1h "BTC/USDT" (fresh ∅) = (Ok name, fresh ∅).
Proof.
  apply (generate_datafile_name_collision config_1h "BTC" "U" "SDT" (fresh ∅));
    reflexivity.
Defined.

(** ** Looking for the cache file *)

Lemma generate_datafile_name_state cfg pair s o s' :
  generate_datafile_name cfg pair s = (o, s') -> s' = s.
Proof.
  unfold generate_datafile_name, ret, raise.
  destruct (str_split "/" pair) as [|coin [|base [|x l]]]; now intros [= _ <-].
Qed.

(** The name does not depend on the state. *)
Lemma generate_datafile_name_any cfg pair name s s1 :
  generate_datafile_name cfg pair s = (Ok name, s) ->
  generate_datafile_name cfg pair s1 = (Ok name, s1).
Proof.
  unfold generate_datafile_name, ret, raise.
  destruct (str_split "/" pair) as [|coin [|base [|y l]]]; congruence.
Qed.

Lemma not_prefix_longer (l : list string) (x : string) : ~ (l ++ [x]) `prefix_of` l.
Proof.
  intros H. apply prefix_length in H. rewrite length_app in H. simpl in H. lia.
Qed.

(** The run of [check_datafolder]. *)
Lemma check_datafolder_run (cfg : Config) (pair name : string) (s : state) :
  generate_datafile_name cfg pair s = (Ok name, s) ->
  exists s',
    check_datafolder cfg pair s =
      (Ok (bool_decide (is_Some (fs s !! (exchange_path cfg ++ [name])))), s') /\
    only_dirs_towards (exchange_path cfg) s s' /\
    (is_Some (fs s !! exchange_path cfg) -> s' = s).
Proof.
  intros Hname. unfold check_datafolder. rewrite (bind_Ok _ _ _ _ _ Hname).
  unfold path_exists at 1. unfold bind at 1.
  assert (Hres : forall s', only_dirs_towards (exchange_path cfg) s s' ->
            path_exists (exchange_path cfg ++ [name]) s' =
            (Ok (bool_decide (is_Some (fs s !! (exchange_path cfg ++ [name])))), s')).
  { intros s' [_ Hs']. unfold path_exists. f_equal. f_equal.
    destruct (Hs' (exchange_path cfg ++ [name])) as [-> | (_ & _ & Hp)].
    - destruct (fs s !! (exchange_path cfg ++ [name])) eqn:E.
      + symmetry. apply bool_decide_eq_true. eauto.
      + symmetry. apply bool_decide_eq_false. intros [? ?]. discriminate.
    - now apply not_prefix_longer in Hp. }
  destruct (fs s !! exchange_path cfg) eqn:Hdir.
  - unfold ret, bind. exists s. split; [|split; auto].
    + apply Hres, only_dirs_towards_refl.
    + apply only_dirs_towards_refl.
  - destruct (create_directory_ok (exchange_path cfg) s) as (s' & Hc & Hs').
    unfold bind. rewrite Hc. exists s'. split; [|split].
    + now apply Hres.
    + assumption.
    + intros [? ?]. discriminate.
Qed.

(** X7.  [check_datafolder] on a pair with one [/] never raises, also when the
    directory cannot be made.  It tells whether the cache file was there,
    and all it changes is that directories on the way to
    [data/backtesting-data/<exchange>] may have been made: no entry that was
    there is changed or removed, and no file is made. *)
Theorem check_datafolder_effect (cfg : Config) (pair name : string) (s : state) :
  generate_datafile_name cfg pair s = (Ok name, s) ->
  exists s',
    check_datafolder cfg pair s =
      (Ok (bool_decide (is_Some (fs s !! (exchange_path cfg ++ [name])))), s') /\
    only_dirs_towards (exchange_path cfg) s s' /\
    (is_Some (fs s !! exchange_path cfg) -> s' = s).
Proof. exact (check_datafolder_run cfg pair name s). Qed.

Lemma check_datafolder_effect_witness :
  exists s',
    check_datafolder config_1h "BTC/USDT" (fresh ∅) =
      (Ok (bool_decide (is_Some ((∅ : gmap path node) !! (btc_dir ++ ["data-BTCUSDT1h.json"%string])))), s') /\
    only_dirs_towards btc_dir (fresh ∅) s' /\
    (is_Some ((∅ : gmap path node) !! btc_dir) -> s' = fresh ∅).
Proof.
  apply (check_datafolder_effect config_1h "BTC/USDT" "data-BTCUSDT1h.json" (fresh ∅)).
  reflexivity.
Defined.

Lemma mkdir_ok q c s :
  fs s !! (q ++ [c]) = None -> q = [] \/ fs s !! q = Some Dir ->
  mkdir (q ++ [c]) s = (Ok tt, set_fs (<[q ++ [c] := Dir]> (fs s)) s).
Proof.
  intros Hp Hq. remember (q ++ [c]) as p eqn:Hqc.
  destruct p as [|a p]; [now destruct q|].
  unfold mkdir, path_exists, check_parent, bind, raise, modify. cbv beta iota.
  rewrite Hp. unfold parent. rewrite Hqc, removelast_last.
  destruct Hq as [-> | Hq]; [reflexivity|].
  destruct q as [|a' q']; [reflexivity|]. now rewrite Hq.
Qed.

(** [os.makedirs] succeeds when nothing is at the name yet and no file is
    in the way. *)
Lemma makedirs_rev_ok rname s :
  rname <> [] ->
  (forall q, q `prefix_of` rev rname -> q <> [] -> q <> rev rname ->
             fs s !! q = None \/ fs s !! q = Some Dir) ->
  fs s !! rev rname = None ->
  exists s', makedirs_rev rname s = (Ok tt, s') /\
             fs s' !! rev rname = Some Dir /\
             only_dirs_towards (rev rname) s s'.
Proof.
  revert s. induction rname as [|c rhead IH]; intros s Hne Hfree Hnone; [congruence|].
  assert (Hhead : rev rhead `prefix_of` rev (c :: rhead)) by (simpl; now exists [c]).
  assert (Hneq : rev rhead <> rev (c :: rhead)).
  { simpl. intros E. apply (f_equal length) in E. rewrite length_app in E. simpl in E. lia. }
  cbn [makedirs_rev]. change (rev (c :: rhead)) with (rev rhead ++ [c]) in *.
  destruct rhead as [|c' r'].
  - unfold ret at 1. unfold bind.
    rewrite (mkdir_ok (rev []) c s) by (auto; now left). eexists. split; [reflexivity|].
    split.
    + simpl. apply lookup_insert_eq.
    + now apply insert_dir_only_dirs.
  - unfold path_exists, try_except, bind, ret. cbv beta iota.
    assert (Hr : rev (c' :: r') <> []).
    { simpl. now destruct (rev r'). }
    destruct (fs s !! rev (c' :: r')) as [n|] eqn:Hd; cbv beta iota.
    + destruct (Hfree (rev (c' :: r')) Hhead Hr Hneq) as [E | E]; [congruence|].
      rewrite mkdir_ok by auto.
      eexists. split; [reflexivity|]. split.
      * simpl. apply lookup_insert_eq.
      * now apply insert_dir_only_dirs.
    + destruct (IH s) as (s1 & Hok & Hdir & Hs1); [discriminate| |assumption|].
      { intros q Hq Hq0 Hq1. apply Hfree; auto.
        - now transitivity (rev (c' :: r')).
        - intros E. subst q. apply prefix_length in Hq. rewrite length_app in Hq.
          simpl in Hq. lia. }
      rewrite Hok. cbv beta iota.
      assert (Hn1 : fs s1 !! (rev (c' :: r') ++ [c]) = None).
      { destruct Hs1 as [_ Hs1].
        destruct (Hs1 (rev (c' :: r') ++ [c])) as [-> | (_ & _ & Hp)]; [assumption|].
        now apply not_prefix_longer in Hp. }
      rewrite mkdir_ok by auto. eexists. split; [reflexivity|]. split.
      * simpl. apply lookup_insert_eq.
      * eapply only_dirs_towards_trans; [exact Hhead | reflexivity | exact Hs1 |].
        now apply insert_dir_only_dirs.
Qed.

(** X8.  [check_datafolder] makes the directory of the exchange when it is not
    there and no file is in the way; afterwards it is there. *)
Theorem check_datafolder_creates (cfg : Config) (pair name : string) (s : state) :
  generate_datafile_name cfg pair s = (Ok name, s) ->
  fs s !! exchange_path cfg = None ->
  (fs s !! ["data"%string] = None \/ fs s !! ["data"%string] = Some Dir) ->
  (fs s !! ["data"; "backtesting-data"]%string = None \/
   fs s !! ["data"; "backtesting-data"]%string = Some Dir) ->
  exists b s', check_datafolder cfg pair s = (Ok b, s') /\
               fs s' !! exchange_path cfg = Some Dir.
Proof.
  intros Hname Hnone H1 H2. unfold check_datafolder. rewrite (bind_Ok _ _ _ _ _ Hname).
  unfold path_exists at 1. unfold bind at 1. rewrite Hnone.
  destruct (makedirs_rev_ok (rev (exchange_path cfg)) s) as (s1 & Hok & Hdir & Hs1).
  - discriminate.
  - rewrite rev_involutive. intros q [k Hq] Hq0 Hq1. unfold exchange_path in Hq.
    destruct q as [|a [|b [|c [|e q]]]]; [congruence | ..]; simpl in Hq.
    + injection Hq as <- _. exact H1.
    + injection Hq as <- <- _. exact H2.
    + exfalso. apply Hq1. unfold exchange_path. now injection Hq as <- <- <- _.
    + discriminate Hq.
  - now rewrite rev_involutive.
  - rewrite rev_involutive in *.
    unfold create_directory, makedirs, try_except, bind. rewrite Hok.
    unfold path_exists. eexists _, s1. split; [reflexivity | assumption].
Qed.

Lemma check_datafolder_creates_witness :
  exists b s', check_datafolder config_1h "BTC/USDT" (fresh ∅) = (Ok b, s') /\
               fs s' !! btc_dir = Some Dir.
Proof.
  apply (check_datafolder_creates config_1h "BTC/USDT" "data-BTCUSDT1h.json" (fresh ∅));
    [reflexivity | reflexivity | now left | now left].
Defined.

(** ** Saving and decoding *)

Lemma write_file_cases q c t s :
  q <> [] ->
  write_file (q ++ [c]) t s =
  match fs s !! (q ++ [c]), fs s !! q with
  | Some Dir, _ => (Raise IsADirectoryError, s)
  | _, Some Dir => (Ok tt, set_fs (<[q ++ [c] := File t]> (fs s)) s)
  | _, Some _ => (Raise NotADirectoryError, s)
  | _, None => (Raise FileNotFoundError, s)
  end.
Proof.
  intros Hq. unfold write_file, check_parent, parent, bind, get_state, raise, modify.
  cbv beta iota. rewrite removelast_last.
  destruct q as [|a q]; [congruence|].
  destruct (fs s !! ((a :: q) ++ [c])) as [[|t'|]|]; [reflexivity | ..];
    destruct (fs s !! (a :: q)) as [[|t''|]|]; reflexivity.
Qed.

(** The two ways [save_dataframe] ends. *)
Lemma save_dataframe_cases (cfg : Config) (pair name : string) (df : DataFrame)
    (s : state) :
  generate_datafile_name cfg pair s = (Ok name, s) ->
  fs s !! (exchange_path cfg ++ [name]) <> Some Dir ->
  (fs s !! exchange_path cfg = Some Dir ->
   save_dataframe cfg pair df s =
     (Ok tt, set_fs (<[exchange_path cfg ++ [name] := cache_of df]> (fs s)) s)) /\
  (fs s !! exchange_path cfg = None ->
   save_dataframe cfg pair df s = (Raise FileNotFoundError, s)).
Proof.
  intros Hname Hfile. unfold save_dataframe. rewrite (bind_Ok _ _ _ _ _ Hname).
  rewrite write_file_cases by discriminate. unfold cache_of.
  split; intros ->; destruct (fs s !! (exchange_path cfg ++ [name])) as [[|t|]|];
    congruence.
Qed.



(** What a successful [save_dataframe] did. *)
Lemma save_dataframe_Ok cfg pair df s s' :
  save_dataframe cfg pair df s = (Ok tt, s') ->
  exists name,
    generate_datafile_name cfg pair s = (Ok name, s) /\
    fs s !! exchange_path cfg = Some Dir /\
    s' = set_fs (<[exchange_path cfg ++ [name] := cache_of df]> (fs s)) s.
Proof.
  unfold save_dataframe. intros H. apply bind_Ok_inv in H as (name & s1 & Hname & H).
  pose proof (generate_datafile_name_state _ _ _ _ _ Hname) as ->.
  exists name. split; [assumption|]. rewrite write_file_cases in H by discriminate.
  unfold cache_of.
  destruct (fs s !! (exchange_path cfg ++ [name])) as [[|t|]|];
    destruct (fs s !! exchange_path cfg) as [[|t'|]|]; try discriminate H;
    injection H as <-; auto.
Qed.

Lemma rows_of_records_of_rows df : rows_of_records (map record_of_row df) = Some df.
Proof.
  induction df as [|r df IH]; [reflexivity|].
  cbn [map rows_of_records]. rewrite IH. destruct r. reflexivity.
Qed.

(** ** Reading the cache *)

Lemma pd_read_json_to_json df : pd_read_json (JStr (to_json_records df)) = Ok df.
Proof. unfold pd_read_json, to_json_records. now rewrite rows_of_records_of_rows. Qed.

Lemma py_item_last (l : list Z) (x : Z) :
  py_item (l ++ [x]) (length (l ++ [x]) - 1) = Ok x.
Proof.
  unfold py_item. rewrite length_app. simpl.
  replace (length l + 1 - 1)%nat with (length l) by lia.
  rewrite nth_error_app2 by lia. now rewrite Nat.sub_diag.
Qed.

(** Opening and reading the cache file under [try] ... [except]: its text,
    or nothing when there is no file to open or no text to read. *)
Lemma try_read p s :
  try_except (t <- read_file p ;; ret (Some t)) (fun _ => true) (ret None) s =
  (Ok (match fs s !! p with Some (File t) => Some t | _ => None end), s).
Proof.
  unfold read_file, check_parent. munfold.
  destruct (fs s !! p) as [[|t|]|]; try reflexivity.
  destruct (parent p); [reflexivity|]. now destruct (fs s !! _) as [[| |]|].
Qed.

(** A cache file that holds a frame with at least one row is decoded, and
    the rest is the reconciliation with the window. *)
Lemma read_decoded cfg fuel pair name r0 df0 df_end s b_from b_to d :
  generate_datafile_name cfg pair s = (Ok name, s) ->
  fs s !! (exchange_path cfg ++ [name]) = Some (cache_of (r0 :: df0)) ->
  last (index_values (r0 :: df0)) = Some df_end ->
  backtesting_from s = Some b_from -> backtesting_to s = Some b_to ->
  timeframe_calc s = Some d ->
  read_data_from_datafile cfg fuel pair s =
  reconcile cfg fuel pair (r0 :: df0) (time r0) df_end b_from b_to d s.
Proof.
  intros Hname Hfile Hlast Hfrom Hto Hd.
  unfold read_data_from_datafile. rewrite (bind_Ok _ _ _ _ _ Hname).
  rewrite (bind_Ok _ _ _ _ _ (try_read _ s)).
  rewrite Hfile. unfold cache_of. cbv beta iota.
  unfold json_dump, json_loads, lift at 1. unfold bind at 1.
  unfold lift at 1. unfold bind at 1. rewrite pd_read_json_to_json.
  unfold set_index_time, lift at 1. unfold bind at 1.
  unfold lift at 1. unfold bind at 1.
  change (py_item (index_values (r0 :: df0)) 0) with (Ok (time r0)). cbv beta iota.
  assert (Hitem : py_item (index_values (r0 :: df0))
                    (length (index_values (r0 :: df0)) - 1) = Ok df_end).
  { destruct (exists_last (l := index_values (r0 :: df0))) as (l & x & E);
      [discriminate|]. rewrite E in *. rewrite last_snoc in Hlast.
    injection Hlast as ->. apply py_item_last. }
  unfold lift at 1. unfold bind at 1. rewrite Hitem.
  unfold get_state. unfold bind at 1.
  unfold number. rewrite Hto, Hd, Hfrom. unfold ret at 1 2 3.
  unfold bind at 1. unfold bind at 1. unfold bind at 1.
  reflexivity.
Qed.

Lemma row_of_record_inv j r : row_of_record j = Some r -> j = record_of_row r.
Proof.
  unfold row_of_record. intros H.
  repeat match type of H with
         | context [match ?x with _ => _ end] =>
             is_var x; destruct x; try discriminate H
         end.
  match type of H with
  | context [bool_decide ?P] => destruct (bool_decide_reflect P) as [E | E];
                                  try discriminate H
  end.
  injection E as -> -> -> -> -> -> ->. injection H as <-. reflexivity.
Qed.

Lemma rows_of_records_inv l df : rows_of_records l = Some df -> l = map record_of_row df.
Proof.
  revert df. induction l as [|j l IH]; simpl; intros df H.
  - now injection H as <-.
  - destruct (row_of_record j) as [r|] eqn:Hr; [|discriminate].
    destruct (rows_of_records l) as [df'|]; [|discriminate]. injection H as <-.
    simpl. f_equal; [now apply row_of_record_inv | now apply IH].
Qed.

(** [pd.read_json] gives a frame only for the text [save_dataframe] writes
    for that frame. *)
Lemma pd_read_json_inv j df : pd_read_json j = Ok df -> File (Enc j) = cache_of df.
Proof.
  unfold pd_read_json. destruct j as [| | | | [s|[| | | | |l|]] | |]; try discriminate.
  destruct (rows_of_records l) as [df'|] eqn:Hl; [|discriminate].
  intros [= <-]. apply rows_of_records_inv in Hl as ->. reflexivity.
Qed.

Lemma pd_read_json_raises j e : pd_read_json j = Raise e -> e = ValueError.
Proof.
  unfold pd_read_json. destruct j as [| | | | [s|[| | | | |l|]] | |];
    try (now intros [= <-]).
  destruct (rows_of_records l); [discriminate | now intros [= <-]].
Qed.

Lemma pd_read_json_no_timeout j : pd_read_json j <> Timeout.
Proof.
  unfold pd_read_json. destruct j as [| | | | [s|[| | | | |l|]] | |]; try discriminate.
  destruct (rows_of_records l); discriminate.
Qed.

(** The reads that end before the window is looked at. *)
Lemma read_unreadable (cfg : Config) (fuel : nat) (pair name : string)
    (s : state) :
  generate_datafile_name cfg pair s = (Ok name, s) ->
  let file := exchange_path cfg ++ [name] in
  (fs s !! file = None \/ fs s !! file = Some Dir \/ fs s !! file = Some Blob ->
   read_data_from_datafile cfg fuel pair s = (Ok PyFalse, s)) /\
  (forall raw, fs s !! file = Some (File (Plain raw)) ->
   read_data_from_datafile cfg fuel pair s = (Raise JSONDecodeError, s)) /\
  (forall j, fs s !! file = Some (File (Enc j)) -> (forall df, pd_read_json j <> Ok df) ->
   read_data_from_datafile cfg fuel pair s = (Raise ValueError, s)) /\
  (fs s !! file = Some (cache_of []) ->
   read_data_from_datafile cfg fuel pair s = (Raise KeyError, s)).
Proof.
  intros Hname file. subst file.
  assert (Hopen : forall P : outcome series * state -> Prop,
            P (let (o, s') :=
                 match fs s !! (exchange_path cfg ++ [name]) with
                 | Some (File t) => (Ok (Some t), s)
                 | _ => (Ok None, s)
                 end in
               match o with
               | Ok (Some data) =>
                   (json_file <- lift (json_loads data) ;;
                    df <- lift (pd_read_json json_file) ;;
                    df <- lift (set_index_time df) ;;
                    lift (Raise KeyError : outcome series)) s'
               | _ => (Ok PyFalse, s')
               end) ->
            (forall t df, fs s !! (exchange_path cfg ++ [name]) = Some (File t) ->
                          (j <- lift (json_loads t) ;; df <- lift (pd_read_json j) ;;
                           lift (set_index_time df)) s <> (Ok df, s)) ->
            P (read_data_from_datafile cfg fuel pair s)).
  { intros P HP Hbad. unfold read_data_from_datafile. rewrite (bind_Ok _ _ _ _ _ Hname).
    rewrite (bind_Ok _ _ _ _ _ (try_read _ s)).
    destruct (fs s !! (exchange_path cfg ++ [name])) as [[|t|]|] eqn:Hfile;
      try exact HP. cbv beta iota in HP.
    specialize (Hbad t). revert HP Hbad. unfold lift, bind.
    destruct (json_loads t) as [j | e |]; try (intros HP _; exact HP).
    destruct (pd_read_json j) as [df | e |]; try (intros HP _; exact HP).
    destruct (set_index_time df) as [df' | e |] eqn:Hidx; try (intros HP _; exact HP).
    intros _ Hbad. now destruct (Hbad df' eq_refl). }
  split; [|split; [|split]].
  - intros [H | [H | H]]; apply Hopen; rewrite H; try reflexivity; discriminate.
  - intros raw H. apply Hopen; rewrite H; [reflexivity|].
    intros t df [= <-]. discriminate.
  - intros j H Hj. apply Hopen; rewrite H.
    + unfold lift, bind. simpl. destruct (pd_read_json j) as [df | e |] eqn:E.
      * now destruct (Hj df).
      * now rewrite (pd_read_json_raises _ _ E).
      * now destruct (pd_read_json_no_timeout j).
    + intros t df [= <-]. unfold lift, bind. simpl.
      destruct (pd_read_json j) as [df' | e |] eqn:E; try discriminate.
      now destruct (Hj df').
  - intros H. apply Hopen; rewrite H; [reflexivity|].
    intros t df [= <-]. discriminate.
Qed.

(** X11.  Where the cache file cannot be read or decoded,
    [read_data_from_datafile] does not fall back on a download.  A file that
    is missing, that cannot be opened (a directory) or whose bytes cannot be
    read as text gives [False]: all of this happens under the [try].  A text
    that was read and is no JSON document raises [JSONDecodeError], and the
    cache of an empty frame raises [KeyError]: both happen after the [try].
    Nothing is requested and nothing is written. *)
Theorem read_data_from_datafile_failures (cfg : Config) (fuel : nat) (pair name : string)
    (s : state) :
  generate_datafile_name cfg pair s = (Ok name, s) ->
  let file := exchange_path cfg ++ [name] in
  (fs s !! file = None \/ fs s !! file = Some Dir \/ fs s !! file = Some Blob ->
   read_data_from_datafile cfg fuel pair s = (Ok PyFalse, s)) /\
  (forall raw, fs s !! file = Some (File (Plain raw)) ->
   read_data_from_datafile cfg fuel pair s = (Raise JSONDecodeError, s)) /\
  (fs s !! file = Some (cache_of []) ->
   read_data_from_datafile cfg fuel pair s = (Raise KeyError, s)).
Proof.
  intros Hname file.
  destruct (read_unreadable cfg fuel pair name s Hname) as (H1 & H2 & _ & H4).
  auto.
Qed.

Lemma read_data_from_datafile_failures_witness :
  read_data_from_datafile config_1h 1 "BTC/USDT"
    (ready (regular_exchange hour) hour 0 (2 * hour) (disk_with Blob)) =
    (Ok PyFalse, ready (regular_exchange hour) hour 0 (2 * hour) (disk_with Blob)) /\
  read_data_from_datafile config_1h 1 "BTC/USDT"
    (ready (regular_exchange hour) hour 0 (2 * hour) (disk_with (File (Plain "{oops")))) =
    (Raise JSONDecodeError,
     ready (regular_exchange hour) hour 0 (2 * hour) (disk_with (File (Plain "{oops")))) /\
  read_data_from_datafile config_1h 1 "BTC/USDT"
    (ready (regular_exchange hour) hour 0 (2 * hour) (disk_with (cache_of []))) =
    (Raise KeyError,
     ready (regular_exchange hour) hour 0 (2 * hour) (disk_with (cache_of []))).
Proof.
  split; [|split].
  - apply (proj1 (read_data_from_datafile_failures config_1h 1 "BTC/USDT" "data-BTCUSDT1h.json"
                    (ready (regular_exchange hour) hour 0 (2 * hour) (disk_with Blob)) eq_refl)).
    right. right. reflexivity.
  - apply (proj1 (proj2 (read_data_from_datafile_failures config_1h 1 "BTC/USDT"
                    "data-BTCUSDT1h.json"
                    (ready (regular_exchange hour) hour 0 (2 * hour)
                       (disk_with (File (Plain "{oops")))) eq_refl)) "{oops"%string).
    reflexivity.
  - apply (proj2 (proj2 (read_data_from_datafile_failures config_1h 1 "BTC/USDT"
                    "data-BTCUSDT1h.json"
                    (ready (regular_exchange hour) hour 0 (2 * hour)
                       (disk_with (cache_of []))) eq_refl))).
    reflexivity.
Defined.

(** ** Positions and slices *)

Lemma list_index_lookup x l i : list_index x l = Ok i -> l !! i = Some x.
Proof.
  revert i. induction l as [|y l IH]; simpl; intros i; [discriminate|].
  destruct (Z.eqb_spec x y) as [-> | Hne].
  - now intros [= <-].
  - destruct (list_index x l) as [k | e |]; try discriminate.
    intros [= <-]. simpl. now apply IH.
Qed.

Lemma list_index_outcome x l :
  (exists i, list_index x l = Ok i) \/ list_index x l = Raise ValueError.
Proof.
  induction l as [|y l IH]; simpl; [now right|].
  destruct (x =? y); [left; eauto|].
  destruct IH as [[i ->] | ->]; [left; eauto | now right].
Qed.

Lemma list_index_skipn x l i j :
  list_index x l = Ok j -> (i <= j)%nat -> list_index x (skipn i l) = Ok (j - i)%nat.
Proof.
  revert i j. induction l as [|y l IH]; simpl; intros i j; [discriminate|].
  destruct i as [|i]; simpl.
  - intros H _. now rewrite Nat.sub_0_r.
  - destruct (x =? y); [intros [= <-]; lia|].
    destruct (list_index x l) as [k | e |] eqn:Hk; try discriminate.
    intros [= <-] Hle. simpl. apply IH; [reflexivity | lia].
Qed.

Lemma list_index_firstn x l j n :
  list_index x l = Ok j -> (j < n)%nat -> list_index x (firstn n l) = Ok j.
Proof.
  revert j n. induction l as [|y l IH]; simpl; intros j n; [discriminate|].
  destruct n as [|n]; [lia|]. simpl.
  destruct (x =? y); [auto|].
  destruct (list_index x l) as [k | e |] eqn:Hk; try discriminate.
  intros [= <-] Hlt. rewrite (IH k n); [reflexivity | reflexivity | lia].
Qed.

Lemma list_index_bound x l j : list_index x l = Ok j -> (j < length l)%nat.
Proof.
  intros H. apply list_index_lookup in H. now apply lookup_lt_Some in H.
Qed.

Lemma index_values_slice df i j :
  index_values (slice df i j) = slice (index_values df) i j.
Proof. unfold index_values, slice. now rewrite skipn_map, firstn_map. Qed.

(** A slice between the first positions of [a] and of [b], when it is not
    empty, starts with [a], ends with [b], and has [b] nowhere else. *)
Lemma slice_between a b l i j :
  list_index a l = Ok i -> list_index b l = Ok j ->
  slice l i (j + 1) <> [] ->
  head (slice l i (j + 1)) = Some a /\
  last (slice l i (j + 1)) = Some b /\
  list_index b (slice l i (j + 1)) = Ok (length (slice l i (j + 1)) - 1)%nat.
Proof.
  intros Hi Hj Hne. unfold slice in *.
  destruct (le_lt_dec i j) as [Hle | Hgt].
  2: { replace (j + 1 - i)%nat with O in Hne by lia. now destruct Hne. }
  pose proof (list_index_bound _ _ _ Hj) as Hjl.
  assert (Hlen : length (firstn (j + 1 - i) (skipn i l)) = (j + 1 - i)%nat).
  { rewrite length_firstn, length_skipn. lia. }
  assert (Hb : list_index b (firstn (j + 1 - i) (skipn i l)) = Ok (j - i)%nat).
  { apply list_index_firstn; [|lia]. now apply list_index_skipn. }
  assert (Ha : list_index a (firstn (j + 1 - i) (skipn i l)) = Ok O).
  { apply list_index_firstn; [|lia].
    rewrite (list_index_skipn a l i i Hi) by lia. now rewrite Nat.sub_diag. }
  split; [|split].
  - rewrite head_lookup. now apply list_index_lookup.
  - rewrite last_lookup, Hlen. replace (Nat.pred (j + 1 - i)) with (j - i)%nat by lia.
    now apply list_index_lookup.
  - rewrite Hlen, Hb. f_equal. lia.
Qed.

(** ** What a successful read did *)

Lemma generate_datafile_name_outcome cfg pair s :
  (exists name, generate_datafile_name cfg pair s = (Ok name, s)) \/
  generate_datafile_name cfg pair s = (Raise ValueError, s).
Proof.
  unfold generate_datafile_name, ret, raise.
  destruct (str_split "/" pair) as [|coin [|base [|x l]]]; eauto.
Qed.

Lemma read_Ok_inv cfg fuel pair s df s' b_from b_to d :
  read_data_from_datafile cfg fuel pair s = (Ok (Frame df), s') ->
  backtesting_from s = Some b_from -> backtesting_to s = Some b_to ->
  timeframe_calc s = Some d ->
  exists name r0 df0 df_end,
    generate_datafile_name cfg pair s = (Ok name, s) /\
    fs s !! (exchange_path cfg ++ [name]) = Some (cache_of (r0 :: df0)) /\
    last (index_values (r0 :: df0)) = Some df_end /\
    reconcile cfg fuel pair (r0 :: df0) (time r0) df_end b_from b_to d s =
      (Ok (Frame df), s').
Proof.
  intros Hread Hfrom Hto Hd.
  destruct (generate_datafile_name_outcome cfg pair s) as [[name Hname] | Hname].
  2: { unfold read_data_from_datafile in Hread.
       rewrite (bind_Raise _ _ _ _ _ Hname) in Hread. discriminate. }
  destruct (read_unreadable cfg fuel pair name s Hname)
    as (Hmiss & Hraw & Hshape & Hempty).
  destruct (fs s !! (exchange_path cfg ++ [name])) as [[|[raw | j]|]|] eqn:Hfile.
  - rewrite Hmiss in Hread by auto. discriminate.
  - rewrite (Hraw raw) in Hread by auto. discriminate.
  - destruct (pd_read_json j) as [[|r0 df0] | e |] eqn:Hj.
    + apply pd_read_json_inv in Hj. rewrite Hempty in Hread by congruence. discriminate.
    + apply pd_read_json_inv in Hj.
      destruct (exists_last (l := index_values (r0 :: df0))) as (l & x & E);
        [discriminate|].
      exists name, r0, df0, x. split; [assumption|]. split; [congruence|].
      split; [rewrite E; apply last_snoc|].
      rewrite <- Hread. symmetry. apply (read_decoded cfg fuel pair name); auto.
      * congruence.
      * rewrite E. apply last_snoc.
    + rewrite (Hshape j) in Hread by (auto; congruence). discriminate.
    + rewrite (Hshape j) in Hread by (auto; congruence). discriminate.
  - rewrite Hmiss in Hread by auto. discriminate.
  - rewrite Hmiss in Hread by auto. discriminate.
Qed.

Lemma only_requests_refl s : only_requests s s.
Proof. exists []. now rewrite app_nil_r, set_fetch_log_id. Qed.

Lemma only_requests_trans s1 s2 s3 :
  only_requests s1 s2 -> only_requests s2 s3 -> only_requests s1 s3.
Proof.
  intros [r1 ->] [r2 ->]. exists (r1 ++ r2). simpl. now rewrite app_assoc.
Qed.

Lemma only_requests_fs s s' : only_requests s s' -> fs s' = fs s.
Proof. now intros [r ->]. Qed.

Lemma lift_Ok_inv {A} (o : outcome A) s a s' : lift o s = (Ok a, s') -> o = Ok a /\ s' = s.
Proof. unfold lift. now intros [= -> ->]. Qed.

Lemma reconcile_Ok_inv cfg fuel pair df0 df_begin df_end b_from b_to d s df s' :
  reconcile cfg fuel pair df0 df_begin df_end b_from b_to d s = (Ok (Frame df), s') ->
  exists df2 i j s2,
    only_requests s s2 /\
    list_index b_from (index_values df2) = Ok i /\
    list_index (b_to - d) (index_values df2) = Ok j /\
    df = slice df2 i (j + 1) /\
    save_dataframe cfg pair df s2 = (Ok tt, s').
Proof.
  unfold reconcile. intros H.
  apply bind_Ok_inv in H as (df1 & s1 & H1 & H).
  apply bind_Ok_inv in H as (df2 & s2 & H2 & H).
  apply bind_Ok_inv in H as (i & s3 & Hi & H). apply lift_Ok_inv in Hi as [Hi ->].
  apply bind_Ok_inv in H as (j & s4 & Hj & H). apply lift_Ok_inv in Hj as [Hj ->].
  apply bind_Ok_inv in H as ([] & s5 & Hsave & H). unfold ret in H. injection H as <- <-.
  exists df2, i, j, s2. repeat split; auto.
  assert (Hdl : forall a b st r st', download_data_for_pair cfg fuel pair a b false st = (r, st') ->
                                     only_requests st st').
  { intros a b st r st' E. pose proof (download_only_requests cfg fuel pair a b st) as Ho.
    now rewrite E in Ho. }
  apply only_requests_trans with s1.
  - destruct (b_from <? df_begin).
    + apply bind_Ok_inv in H1 as (prev & s1' & Hd1 & H1). unfold ret in H1.
      injection H1 as _ <-. eapply Hdl; eassumption.
    + unfold ret in H1. injection H1 as _ <-. apply only_requests_refl.
  - destruct (df_end <? b_to - d).
    + apply bind_Ok_inv in H2 as (new & s2' & Hd2 & H2). unfold ret in H2.
      injection H2 as _ <-. eapply Hdl; eassumption.
    + unfold ret in H2. injection H2 as _ <-. apply only_requests_refl.
Qed.

(** The ends of a frame that was read. *)
Lemma read_window_ends (cfg : Config) (fuel : nat) (pair : string)
    (s s' : state) (df : DataFrame) (b_from b_to d : Z) :
  read_data_from_datafile cfg fuel pair s = (Ok (Frame df), s') ->
  backtesting_from s = Some b_from -> backtesting_to s = Some b_to ->
  timeframe_calc s = Some d ->
  df <> [] ->
  head (index_values df) = Some b_from /\
  last (index_values df) = Some (b_to - d) /\
  list_index (b_to - d) (index_values df) = Ok (length df - 1)%nat.
Proof.
  intros Hread Hfrom Hto Hd Hne.
  destruct (read_Ok_inv _ _ _ _ _ _ _ _ _ Hread Hfrom Hto Hd)
    as (name & r0 & df0 & df_end & _ & _ & _ & Hrec).
  destruct (reconcile_Ok_inv _ _ _ _ _ _ _ _ _ _ _ _ Hrec)
    as (df2 & i & j & s2 & _ & Hi & Hj & -> & _).
  rewrite index_values_slice.
  replace (length (slice df2 i (j + 1))) with (length (slice (index_values df2) i (j + 1))).
  - apply slice_between; auto. intros E. apply Hne.
    apply (f_equal length) in E. rewrite <- index_values_slice in E.
    unfold index_values in E. rewrite length_map in E.
    now destruct (slice df2 i (j + 1)).
  - rewrite <- index_values_slice. unfold index_values. now rewrite length_map.
Qed.

(** X12.  Whatever the cache file held and whatever the exchange answered: a
    frame that [read_data_from_datafile] returns, when it is not empty,
    starts at the start of the window, ends one candle before its end, and
    has that last timestamp nowhere else. *)
Theorem read_returns_window_ends (cfg : Config) (fuel : nat) (pair : string)
    (s s' : state) (df : DataFrame) (b_from b_to d : Z) :
  read_data_from_datafile cfg fuel pair s = (Ok (Frame df), s') ->
  backtesting_from s = Some b_from -> backtesting_to s = Some b_to ->
  timeframe_calc s = Some d ->
  df <> [] ->
  head (index_values df) = Some b_from /\
  last (index_values df) = Some (b_to - d) /\
  list_index (b_to - d) (index_values df) = Ok (length df - 1)%nat.
Proof. exact (read_window_ends cfg fuel pair s s' df b_from b_to d). Qed.

Lemma read_returns_window_ends_witness :
  head (index_values (hourly (2 * hour) 4)) = Some (2 * hour) /\
  last (index_values (hourly (2 * hour) 4)) = Some (6 * hour - hour) /\
  list_index (6 * hour - hour) (index_values (hourly (2 * hour) 4)) =
    Ok (length (hourly (2 * hour) 4) - 1)%nat.
Proof.
  apply (read_returns_window_ends config_1h 1 "BTC/USDT"
           (ready (regular_exchange hour) hour (2 * hour) (6 * hour)
              (disk_with (cache_of (hourly (4 * hour) 5))))
           (set_fetch_log [{| r_symbol := "BTC/USDT"; r_timeframe := "1h";
                              r_since := 2 * hour; r_limit := 2 |}]
              (ready (regular_exchange hour) hour (2 * hour) (6 * hour)
                 (disk_with (cache_of (hourly (2 * hour) 4)))))
           (hourly (2 * hour) 4) (2 * hour) (6 * hour) hour);
    [vm_compute; reflexivity | reflexivity | reflexivity | reflexivity | discriminate].
Defined.

(** The state after a read. *)
Lemma read_saves (cfg : Config) (fuel : nat) (pair : string)
    (s s' : state) (df : DataFrame) (b_from b_to d : Z) :
  read_data_from_datafile cfg fuel pair s = (Ok (Frame df), s') ->
  backtesting_from s = Some b_from -> backtesting_to s = Some b_to ->
  timeframe_calc s = Some d ->
  exists name r0 df0 rqs,
    generate_datafile_name cfg pair s = (Ok name, s) /\
    fs s !! (exchange_path cfg ++ [name]) = Some (cache_of (r0 :: df0)) /\
    fs s !! exchange_path cfg = Some Dir /\
    s' = set_fs (<[exchange_path cfg ++ [name] := cache_of df]> (fs s))
           (set_fetch_log (fetch_log s ++ rqs) s).
Proof.
  intros Hread Hfrom Hto Hd.
  destruct (read_Ok_inv _ _ _ _ _ _ _ _ _ Hread Hfrom Hto Hd)
    as (name & r0 & df0 & df_end & Hname & Hfile & _ & Hrec).
  destruct (reconcile_Ok_inv _ _ _ _ _ _ _ _ _ _ _ _ Hrec)
    as (df2 & i & j & s2 & [rqs ->] & _ & _ & _ & Hsave).
  apply save_dataframe_Ok in Hsave as (name' & Hname' & Hdir & ->).
  assert (name' = name) as ->.
  { unfold generate_datafile_name in *. simpl in *.
    destruct (str_split "/" pair) as [|coin [|base [|x l]]]; unfold ret, raise in *;
      congruence. }
  exists name, r0, df0, rqs. auto.
Qed.

(** X13.  [read_data_from_datafile] saves what it returns: after a successful
    read the cache file holds exactly the returned slice, so serving a
    window inside the cached range shrinks the cache to that window.
    Besides, only requests were sent: nothing else in the file system
    changes. *)
Theorem read_saves_what_it_returns (cfg : Config) (fuel : nat) (pair : string)
    (s s' : state) (df : DataFrame) (b_from b_to d : Z) :
  read_data_from_datafile cfg fuel pair s = (Ok (Frame df), s') ->
  backtesting_from s = Some b_from -> backtesting_to s = Some b_to ->
  timeframe_calc s = Some d ->
  exists name rqs,
    generate_datafile_name cfg pair s = (Ok name, s) /\
    is_Some (fs s !! (exchange_path cfg ++ [name])) /\
    fs s !! exchange_path cfg = Some Dir /\
    s' = set_fs (<[exchange_path cfg ++ [name] := cache_of df]> (fs s))
           (set_fetch_log (fetch_log s ++ rqs) s).
Proof.
  intros Hread Hfrom Hto Hd.
  destruct (read_saves cfg fuel pair s s' df b_from b_to d Hread Hfrom Hto Hd)
    as (name & r0 & df0 & rqs & Hname & Hfile & Hdir & Hs').
  exists name, rqs. rewrite Hfile. eauto.
Qed.

Lemma read_saves_what_it_returns_witness :
  exists name rqs,
    generate_datafile_name config_1h "BTC/USDT"
      (ready (regular_exchange hour) hour (5 * hour) (7 * hour)
         (disk_with (cache_of (hourly (4 * hour) 5)))) =
      (Ok name, ready (regular_exchange hour) hour (5 * hour) (7 * hour)
                  (disk_with (cache_of (hourly (4 * hour) 5)))) /\
    is_Some (disk_with (cache_of (hourly (4 * hour) 5)) !! (btc_dir ++ [name])) /\
    disk_with (cache_of (hourly (4 * hour) 5)) !! btc_dir = Some Dir /\
    ready (regular_exchange hour) hour (5 * hour) (7 * hour)
      (disk_with (cache_of (hourly (5 * hour) 2))) =
    set_fs (<[btc_dir ++ [name] := cache_of (hourly (5 * hour) 2)]>
              (disk_with (cache_of (hourly (4 * hour) 5))))
      (set_fetch_log ([] ++ rqs)
         (ready (regular_exchange hour) hour (5 * hour) (7 * hour)
            (disk_with (cache_of (hourly (4 * hour) 5))))).
Proof.
  apply (read_saves_what_it_returns config_1h 1 "BTC/USDT"
           (ready (regular_exchange hour) hour (5 * hour) (7 * hour)
              (disk_with (cache_of (hourly (4 * hour) 5))))
           (ready (regular_exchange hour) hour (5 * hour) (7 * hour)
              (disk_with (cache_of (hourly (5 * hour) 2))))
           (hourly (5 * hour) 2) (5 * hour) (7 * hour) hour);
    [vm_compute; reflexivity | reflexivity | reflexivity | reflexivity].
Defined.

(** ** One pair *)

Lemma file_not_dir_path (l : list string) (x : string) : l ++ [x] <> l.
Proof.
  intros E. apply (f_equal length) in E. rewrite length_app in E. simpl in E. lia.
Qed.

(** With the directory and the cache file in place, a pair is read. *)
Lemma load_pair_cached cfg fuel pair name s :
  generate_datafile_name cfg pair s = (Ok name, s) ->
  is_Some (fs s !! exchange_path cfg) ->
  is_Some (fs s !! (exchange_path cfg ++ [name])) ->
  load_pair cfg fuel pair s = read_data_from_datafile cfg fuel pair s.
Proof.
  intros Hname Hdir Hfile. unfold load_pair.
  destruct (check_datafolder_run cfg pair name s Hname) as (s' & Hc & _ & Hs').
  rewrite (bind_Ok _ _ _ _ _ Hc), (Hs' Hdir).
  now rewrite bool_decide_eq_true_2.
Qed.

(** Without a cache file, a pair is downloaded and saved. *)
Lemma load_pair_fresh cfg fuel pair name s :
  generate_datafile_name cfg pair s = (Ok name, s) ->
  fs s !! (exchange_path cfg ++ [name]) = None ->
  exists s0, only_dirs_towards (exchange_path cfg) s s0 /\
    (is_Some (fs s !! exchange_path cfg) -> s0 = s) /\
    load_pair cfg fuel pair s =
    (df <- download_data_for_pair cfg fuel pair (backtesting_from s) (backtesting_to s) true ;;
     ret (Frame df)) s0.
Proof.
  intros Hname Hfile. unfold load_pair.
  destruct (check_datafolder_run cfg pair name s Hname) as (s0 & Hc & Hs0 & Hs').
  exists s0. split; [assumption|]. split; [assumption|].
  rewrite (bind_Ok _ _ _ _ _ Hc), Hfile.
  rewrite bool_decide_eq_false_2 by (intros [? ?]; discriminate).
  simpl. unfold get_state. unfold bind at 1.
  destruct Hs0 as [-> _]. reflexivity.
Qed.

(** What a pair that was loaded into a frame left behind: the cache file
    holds that frame, in the directory of the exchange; of the module only
    the file system and the log of requests changed. *)
Lemma load_pair_Ok_inv cfg fuel pair s df s1 b_from b_to d :
  load_pair cfg fuel pair s = (Ok (Frame df), s1) ->
  backtesting_from s = Some b_from -> backtesting_to s = Some b_to ->
  timeframe_calc s = Some d ->
  exists name,
    generate_datafile_name cfg pair s1 = (Ok name, s1) /\
    fs s1 !! (exchange_path cfg ++ [name]) = Some (cache_of df) /\
    fs s1 !! exchange_path cfg = Some Dir /\
    backtesting_from s1 = Some b_from /\ backtesting_to s1 = Some b_to /\
    timeframe_calc s1 = Some d /\ exchange s1 = exchange s /\
    history_data s1 = history_data s.
Proof.
  intros Hload Hfrom Hto Hd.
  assert (Hgen : forall name st st', generate_datafile_name cfg pair st = (Ok name, st) ->
                   generate_datafile_name cfg pair st' = (Ok name, st')).
  { intros name st st'. unfold generate_datafile_name, ret, raise.
    destruct (str_split "/" pair) as [|coin [|base [|x l]]]; congruence. }
  destruct (generate_datafile_name_outcome cfg pair s) as [[name Hname] | Hname].
  2: { assert (Hc : check_datafolder cfg pair s = (Raise ValueError, s)).
       { unfold check_datafolder. now rewrite (bind_Raise _ _ _ _ _ Hname). }
       unfold load_pair in Hload. rewrite (bind_Raise _ _ _ _ _ Hc) in Hload.
       discriminate. }
  exists name. split; [now apply (Hgen name s)|].
  destruct (fs s !! (exchange_path cfg ++ [name])) as [n|] eqn:Hfile.
  - assert (Hcached : exists s0, only_dirs_towards (exchange_path cfg) s s0 /\
                        read_data_from_datafile cfg fuel pair s0 = (Ok (Frame df), s1)).
    { unfold load_pair in Hload.
      destruct (check_datafolder_run cfg pair name s Hname) as (s0 & Hc & Hs0 & _).
      rewrite (bind_Ok _ _ _ _ _ Hc), Hfile in Hload.
      rewrite bool_decide_eq_true_2 in Hload by eauto. simpl in Hload. eauto. }
    destruct Hcached as (s0 & [Es0 _] & Hread).
    destruct (read_saves cfg fuel pair s0 s1 df b_from b_to d Hread)
      as (name' & r0 & df0 & rqs & Hname' & _ & Hdir & ->);
      try (rewrite Es0; assumption).
    assert (name' = name) as ->.
    { pose proof (Hgen name s s0 Hname). congruence. }
    cbn [fs set_fs set_fetch_log]. rewrite lookup_insert_eq, lookup_insert_ne by apply file_not_dir_path.
    rewrite Es0. simpl. repeat split; auto.
  - destruct (load_pair_fresh cfg fuel pair name s Hname Hfile) as (s0 & [Es0 _] & _ & E).
    rewrite E in Hload. clear E. rewrite Hfrom, Hto in Hload.
    apply bind_Ok_inv in Hload as (df' & s2 & Hdl & Hret).
    unfold ret in Hret. injection Hret as <- <-.
    unfold download_data_for_pair in Hdl. unfold number, ret at 1 2 in Hdl.
    unfold bind at 1 2 in Hdl.
    apply bind_Ok_inv in Hdl as (r & s3 & Hloop & Hdl).
    apply bind_Ok_inv in Hdl as ([] & s4 & Hsave & Hret).
    unfold ret in Hret. injection Hret as <- <-.
    pose proof (download_loop_only_requests cfg fuel pair b_from b_to [] [] s0) as [rqs Hs3].
    rewrite Hloop in Hs3. simpl in Hs3. subst s3.
    apply save_dataframe_Ok in Hsave as (name' & Hname' & Hdir & ->).
    assert (name' = name) as ->.
    { pose proof (Hgen name s (set_fetch_log (fetch_log s0 ++ rqs) s0) Hname). congruence. }
    cbn [fs set_fs set_fetch_log]. rewrite lookup_insert_eq, lookup_insert_ne by apply file_not_dir_path.
    simpl in Hdir. rewrite Es0. simpl. repeat split; auto.
Qed.

(** Loading a pair a second time. *)
Lemma load_pair_twice (cfg : Config) (fuel : nat) (pair : string) (s s1 : state)
    (df : DataFrame) (b_from b_to d : Z) :
  load_pair cfg fuel pair s = (Ok (Frame df), s1) ->
  backtesting_from s = Some b_from -> backtesting_to s = Some b_to ->
  timeframe_calc s = Some d ->
  head (index_values df) = Some b_from ->
  list_index (b_to - d) (index_values df) = Ok (length df - 1)%nat ->
  load_pair cfg fuel pair s1 = (Ok (Frame df), s1).
Proof.
  intros Hload Hfrom Hto Hd Hhead Hlast.
  destruct (load_pair_Ok_inv _ _ _ _ _ _ _ _ _ Hload Hfrom Hto Hd)
    as (name & Hname & Hfile & Hdir & Hfrom1 & Hto1 & Hd1 & _ & _).
  rewrite (load_pair_cached cfg fuel pair name) by eauto.
  destruct df as [|r0 df0]; [discriminate Hhead|].
  assert (Hend : last (index_values (r0 :: df0)) = Some (b_to - d)).
  { rewrite last_lookup. apply list_index_lookup in Hlast.
    unfold index_values. rewrite length_map. simpl in *.
    now rewrite Nat.sub_0_r in Hlast. }
  rewrite (read_decoded cfg fuel pair name r0 df0 (b_to - d) s1 b_from b_to d) by assumption.
  injection Hhead as Hr0. unfold reconcile. rewrite Hr0, !Z.ltb_irrefl.
  unfold ret at 1 2. unfold bind at 1 2. rewrite Hlast.
  assert (H0 : list_index b_from (index_values (r0 :: df0)) = Ok O).
  { simpl. now rewrite Hr0, Z.eqb_refl. }
  rewrite H0. unfold lift at 1 2. unfold bind at 1 2.
  assert (Hslice : slice (r0 :: df0) 0 (length (r0 :: df0) - 1 + 1) = r0 :: df0).
  { unfold slice. rewrite skipn_O, Nat.sub_0_r.
    replace (length (r0 :: df0) - 1 + 1)%nat with (length (r0 :: df0)) by (simpl; lia).
    apply firstn_all. }
  rewrite Hslice.
  assert (Hnd : fs s1 !! (exchange_path cfg ++ [name]) <> Some Dir)
    by (rewrite Hfile; discriminate).
  rewrite (bind_Ok _ _ _ _ _
             (proj1 (save_dataframe_cases cfg pair name (r0 :: df0) s1 Hname Hnd) Hdir)).
  unfold ret. now rewrite insert_id, set_fs_id.
Qed.

(** The second load read the cache file and wrote it again. *)
Lemma load_pair_second (cfg : Config) (fuel : nat) (pair : string) (s s1 : state)
    (df : DataFrame) (b_from b_to d : Z) :
  load_pair cfg fuel pair s = (Ok (Frame df), s1) ->
  backtesting_from s = Some b_from -> backtesting_to s = Some b_to ->
  timeframe_calc s = Some d ->
  head (index_values df) = Some b_from ->
  list_index (b_to - d) (index_values df) = Ok (length df - 1)%nat ->
  exists name,
    generate_datafile_name cfg pair s1 = (Ok name, s1) /\
    load_pair cfg fuel pair s1 =
      (Ok (Frame df), set_fs (<[exchange_path cfg ++ [name] := cache_of df]> (fs s1)) s1).
Proof.
  intros Hload Hfrom Hto Hd Hhead Hlast.
  destruct (load_pair_Ok_inv _ _ _ _ _ _ _ _ _ Hload Hfrom Hto Hd)
    as (name & Hname & Hfile & _).
  exists name. split; [assumption|].
  rewrite (load_pair_twice cfg fuel pair s s1 df b_from b_to d) by assumption.
  now rewrite insert_id, set_fs_id.
Qed.

(** X14.  Asking again.  When a pair was loaded into a frame that is not empty,
    starts at the start of the window and has the last timestamp of the
    window at its end and nowhere else, loading the pair again sends no
    request and downloads nothing: it reads the cache file, returns a frame
    with the same timestamps, and writes that frame back as the cache file.
    Nothing else changes. *)
Theorem load_pair_again (cfg : Config) (fuel : nat) (pair : string) (s s1 : state)
    (df : DataFrame) (b_from b_to d : Z) :
  load_pair cfg fuel pair s = (Ok (Frame df), s1) ->
  backtesting_from s = Some b_from -> backtesting_to s = Some b_to ->
  timeframe_calc s = Some d ->
  head (index_values df) = Some b_from ->
  list_index (b_to - d) (index_values df) = Ok (length df - 1)%nat ->
  exists df' name,
    generate_datafile_name cfg pair s1 = (Ok name, s1) /\
    load_pair cfg fuel pair s1 =
      (Ok (Frame df'),
       set_fs (<[exchange_path cfg ++ [name] := cache_of df']> (fs s1)) s1) /\
    index_values df' = index_values df.
Proof.
  intros Hload Hfrom Hto Hd Hhead Hlast.
  destruct (load_pair_second cfg fuel pair s s1 df b_from b_to d
              Hload Hfrom Hto Hd Hhead Hlast) as (name & Hname & Hagain).
  exists df, name. auto.
Qed.

Lemma load_pair_again_witness :
  exists df' name,
    generate_datafile_name config_1h "BTC/USDT"
      (snd (load_pair config_1h 1 "BTC/USDT"
              (ready (regular_exchange hour) hour 0 (3 * hour) ∅))) =
      (Ok name, snd (load_pair config_1h 1 "BTC/USDT"
                       (ready (regular_exchange hour) hour 0 (3 * hour) ∅))) /\
    load_pair config_1h 1 "BTC/USDT"
      (snd (load_pair config_1h 1 "BTC/USDT"
              (ready (regular_exchange hour) hour 0 (3 * hour) ∅))) =
    (Ok (Frame df'),
     set_fs (<[exchange_path config_1h ++ [name] := cache_of df']>
               (fs (snd (load_pair config_1h 1 "BTC/USDT"
                           (ready (regular_exchange hour) hour 0 (3 * hour) ∅)))))
       (snd (load_pair config_1h 1 "BTC/USDT"
               (ready (regular_exchange hour) hour 0 (3 * hour) ∅)))) /\
    index_values df' = index_values (hourly 0 3).
Proof.
  apply (load_pair_again config_1h 1 "BTC/USDT"
           (ready (regular_exchange hour) hour 0 (3 * hour) ∅) _
           (hourly 0 3) 0 (3 * hour) hour);
    [vm_compute; reflexivity | reflexivity | reflexivity | reflexivity
    | reflexivity | vm_compute; reflexivity].
Defined.

(** X15.  A pair that was served from its cache file with a frame that is not
    empty can be asked for again: no request is sent and nothing is
    downloaded; the cache file is read, a frame with the same timestamps is
    returned and written back as the cache file.  Nothing else changes. *)
Theorem load_pair_cached_again (cfg : Config) (fuel : nat) (pair name : string)
    (s s1 : state) (df : DataFrame) (b_from b_to d : Z) :
  generate_datafile_name cfg pair s = (Ok name, s) ->
  is_Some (fs s !! exchange_path cfg) ->
  is_Some (fs s !! (exchange_path cfg ++ [name])) ->
  load_pair cfg fuel pair s = (Ok (Frame df), s1) ->
  backtesting_from s = Some b_from -> backtesting_to s = Some b_to ->
  timeframe_calc s = Some d ->
  df <> [] ->
  exists df',
    load_pair cfg fuel pair s1 =
      (Ok (Frame df'),
       set_fs (<[exchange_path cfg ++ [name] := cache_of df']> (fs s1)) s1) /\
    index_values df' = index_values df.
Proof.
  intros Hname Hdir Hfile Hload Hfrom Hto Hd Hne.
  pose proof Hload as Hread.
  rewrite (load_pair_cached cfg fuel pair name) in Hread by assumption.
  destruct (read_window_ends _ _ _ _ _ _ _ _ _ Hread Hfrom Hto Hd Hne)
    as (Hhead & _ & Hlast).
  destruct (load_pair_second cfg fuel pair s s1 df b_from b_to d
              Hload Hfrom Hto Hd Hhead Hlast) as (name' & Hname' & Hagain).
  assert (name' = name).
  { pose proof (generate_datafile_name_any _ _ _ _ s1 Hname) as H. congruence. }
  subst name'. exists df. auto.
Qed.

Lemma load_pair_cached_again_witness :
  exists df',
    load_pair config_1h 1 "BTC/USDT"
      (snd (load_pair config_1h 1 "BTC/USDT"
              (ready (regular_exchange hour) hour 0 (30 * hour)
                 (disk_with (cache_of (hourly 0 24)))))) =
    (Ok (Frame df'),
     set_fs (<[exchange_path config_1h ++ ["data-BTCUSDT1h.json"%string] := cache_of df']>
               (fs (snd (load_pair config_1h 1 "BTC/USDT"
                           (ready (regular_exchange hour) hour 0 (30 * hour)
                              (disk_with (cache_of (hourly 0 24))))))))
       (snd (load_pair config_1h 1 "BTC/USDT"
               (ready (regular_exchange hour) hour 0 (30 * hour)
                  (disk_with (cache_of (hourly 0 24))))))) /\
    index_values df' = index_values (hourly 0 24 ++ hourly (23 * hour) 7).
Proof.
  apply (load_pair_cached_again config_1h 1 "BTC/USDT" "data-BTCUSDT1h.json"
           (ready (regular_exchange hour) hour 0 (30 * hour)
              (disk_with (cache_of (hourly 0 24)))) _
           (hourly 0 24 ++ hourly (23 * hour) 7) 0 (30 * hour) hour);
    [reflexivity | vm_compute; eauto | vm_compute; eauto | vm_compute; reflexivity
    | reflexivity | reflexivity | reflexivity | discriminate].
Defined.

(** ** Grids *)

Lemma grid_length a d n : length (grid a d n) = n.
Proof. revert a. induction n as [|n IH]; intros a; simpl; [reflexivity | now rewrite IH]. Qed.

Lemma grid_app a d n m :
  grid a d (n + m) = grid a d n ++ grid (a + Z.of_nat n * d) d m.
Proof.
  revert a. induction n as [|n IH]; intros a.
  - simpl. f_equal. lia.
  - cbn [Nat.add grid app]. rewrite IH. do 3 f_equal. lia.
Qed.

Lemma grid_lookup a d n i :
  (i < n)%nat -> grid a d n !! i = Some (a + Z.of_nat i * d).
Proof.
  revert a i. induction n as [|n IH]; intros a i Hi; [lia|].
  destruct i as [|i]; simpl.
  - f_equal. lia.
  - rewrite IH by lia. f_equal. lia.
Qed.

Lemma grid_elem a d n x : 0 < d -> x ∈ grid a d n -> a <= x.
Proof.
  intros Hd. revert a. induction n as [|n IH]; intros a; simpl.
  - intros H. now apply elem_of_nil in H.
  - intros H. apply elem_of_cons in H as [-> | H]; [lia|]. apply IH in H. lia.
Qed.

Lemma list_index_grid a d n i :
  0 < d -> (i < n)%nat -> list_index (a + Z.of_nat i * d) (grid a d n) = Ok i.
Proof.
  intros Hd. revert a i. induction n as [|n IH]; intros a i Hi; [lia|].
  destruct i as [|i]; simpl.
  - replace (a + Z.of_nat 0 * d) with a by lia. now rewrite Z.eqb_refl.
  - replace (a + Z.of_nat (S i) * d =? a) with false
      by (symmetry; apply Z.eqb_neq; nia).
    replace (a + Z.of_nat (S i) * d) with ((a + d) + Z.of_nat i * d) by lia.
    now rewrite IH by lia.
Qed.

Lemma list_index_app_r x l1 l2 j :
  x ∉ l1 -> list_index x l2 = Ok j -> list_index x (l1 ++ l2) = Ok (length l1 + j)%nat.
Proof.
  intros Hnot Hj. induction l1 as [|y l1 IH]; simpl; [assumption|].
  apply not_elem_of_cons in Hnot as [Hne Hnot].
  replace (x =? y) with false by (symmetry; now apply Z.eqb_neq).
  now rewrite IH.
Qed.

Lemma list_index_app_l x l1 l2 i :
  list_index x l1 = Ok i -> list_index x (l1 ++ l2) = Ok i.
Proof.
  revert i. induction l1 as [|y l1 IH]; simpl; intros i; [discriminate|].
  destruct (x =? y); [auto|].
  destruct (list_index x l1) as [k | e |]; try discriminate.
  intros [= <-]. now rewrite (IH k).
Qed.

Lemma slice_grid a d n i j :
  (i <= j)%nat -> (j <= n)%nat ->
  slice (grid a d n) i j = grid (a + Z.of_nat i * d) d (j - i).
Proof.
  intros Hij Hjn. unfold slice.
  replace n with (i + ((j - i) + (n - j)))%nat by lia.
  rewrite grid_app, drop_app_length' by (symmetry; apply grid_length).
  rewrite grid_app, take_app_length' by (symmetry; apply grid_length).
  reflexivity.
Qed.

(** A grid covers its window exactly. *)
Lemma grid_exactly_covers from d n :
  0 < d -> (0 < n)%nat ->
  exactly_covers from (from + Z.of_nat n * d) d (grid from d n).
Proof.
  intros Hd Hn. unfold exactly_covers. repeat split.
  - destruct n; [lia | reflexivity].
  - rewrite last_lookup, grid_length. destruct n as [|n]; [lia|]. simpl Nat.pred.
    rewrite grid_lookup by lia. f_equal. lia.
  - intros i a b Ha Hb.
    pose proof (lookup_lt_Some _ _ _ Hb) as Hlt. rewrite grid_length in Hlt.
    rewrite grid_lookup in Ha, Hb by lia. injection Ha as <-. injection Hb as <-. lia.
  - apply NoDup_alt. intros i j x Hi Hj.
    pose proof (lookup_lt_Some _ _ _ Hi) as Hil. pose proof (lookup_lt_Some _ _ _ Hj) as Hjl.
    rewrite grid_length in Hil, Hjl. rewrite grid_lookup in Hi, Hj by lia.
    injection Hi as <-. injection Hj as Hj. nia.
Qed.

(** On an exchange that answers on the grid, the answers to the pages of an
    aligned window are the grid of the window. *)
Lemma answers_grid x d symbol tf to n :
  answers_on_grid x d -> 0 < d ->
  forall start log, n = pages start to d -> start <= to -> (d | to - start) ->
  map c_time (answers x log (page_requests n symbol tf start to d)) =
  grid start d (Z.to_nat ((to - start) / d)).
Proof.
  intros Hx Hd. induction n as [|n IH]; intros start log Hn Hle Hdiv.
  - destruct (Z.eq_dec start to) as [-> | Hne].
    + now rewrite Z.sub_diag, Z.div_0_l by lia.
    + rewrite pages_step in Hn by lia. discriminate.
  - destruct (Z.ltb_spec start to) as [Hlt | Hge].
    2: { rewrite pages_done in Hn by assumption. discriminate. }
    rewrite pages_step in Hn by assumption. injection Hn as Hn.
    cbn [page_requests]. replace (start <? to) with true by (symmetry; apply Z.ltb_lt; lia).
    cbn [answers]. rewrite map_app, Hx. cbn [r_since r_limit].
    destruct Hdiv as [k Hk].
    assert (Hq : (to - start) / d = k) by (rewrite Hk; apply Z.div_mul; lia).
    destruct (Z.le_gt_cases (to - start) (1000 * d)) as [Hsmall | Hbig].
    + rewrite (Z.min_l (to - start) (1000 * d)) in * by lia.
      rewrite (Z.min_l ((to - start) / d) 1000) by (rewrite Hq; nia).
      replace (start + (to - start)) with to in * by lia.
      rewrite (page_requests_done n) by lia. simpl. now rewrite app_nil_r.
    + rewrite (Z.min_r (to - start) (1000 * d)) in * by lia.
      rewrite (Z.min_r ((to - start) / d) 1000) by (rewrite Hq; nia).
      rewrite IH; [|assumption|lia|exists (k - 1000); lia].
      replace (Z.to_nat ((to - start) / d))
        with (Z.to_nat 1000 + Z.to_nat ((to - (start + 1000 * d)) / d))%nat.
      * rewrite grid_app, Z2Nat.id by lia. reflexivity.
      * assert (1000 < k) by nia.
        replace (to - (start + 1000 * d)) with ((k - 1000) * d) by lia.
        rewrite Z.div_mul, Hq by lia. lia.
Qed.

(** ** An exchange that answers on the grid *)

Lemma index_values_make_frame pair l : index_values (make_frame pair l) = map c_time l.
Proof. unfold index_values, make_frame. rewrite map_map. reflexivity. Qed.

Lemma regular_exchange_on_grid d : answers_on_grid (regular_exchange d) d.
Proof.
  intros log rq. simpl. generalize (r_since rq) as a. generalize (Z.to_nat (r_limit rq)) as n.
  induction n as [|n IH]; intros a; simpl; [reflexivity | now rewrite IH].
Qed.

(** A download of an aligned window from such an exchange gives the grid of
    the window. *)
Lemma download_grid cfg x d fuel pair from to s :
  exchange s = Some x -> answers_on_grid x d -> timeframe_calc s = Some d -> 0 < d ->
  from <= to -> (d | to - from) -> (pages from to d <= fuel)%nat ->
  exists df rqs,
    download_data_for_pair cfg fuel pair (Some from) (Some to) false s =
      (Ok df, set_fetch_log (fetch_log s ++ rqs) s) /\
    index_values df = grid from d (Z.to_nat ((to - from) / d)).
Proof.
  intros Hx Hgrid Hd Hpos Hle Hdiv Hfuel.
  rewrite (download_unsaved cfg x d) by assumption.
  eexists _, _. split; [reflexivity|].
  rewrite index_values_make_frame. now apply answers_grid.
Qed.

Lemma download_saved cfg x d fuel pair from to s :
  exchange s = Some x -> timeframe_calc s = Some d -> 0 < d ->
  (pages from to d <= fuel)%nat ->
  let rqs := page_requests (pages from to d) pair (cfg_timeframe cfg) from to d in
  let df := make_frame pair (answers x (fetch_log s) rqs) in
  download_data_for_pair cfg fuel pair (Some from) (Some to) true s =
  match save_dataframe cfg pair df (set_fetch_log (fetch_log s ++ rqs) s) with
  | (Ok _, s2) => (Ok df, s2)
  | (Raise e, s2) => (Raise e, s2)
  | (Timeout, s2) => (Timeout, s2)
  end.
Proof.
  intros Hx Hd Hpos Hfuel rqs df. unfold download_data_for_pair. munfold.
  rewrite (download_loop_pages cfg x d) by assumption. reflexivity.
Qed.

(** X16.  No cache file, an exchange that answers on the grid, an aligned window:
    the pair is downloaded in full, the frame covers the window exactly, and
    it is what the new cache file holds. *)
Theorem load_pair_fresh_covers (cfg : Config) (x : Exchange) (d from : Z) (m fuel : nat)
    (pair name : string) (s : state) :
  exchange s = Some x -> answers_on_grid x d -> timeframe_calc s = Some d -> 0 < d ->
  backtesting_from s = Some from ->
  backtesting_to s = Some (from + Z.of_nat m * d) -> (0 < m)%nat ->
  (pages from (from + Z.of_nat m * d) d <= fuel)%nat ->
  generate_datafile_name cfg pair s = (Ok name, s) ->
  fs s !! (exchange_path cfg ++ [name]) = None ->
  fs s !! exchange_path cfg = Some Dir ->
  exists df s',
    load_pair cfg fuel pair s = (Ok (Frame df), s') /\
    index_values df = grid from d m /\
    exactly_covers from (from + Z.of_nat m * d) d (index_values df) /\
    fs s' !! (exchange_path cfg ++ [name]) = Some (cache_of df).
Proof.
  intros Hx Hgrid Hd Hpos Hfrom Hto Hm Hfuel Hname Hfile Hdir.
  destruct (load_pair_fresh cfg fuel pair name s Hname Hfile) as (s0 & _ & Hs0 & ->).
  rewrite (Hs0 (ltac:(eauto))). clear s0 Hs0. rewrite Hfrom, Hto.
  unfold bind. rewrite (download_saved cfg x d) by assumption.
  set (rqs := page_requests _ _ _ _ _ _). set (df := make_frame pair _).
  assert (Hidx : index_values df = grid from d m).
  { subst df rqs. rewrite index_values_make_frame.
    rewrite (answers_grid x d pair (cfg_timeframe cfg) (from + Z.of_nat m * d)
               (pages from (from + Z.of_nat m * d) d)); auto; try lia.
    - f_equal. replace (from + Z.of_nat m * d - from) with (Z.of_nat m * d) by lia.
      rewrite Z.div_mul by lia. lia.
    - exists (Z.of_nat m). lia. }
  assert (Hname' : generate_datafile_name cfg pair (set_fetch_log (fetch_log s ++ rqs) s) =
                   (Ok name, set_fetch_log (fetch_log s ++ rqs) s)).
  { revert Hname. unfold generate_datafile_name, ret, raise.
    destruct (str_split "/" pair) as [|coin [|base [|y l]]]; congruence. }
  assert (Hnd : fs (set_fetch_log (fetch_log s ++ rqs) s) !! (exchange_path cfg ++ [name])
                <> Some Dir) by (cbn [fs set_fetch_log]; rewrite Hfile; discriminate).
  rewrite (proj1 (save_dataframe_cases cfg pair name df _ Hname' Hnd) Hdir).
  unfold ret. eexists _, _. split; [reflexivity|]. split; [assumption|]. split.
  - rewrite Hidx. now apply grid_exactly_covers.
  - simpl. apply lookup_insert_eq.
Qed.

Lemma load_pair_fresh_covers_witness :
  exists df s',
    load_pair config_1h 1 "BTC/USDT"
      (ready (regular_exchange hour) hour 0 (0 + Z.of_nat 24 * hour)
         (<[btc_dir := Dir]> ∅)) = (Ok (Frame df), s') /\
    index_values df = grid 0 hour 24 /\
    exactly_covers 0 (0 + Z.of_nat 24 * hour) hour (index_values df) /\
    fs s' !! (btc_dir ++ ["data-BTCUSDT1h.json"%string]) = Some (cache_of df).
Proof.
  apply (load_pair_fresh_covers config_1h (regular_exchange hour) hour 0 24 1 "BTC/USDT"
           "data-BTCUSDT1h.json"
           (ready (regular_exchange hour) hour 0 (0 + Z.of_nat 24 * hour)
              (<[btc_dir := Dir]> ∅)));
    first [apply regular_exchange_on_grid | reflexivity | lia | vm_compute; lia].
Defined.

Lemma grid_elem_upper a d n x : 0 < d -> x ∈ grid a d n -> x <= a + (Z.of_nat n - 1) * d.
Proof.
  intros Hd H. apply list_elem_of_lookup in H as [i Hi].
  pose proof (lookup_lt_Some _ _ _ Hi) as Hlt. rewrite grid_length in Hlt.
  rewrite grid_lookup in Hi by assumption. injection Hi as <-. nia.
Qed.

Lemma drop_grid a d n i :
  (i <= n)%nat -> drop i (grid a d n) = grid (a + Z.of_nat i * d) d (n - i).
Proof.
  intros Hi. replace n with (i + (n - i))%nat at 1 by lia.
  now rewrite grid_app, drop_app_length' by (symmetry; apply grid_length).
Qed.

Lemma slice_to_end {A} (l1 l2 : list A) i :
  (i <= length l1)%nat ->
  slice (l1 ++ l2) i (length l1 + length l2) = drop i l1 ++ l2.
Proof.
  intros Hi. unfold slice. rewrite drop_app_le by assumption.
  apply take_ge. rewrite length_app, length_drop. lia.
Qed.

Lemma only_requests_self s s1 :
  only_requests s s1 ->
  exchange s1 = exchange s /\ timeframe_calc s1 = timeframe_calc s /\ fs s1 = fs s.
Proof. now intros [rqs ->]. Qed.

(** The download in front of the cache, when the window starts before it:
    the frame then is the grid from the start of the window to the end of
    the cache. *)
Lemma before_stage cfg x d fuel pair s df0 T0 n a :
  exchange s = Some x -> answers_on_grid x d -> timeframe_calc s = Some d -> 0 < d ->
  index_values df0 = grid T0 d n ->
  (pages (T0 + a * d) T0 d <= fuel)%nat ->
  exists df1 s1 (i N1 : nat),
    (if T0 + a * d <? T0 then
       prev_df <- download_data_for_pair cfg fuel pair (Some (T0 + a * d)) (Some T0) false ;;
       ret (prev_df ++ df0)
     else ret df0) s = (Ok df1, s1) /\
    only_requests s s1 /\
    index_values df1 = grid (T0 + a * d - Z.of_nat i * d) d N1 /\
    Z.of_nat N1 - Z.of_nat i = Z.of_nat n - a.
Proof.
  intros Hx Hgrid Hd Hpos Hidx Hfuel.
  destruct (Z.ltb_spec (T0 + a * d) T0) as [Hlt | Hge].
  - assert (Ha : a < 0) by nia.
    destruct (download_grid cfg x d fuel pair (T0 + a * d) T0 s) as (prev & rqs & Hdl & Hprev);
      auto; try lia.
    { exists (- a). lia. }
    rewrite (bind_Ok _ _ _ _ _ Hdl). unfold ret.
    exists (prev ++ df0), (set_fetch_log (fetch_log s ++ rqs) s), O, (Z.to_nat (- a) + n)%nat.
    split; [reflexivity|]. split; [now exists rqs|]. split; [|lia].
    unfold index_values in *. rewrite map_app, Hprev, Hidx, grid_app.
    replace (T0 - (T0 + a * d)) with ((- a) * d) by lia. rewrite Z.div_mul by lia.
    replace (T0 + a * d - Z.of_nat 0 * d) with (T0 + a * d) by lia.
    do 2 f_equal. rewrite Z2Nat.id by lia. lia.
  - assert (Ha : 0 <= a) by nia. unfold ret.
    exists df0, s, (Z.to_nat a), n. split; [reflexivity|].
    split; [apply only_requests_refl|]. split; [|lia].
    rewrite Hidx. f_equal. rewrite Z2Nat.id by lia. lia.
Qed.

(** X17.  A cache on the grid that reaches the end of the window, an exchange
    that answers on the grid: whether the window starts before the cache or
    inside it, the frame covers the window exactly, and the cache file
    afterwards holds that frame. *)
Theorem load_pair_cached_covers (cfg : Config) (x : Exchange) (d T0 a : Z) (n m fuel : nat)
    (pair name : string) (cache : DataFrame) (s : state) :
  exchange s = Some x -> answers_on_grid x d -> timeframe_calc s = Some d -> 0 < d ->
  index_values cache = grid T0 d n -> (0 < n)%nat ->
  backtesting_from s = Some (T0 + a * d) ->
  backtesting_to s = Some (T0 + a * d + Z.of_nat m * d) ->
  (0 < m)%nat -> a + Z.of_nat m <= Z.of_nat n ->
  (pages (T0 + a * d) T0 d <= fuel)%nat ->
  generate_datafile_name cfg pair s = (Ok name, s) ->
  fs s !! (exchange_path cfg ++ [name]) = Some (cache_of cache) ->
  fs s !! exchange_path cfg = Some Dir ->
  exists df s',
    load_pair cfg fuel pair s = (Ok (Frame df), s') /\
    index_values df = grid (T0 + a * d) d m /\
    exactly_covers (T0 + a * d) (T0 + a * d + Z.of_nat m * d) d (index_values df) /\
    fs s' !! (exchange_path cfg ++ [name]) = Some (cache_of df).
Proof.
  intros Hx Hgrid Hd Hpos Hidx Hn Hfrom Hto Hm Hend Hfuel Hname Hfile Hdir.
  rewrite (load_pair_cached cfg fuel pair name) by eauto.
  destruct n as [|n']; [lia|]. destruct cache as [|r0 df0]; [discriminate Hidx|].
  assert (Hr0 : time r0 = T0) by (now injection Hidx).
  assert (Hlast : last (index_values (r0 :: df0)) = Some (T0 + Z.of_nat n' * d)).
  { rewrite Hidx, last_lookup, grid_length. simpl Nat.pred. now rewrite grid_lookup by lia. }
  rewrite (read_decoded cfg fuel pair name r0 df0 _ s _ _ d Hname Hfile Hlast Hfrom Hto Hd).
  unfold reconcile. rewrite Hr0.
  destruct (before_stage cfg x d fuel pair s (r0 :: df0) T0 (S n') a)
    as (df1 & s1 & i & N1 & Hstage & Hs1 & Hidx1 & Hcount); auto.
  rewrite (bind_Ok _ _ _ _ _ Hstage).
  replace (T0 + Z.of_nat n' * d <? T0 + a * d + Z.of_nat m * d - d) with false
    by (symmetry; apply Z.ltb_ge; nia).
  unfold ret at 1. unfold bind at 1. rewrite Hidx1.
  set (base := T0 + a * d - Z.of_nat i * d) in *.
  assert (Hi : list_index (T0 + a * d) (grid base d N1) = Ok i).
  { replace (T0 + a * d) with (base + Z.of_nat i * d) by (subst base; lia).
    apply list_index_grid; lia. }
  assert (Hj : list_index (T0 + a * d + Z.of_nat m * d - d) (grid base d N1) =
               Ok (i + m - 1)%nat).
  { replace (T0 + a * d + Z.of_nat m * d - d)
      with (base + Z.of_nat (i + m - 1) * d) by (subst base; nia).
    apply list_index_grid; lia. }
  rewrite Hi, Hj. unfold lift at 1 2. unfold bind at 1 2.
  set (df := slice df1 i (i + m - 1 + 1)).
  assert (Hdf : index_values df = grid (T0 + a * d) d m).
  { subst df. rewrite index_values_slice, Hidx1, slice_grid by lia.
    f_equal; [subst base; lia | lia]. }
  destruct (only_requests_self _ _ Hs1) as (_ & _ & Hfs).
  assert (Hnd : fs s1 !! (exchange_path cfg ++ [name]) <> Some Dir)
    by (rewrite Hfs, Hfile; discriminate).
  rewrite Hfs in Hnd. rewrite <- Hfs in Hdir, Hnd.
  rewrite (bind_Ok _ _ _ _ _
             (proj1 (save_dataframe_cases cfg pair name df s1
                       (generate_datafile_name_any _ _ _ _ _ Hname) Hnd) Hdir)).
  unfold ret. eexists _, _. split; [reflexivity|]. split; [assumption|]. split.
  - rewrite Hdf. now apply grid_exactly_covers.
  - simpl. apply lookup_insert_eq.
Qed.

Lemma load_pair_cached_covers_witness :
  exists df s',
    load_pair config_1h 1 "BTC/USDT"
      (ready (regular_exchange hour) hour (5 * hour + -3 * hour)
         (5 * hour + -3 * hour + Z.of_nat 6 * hour)
         (disk_with (cache_of (hourly (5 * hour) 5)))) = (Ok (Frame df), s') /\
    index_values df = grid (5 * hour + -3 * hour) hour 6 /\
    exactly_covers (5 * hour + -3 * hour) (5 * hour + -3 * hour + Z.of_nat 6 * hour) hour
      (index_values df) /\
    fs s' !! (btc_dir ++ ["data-BTCUSDT1h.json"%string]) = Some (cache_of df).
Proof.
  apply (load_pair_cached_covers config_1h (regular_exchange hour) hour (5 * hour) (-3)
           5 6 1 "BTC/USDT" "data-BTCUSDT1h.json" (hourly (5 * hour) 5)
           (ready (regular_exchange hour) hour (5 * hour + -3 * hour)
              (5 * hour + -3 * hour + Z.of_nat 6 * hour)
              (disk_with (cache_of (hourly (5 * hour) 5)))));
    first [apply regular_exchange_on_grid | reflexivity | lia | vm_compute; lia
          | vm_compute; reflexivity].
Defined.

(** X18.  A window that reaches past the cache.  The download behind the cache
    starts at the last cached timestamp itself, so that candle comes a
    second time: with a cache on the grid and an exchange that answers on
    the grid, the frame is the grid from the start of the window to the
    cached end, followed by the grid from the cached end to the end of the
    window.  It has one row more than the window has candles, its
    timestamps are not distinct, and this is what the cache file holds
    afterwards. *)
Theorem load_pair_extension_repeats_cached_end (cfg : Config) (x : Exchange) (d T0 a : Z)
    (n m fuel : nat) (pair name : string) (cache : DataFrame) (s : state) :
  exchange s = Some x -> answers_on_grid x d -> timeframe_calc s = Some d -> 0 < d ->
  index_values cache = grid T0 d n -> (0 < n)%nat ->
  backtesting_from s = Some (T0 + a * d) ->
  backtesting_to s = Some (T0 + a * d + Z.of_nat m * d) ->
  a < Z.of_nat n -> Z.of_nat n < a + Z.of_nat m ->
  (pages (T0 + a * d) T0 d <= fuel)%nat ->
  (pages (T0 + (Z.of_nat n - 1) * d) (T0 + a * d + Z.of_nat m * d) d <= fuel)%nat ->
  generate_datafile_name cfg pair s = (Ok name, s) ->
  fs s !! (exchange_path cfg ++ [name]) = Some (cache_of cache) ->
  fs s !! exchange_path cfg = Some Dir ->
  let r := Z.to_nat (Z.of_nat n - a) in
  exists df s',
    load_pair cfg fuel pair s = (Ok (Frame df), s') /\
    index_values df =
      grid (T0 + a * d) d r ++ grid (T0 + (Z.of_nat n - 1) * d) d (m - r + 1) /\
    length df = S m /\
    ~ NoDup (index_values df) /\
    fs s' !! (exchange_path cfg ++ [name]) = Some (cache_of df).
Proof.
  intros Hx Hgrid Hd Hpos Hidx Hn Hfrom Hto Hstart Hend Hfuel1 Hfuel2 Hname Hfile Hdir r.
  rewrite (load_pair_cached cfg fuel pair name) by eauto.
  destruct n as [|n']; [lia|]. destruct cache as [|r0 df0]; [discriminate Hidx|].
  assert (Hr0 : time r0 = T0) by (now injection Hidx).
  assert (HT1 : T0 + (Z.of_nat (S n') - 1) * d = T0 + Z.of_nat n' * d) by lia.
  rewrite HT1 in *.
  assert (Hlast : last (index_values (r0 :: df0)) = Some (T0 + Z.of_nat n' * d)).
  { rewrite Hidx, last_lookup, grid_length. simpl Nat.pred. now rewrite grid_lookup by lia. }
  rewrite (read_decoded cfg fuel pair name r0 df0 _ s _ _ d Hname Hfile Hlast Hfrom Hto Hd).
  unfold reconcile. rewrite Hr0.
  destruct (before_stage cfg x d fuel pair s (r0 :: df0) T0 (S n') a)
    as (df1 & s1 & i & N1 & Hstage & Hs1 & Hidx1 & Hcount); auto.
  rewrite (bind_Ok _ _ _ _ _ Hstage).
  replace (T0 + Z.of_nat n' * d <? T0 + a * d + Z.of_nat m * d - d) with true
    by (symmetry; apply Z.ltb_lt; nia).
  destruct (only_requests_self _ _ Hs1) as (Hx1 & Hd1 & Hfs1).
  destruct (download_grid cfg x d fuel pair (T0 + Z.of_nat n' * d)
              (T0 + a * d + Z.of_nat m * d) s1) as (new & rqs & Hdl & Hnew);
    try congruence; try assumption; try nia.
  { exists (a + Z.of_nat m - Z.of_nat n'). lia. }
  replace ((T0 + a * d + Z.of_nat m * d - (T0 + Z.of_nat n' * d)) / d)
    with (Z.of_nat (m - r + 1)) in Hnew.
  2: { replace (T0 + a * d + Z.of_nat m * d - (T0 + Z.of_nat n' * d))
         with ((a + Z.of_nat m - Z.of_nat n') * d) by lia.
       rewrite Z.div_mul by lia. subst r. lia. }
  rewrite Nat2Z.id in Hnew.
  unfold bind at 2. unfold bind at 1. rewrite Hdl. unfold ret at 1. cbv beta iota.
  set (s2 := set_fetch_log (fetch_log s1 ++ rqs) s1).
  set (base := T0 + a * d - Z.of_nat i * d) in *.
  assert (Hidx2 : index_values (df1 ++ new) =
                  grid base d N1 ++ grid (T0 + Z.of_nat n' * d) d (m - r + 1)).
  { unfold index_values in *. now rewrite map_app, Hidx1, Hnew. }
  rewrite Hidx2.
  assert (Hi : list_index (T0 + a * d)
                 (grid base d N1 ++ grid (T0 + Z.of_nat n' * d) d (m - r + 1)) = Ok i).
  { apply list_index_app_l.
    replace (T0 + a * d) with (base + Z.of_nat i * d) by (subst base; lia).
    apply list_index_grid; lia. }
  assert (Hj : list_index (T0 + a * d + Z.of_nat m * d - d)
                 (grid base d N1 ++ grid (T0 + Z.of_nat n' * d) d (m - r + 1)) =
               Ok (N1 + (m - r))%nat).
  { rewrite <- (grid_length base d N1) at 2. apply list_index_app_r.
    - intros Hin. apply grid_elem_upper in Hin; [|assumption]. subst base. nia.
    - replace (T0 + a * d + Z.of_nat m * d - d)
        with (T0 + Z.of_nat n' * d + Z.of_nat (m - r) * d) by (subst r; nia).
      apply list_index_grid; lia. }
  rewrite Hi, Hj. unfold lift at 1 2. unfold bind at 1 2.
  set (df := slice (df1 ++ new) i (N1 + (m - r) + 1)).
  assert (Hdf : index_values df =
                grid (T0 + a * d) d r ++ grid (T0 + Z.of_nat n' * d) d (m - r + 1)).
  { subst df. rewrite index_values_slice, Hidx2.
    replace (N1 + (m - r) + 1)%nat
      with (length (grid base d N1) +
            length (grid (T0 + Z.of_nat n' * d) d (m - r + 1)))%nat
      by (rewrite !grid_length; lia).
    rewrite slice_to_end by (rewrite grid_length; lia).
    rewrite drop_grid by lia. f_equal. f_equal; [subst base; lia | subst r; lia]. }
  assert (Hfs2 : fs s2 = fs s) by (subst s2; simpl; congruence).
  assert (Hnd : fs s2 !! (exchange_path cfg ++ [name]) <> Some Dir)
    by (rewrite Hfs2, Hfile; discriminate).
  rewrite <- Hfs2 in Hdir.
  rewrite (bind_Ok _ _ _ _ _
             (proj1 (save_dataframe_cases cfg pair name df s2
                       (generate_datafile_name_any _ _ _ _ _ Hname) Hnd) Hdir)).
  unfold ret. eexists _, _. split; [reflexivity|]. split; [assumption|]. split; [|split].
  - rewrite <- (length_map time df). change (map time df) with (index_values df).
    rewrite Hdf, length_app, !grid_length. subst r. lia.
  - rewrite Hdf. intros Hnodup. apply NoDup_app in Hnodup as (_ & Hdisj & _).
    apply (Hdisj (T0 + Z.of_nat n' * d)).
    + apply list_elem_of_lookup. exists (r - 1)%nat.
      rewrite grid_lookup by (subst r; lia). f_equal. subst r. nia.
    + apply list_elem_of_lookup. exists O. rewrite grid_lookup by lia. f_equal. lia.
  - simpl. apply lookup_insert_eq.
Qed.

Lemma load_pair_extension_repeats_cached_end_witness :
  exists df s',
    load_pair config_1h 1 "BTC/USDT"
      (ready (regular_exchange hour) hour (0 + 0 * hour) (0 + 0 * hour + Z.of_nat 30 * hour)
         (disk_with (cache_of (hourly 0 24)))) = (Ok (Frame df), s') /\
    index_values df =
      grid (0 + 0 * hour) hour (Z.to_nat (Z.of_nat 24 - 0)) ++
      grid (0 + (Z.of_nat 24 - 1) * hour) hour (30 - Z.to_nat (Z.of_nat 24 - 0) + 1) /\
    length df = 31%nat /\
    ~ NoDup (index_values df) /\
    fs s' !! (btc_dir ++ ["data-BTCUSDT1h.json"%string]) = Some (cache_of df).
Proof.
  apply (load_pair_extension_repeats_cached_end config_1h (regular_exchange hour) hour 0 0
           24 30 1 "BTC/USDT" "data-BTCUSDT1h.json" (hourly 0 24)
           (ready (regular_exchange hour) hour (0 + 0 * hour)
              (0 + 0 * hour + Z.of_nat 30 * hour)
              (disk_with (cache_of (hourly 0 24)))));
    first [apply regular_exchange_on_grid | reflexivity | lia | vm_compute; lia
          | vm_compute; reflexivity].
Defined.

(** X19.  No cache file, any exchange: the pair is downloaded page by page, the
    frame is the answers end to end, and it is saved as the new cache file;
    the log of requests and that file are all that changes. *)
Theorem load_pair_fresh_downloads (cfg : Config) (x : Exchange) (d from to : Z) (fuel : nat)
    (pair name : string) (s : state) :
  exchange s = Some x -> timeframe_calc s = Some d -> 0 < d ->
  backtesting_from s = Some from -> backtesting_to s = Some to ->
  (pages from to d <= fuel)%nat ->
  generate_datafile_name cfg pair s = (Ok name, s) ->
  fs s !! (exchange_path cfg ++ [name]) = None ->
  fs s !! exchange_path cfg = Some Dir ->
  let rqs := page_requests (pages from to d) pair (cfg_timeframe cfg) from to d in
  let df := make_frame pair (answers x (fetch_log s) rqs) in
  load_pair cfg fuel pair s =
  (Ok (Frame df),
   set_fs (<[exchange_path cfg ++ [name] := cache_of df]> (fs s))
     (set_fetch_log (fetch_log s ++ rqs) s)).
Proof.
  intros Hx Hd Hpos Hfrom Hto Hfuel Hname Hfile Hdir rqs df.
  destruct (load_pair_fresh cfg fuel pair name s Hname Hfile) as (s0 & _ & Hs0 & ->).
  rewrite (Hs0 (ltac:(eauto))). clear s0 Hs0. rewrite Hfrom, Hto.
  unfold bind. rewrite (download_saved cfg x d) by assumption. fold rqs. fold df.
  assert (Hnd : fs (set_fetch_log (fetch_log s ++ rqs) s) !! (exchange_path cfg ++ [name])
                <> Some Dir) by (cbn [fs set_fetch_log]; rewrite Hfile; discriminate).
  rewrite (proj1 (save_dataframe_cases cfg pair name df _
                    (generate_datafile_name_any _ _ _ _ _ Hname) Hnd) Hdir).
  reflexivity.
Qed.

Lemma load_pair_fresh_downloads_witness :
  load_pair config_1h 1 "BTC/USDT"
    (ready (listed_exchange hour hour) hour 0 (3 * hour) (<[btc_dir := Dir]> ∅)) =
  (Ok (Frame (hourly hour 2)),
   set_fs (<[btc_file := cache_of (hourly hour 2)]> (<[btc_dir := Dir]> ∅))
     (set_fetch_log [{| r_symbol := "BTC/USDT"; r_timeframe := "1h";
                        r_since := 0; r_limit := 3 |}]
        (ready (listed_exchange hour hour) hour 0 (3 * hour) (<[btc_dir := Dir]> ∅)))).
Proof.
  rewrite (load_pair_fresh_downloads config_1h (listed_exchange hour hour) hour 0 (3 * hour)
             1 "BTC/USDT" "data-BTCUSDT1h.json"
             (ready (listed_exchange hour hour) hour 0 (3 * hour) (<[btc_dir := Dir]> ∅)));
    first [reflexivity | vm_compute; lia].
Defined.

(** ** Start-up *)

(** A unit letter other than m and h. *)
Lemma config_timeframe_calc_other_unit (cfg : Config) (ds : string) (c : ascii) (s : state) :
  ds <> EmptyString -> all_digits ds = true ->
  is_unit_letter c = true -> c <> "m"%char -> c <> "h"%char ->
  cfg_timeframe cfg = ds +:+ String c EmptyString ->
  config_timeframe_calc cfg s = (Ok tt, s).
Proof.
  intros Hne Hds Hc Hm Hh Htf. unfold config_timeframe_calc. rewrite Htf.
  assert (Hacc : re_match_timeframe (ds +:+ String c EmptyString) = true).
  { apply re_match_timeframe_spec. exists ds, c, EmptyString. auto. }
  rewrite Hacc, re_split_digits_count_unit by auto using unit_letter_not_digit. simpl.
  munfold. simpl.
  destruct (Ascii.eqb_spec c "m") as [E | _]; [contradiction|].
  destruct (Ascii.eqb_spec c "h") as [E | _]; [contradiction|].
  reflexivity.
Qed.

(** X20.  A unit letter that the pattern accepts but that is neither [m] nor [h]
    (the letter d, and every capital): the timeframe passes, nothing is set
    and nothing is reported. *)
Theorem config_timeframe_calc_unset (cfg : Config) (ds : string) (c : ascii) (s : state) :
  ds <> EmptyString -> all_digits ds = true ->
  is_unit_letter c = true -> c <> "m"%char -> c <> "h"%char ->
  cfg_timeframe cfg = ds +:+ String c EmptyString ->
  config_timeframe_calc cfg s = (Ok tt, s).
Proof. exact (config_timeframe_calc_other_unit cfg ds c s). Qed.

Lemma config_timeframe_calc_unset_witness :
  config_timeframe_calc (with_timeframe "5M" config_1h) (fresh ∅) = (Ok tt, fresh ∅).
Proof.
  apply (config_timeframe_calc_unset (with_timeframe "5M" config_1h) "5" "M" (fresh ∅));
    first [discriminate | reflexivity].
Defined.

(** The run of [config_from_to]. *)
Lemma config_from_to_run (cfg : Config) (x : Exchange) (s : state) :
  exchange s = Some x ->
  let s1 := set_backtesting_from
              (parse8601 x (cfg_backtesting_from cfg +:+ "T00:00:00Z")) s in
  (cfg_backtesting_till_now cfg = "True"%string ->
   config_from_to cfg s = (Ok tt, set_backtesting_to (Some (milliseconds x)) s1)) /\
  (cfg_backtesting_till_now cfg = "False"%string ->
   config_from_to cfg s =
     (Ok tt, set_backtesting_to
               (parse8601 x (cfg_backtesting_to cfg +:+ "T00:00:00Z")) s1)) /\
  (cfg_backtesting_till_now cfg <> "True"%string ->
   cfg_backtesting_till_now cfg <> "False"%string ->
   config_from_to cfg s = (Ok tt, s1)).
Proof.
  intros Hx s1. unfold config_from_to. munfold. rewrite Hx. cbv beta iota.
  split; [|split].
  - intros ->. reflexivity.
  - intros ->. reflexivity.
  - intros HT HF.
    destruct (String.eqb_spec (cfg_backtesting_till_now cfg) "True"); [contradiction|].
    destruct (String.eqb_spec (cfg_backtesting_till_now cfg) "False"); [contradiction|].
    reflexivity.
Qed.

(** X21.  [config_from_to] never aborts.  The start of the window is whatever
    [parse8601] makes of the date, also nothing.  With the flag ["True"] the
    end is the current time, with ["False"] whatever [parse8601] makes of
    the date, and with any other flag the end is left as it was. *)
Theorem config_from_to_cases (cfg : Config) (x : Exchange) (s : state) :
  exchange s = Some x ->
  let s1 := set_backtesting_from
              (parse8601 x (cfg_backtesting_from cfg +:+ "T00:00:00Z")) s in
  (cfg_backtesting_till_now cfg = "True"%string ->
   config_from_to cfg s = (Ok tt, set_backtesting_to (Some (milliseconds x)) s1)) /\
  (cfg_backtesting_till_now cfg = "False"%string ->
   config_from_to cfg s =
     (Ok tt, set_backtesting_to
               (parse8601 x (cfg_backtesting_to cfg +:+ "T00:00:00Z")) s1)) /\
  (cfg_backtesting_till_now cfg <> "True"%string ->
   cfg_backtesting_till_now cfg <> "False"%string ->
   config_from_to cfg s = (Ok tt, s1)).
Proof. exact (config_from_to_run cfg x s). Qed.

Lemma config_from_to_cases_witness :
  config_from_to (with_till_now "true" config_1h)
    (set_exchange (Some (regular_exchange hour)) (fresh ∅)) =
  (Ok tt, set_backtesting_from (Some 1609459200000)
            (set_exchange (Some (regular_exchange hour)) (fresh ∅))).
Proof.
  apply (proj2 (proj2 (config_from_to_cases (with_till_now "true" config_1h)
                         (regular_exchange hour)
                         (set_exchange (Some (regular_exchange hour)) (fresh ∅)) eq_refl)));
    discriminate.
Defined.

(** X22.  How [load_exchange] ends without loading anything.  It aborts with
    [SystemExit] when [ccxt] has no attribute of that name, and, with
    [self.exchange] already set, when the exchange has no OHLCV data, has no
    attribute [timeframes] or does not list the timeframe; when
    [timeframes] holds [None], it ends with the [TypeError] of [not in].
    When the name is that of an attribute of [ccxt] that is no exchange,
    [self.exchange] is overwritten and the run ends with the exception of
    the call (a [TypeError] for what cannot be called) or with the
    [AttributeError] of [self.exchange.has]; only an [AttributeError] of the
    call itself becomes [SystemExit].  Nothing was read, written or
    requested by then. *)
Theorem load_exchange_aborts (cfg : Config) (ccxt : string -> option attribute)
    (fuel : nat) (s : state) :
  (ccxt (cfg_exchange cfg) = None ->
   load_exchange cfg ccxt fuel s = (Raise SystemExit, s)) /\
  (forall x, ccxt (cfg_exchange cfg) = Some (ExchangeClass x) ->
     has_fetchOHLCV x = false \/ timeframes x = Missing \/
     (exists tfs, timeframes x = Listed tfs /\ cfg_timeframe cfg ∉ tfs) ->
     load_exchange cfg ccxt fuel s = (Raise SystemExit, set_exchange (Some x) s)) /\
  (forall x, ccxt (cfg_exchange cfg) = Some (ExchangeClass x) ->
     has_fetchOHLCV x = true -> timeframes x = Unset ->
     load_exchange cfg ccxt fuel s = (Raise TypeError, set_exchange (Some x) s)) /\
  (forall called, ccxt (cfg_exchange cfg) = Some (Other called) ->
     exists e,
       fst (load_exchange cfg ccxt fuel s) = Raise e /\
       exchange (snd (load_exchange cfg ccxt fuel s)) = None /\
       fs (snd (load_exchange cfg ccxt fuel s)) = fs s /\
       fetch_log (snd (load_exchange cfg ccxt fuel s)) = fetch_log s /\
       (called = Some AttributeError -> e = SystemExit) /\
       (called = None -> e = AttributeError) /\
       (forall e', called = Some e' -> e' <> AttributeError -> e = e')).
Proof.
  unfold load_exchange. split; [|split; [|split]].
  - intros ->. reflexivity.
  - intros x -> H. munfold.
    destruct (has_fetchOHLCV x); [|reflexivity]. simpl.
    destruct H as [H | [H | (tfs & H & Hnot)]]; [discriminate | now rewrite H |].
    rewrite H. now rewrite bool_decide_eq_false_2.
  - intros x -> Hhas Htfs. munfold. now rewrite Hhas, Htfs.
  - intros called ->. munfold.
    destruct called as [e|].
    + destruct e;
        (eexists; split; [reflexivity|]; split; [reflexivity|];
         split; [reflexivity|]; split; [reflexivity|];
         split; [intros [= ]; try reflexivity|];
         split; [discriminate|];
         intros e' [= <-] Hne; first [reflexivity | now destruct Hne]).
    + exists AttributeError. split; [reflexivity|]. split; [reflexivity|].
      split; [reflexivity|]. split; [reflexivity|].
      split; [discriminate|]. split; [reflexivity | discriminate].
Qed.

Lemma load_exchange_aborts_witness :
  load_exchange (with_timeframe "4h" config_1h) (binance_only (regular_exchange hour)) 1
    (fresh ∅) =
  (Raise SystemExit, set_exchange (Some (regular_exchange hour)) (fresh ∅)) /\
  exists e,
    fst (load_exchange (with_exchange "__version__" config_1h)
           (binance_only (regular_exchange hour)) 1 (fresh ∅)) = Raise e /\
    exchange (snd (load_exchange (with_exchange "__version__" config_1h)
                     (binance_only (regular_exchange hour)) 1 (fresh ∅))) = None /\
    fs (snd (load_exchange (with_exchange "__version__" config_1h)
               (binance_only (regular_exchange hour)) 1 (fresh ∅))) = fs (fresh ∅) /\
    fetch_log (snd (load_exchange (with_exchange "__version__" config_1h)
                      (binance_only (regular_exchange hour)) 1 (fresh ∅))) =
      fetch_log (fresh ∅) /\
    (Some TypeError = Some AttributeError -> e = SystemExit) /\
    (Some TypeError = None -> e = AttributeError) /\
    (forall e', Some TypeError = Some e' -> e' <> AttributeError -> e = e').
Proof.
  split.
  - apply (proj1 (proj2 (load_exchange_aborts (with_timeframe "4h" config_1h)
                           (binance_only (regular_exchange hour)) 1 (fresh ∅)))
             (regular_exchange hour) eq_refl).
    right. right. exists ["1m"; "1h"; "1d"]%string. split; [reflexivity|].
    intros H. repeat (apply elem_of_cons in H as [H | H]; [discriminate H|]).
    now apply elem_of_nil in H.
  - apply (proj2 (proj2 (proj2 (load_exchange_aborts (with_exchange "__version__" config_1h)
                                  (binance_only (regular_exchange hour)) 1 (fresh ∅))))
             (Some TypeError) eq_refl).
Defined.

Lemma set_timeframe_calc_id s : set_timeframe_calc (timeframe_calc s) s = s.
Proof. now destruct s. Qed.

(** [config_timeframe_calc] touches nothing but the duration. *)
Lemma config_timeframe_calc_state cfg s r s' :
  config_timeframe_calc cfg s = (r, s') -> exists o, s' = set_timeframe_calc o s.
Proof.
  assert (Hid : exists o, s = set_timeframe_calc o s)
    by (exists (timeframe_calc s); now rewrite set_timeframe_calc_id).
  unfold config_timeframe_calc. destruct (re_match_timeframe (cfg_timeframe cfg)); simpl;
    [|unfold raise; now intros [= _ <-]].
  munfold.
  destruct (py_item (re_split_digits (cfg_timeframe cfg)) 2) as [u | e |];
    try (now intros [= _ <-]).
  destruct (String.eqb u "m").
  - destruct (py_item (re_split_digits (cfg_timeframe cfg)) 1) as [t | e |];
      try (now intros [= _ <-]).
    destruct (py_int t) as [k | e |]; try (now intros [= _ <-]).
    intros [= _ <-]. eauto.
  - destruct (String.eqb u "h"); [|now intros [= _ <-]].
    destruct (py_item (re_split_digits (cfg_timeframe cfg)) 1) as [t | e |];
      try (now intros [= _ <-]).
    destruct (py_int t) as [k | e |]; try (now intros [= _ <-]).
    intros [= _ <-]. eauto.
Qed.

(** X23.  A run that does not abort though the window has no end.  On a
    module whose window has no end yet, as on every new object, with a
    timeframe the pattern accepts, an exchange that lists it, a flag that is
    neither ["True"] nor ["False"] and no pair to load, [__init__] goes all
    the way to the consumer and hands it a window without an end, together
    with whatever [history_data] held before: the dictionary of the class,
    filled by the objects before this one.  No request is sent and the file
    system is untouched. *)
Theorem init_hands_over_without_end (cfg : Config) (ccxt : string -> option attribute)
    (x : Exchange) (tfs : list string) (fuel : nat) (s : state) :
  re_match_timeframe (cfg_timeframe cfg) = true ->
  ccxt (cfg_exchange cfg) = Some (ExchangeClass x) -> has_fetchOHLCV x = true ->
  timeframes x = Listed tfs -> cfg_timeframe cfg ∈ tfs ->
  cfg_backtesting_till_now cfg <> "True"%string ->
  cfg_backtesting_till_now cfg <> "False"%string ->
  cfg_pairs cfg = [] ->
  backtesting_to s = None ->
  exists h s',
    init cfg ccxt fuel s = (Ok h, s') /\
    h_to h = None /\ h_data h = history_data s /\
    fs s' = fs s /\ fetch_log s' = fetch_log s.
Proof.
  intros Hacc Hccxt Hhas Htfs Hin HT HF Hpairs Hend.
  destruct (config_timeframe_calc_accepted cfg s Hacc) as (s1 & Hs1).
  destruct (config_timeframe_calc_state _ _ _ _ Hs1) as (o & ->).
  unfold init. rewrite (bind_Ok _ _ _ _ _ Hs1).
  unfold load_exchange. rewrite Hccxt. unfold modify at 1. unfold bind at 1.
  rewrite Hhas, Htfs. cbn [negb].
  rewrite bool_decide_eq_true_2 by assumption. cbn [negb].
  unfold load_markets.
  rewrite (bind_Ok _ _ _ _ _
             (proj2 (proj2 (config_from_to_run cfg x
                              (set_exchange (Some x) (set_timeframe_calc o s))
                              eq_refl)) HT HF)).
  unfold load_historical_data. rewrite Hpairs. simpl.
  munfold. simpl. eexists _, _. split; [reflexivity|]. auto.
Qed.

Lemma init_hands_over_without_end_witness :
  exists h s',
    init (with_pairs [] (with_till_now "yes" config_1h))
      (binance_only (regular_exchange hour)) 1
      (set_history_data (<["ETH/USDT"%string := Frame (hourly 0 2)]> ∅) (fresh ∅)) =
      (Ok h, s') /\
    h_to h = None /\
    h_data h =
      history_data (set_history_data (<["ETH/USDT"%string := Frame (hourly 0 2)]> ∅)
                      (fresh ∅)) /\
    fs s' = fs (set_history_data (<["ETH/USDT"%string := Frame (hourly 0 2)]> ∅) (fresh ∅)) /\
    fetch_log s' =
      fetch_log (set_history_data (<["ETH/USDT"%string := Frame (hourly 0 2)]> ∅) (fresh ∅)).
Proof.
  apply (init_hands_over_without_end (with_pairs [] (with_till_now "yes" config_1h))
           (binance_only (regular_exchange hour)) (regular_exchange hour)
           ["1m"; "1h"; "1d"]%string 1
           (set_history_data (<["ETH/USDT"%string := Frame (hourly 0 2)]> ∅) (fresh ∅)));
    first [reflexivity | discriminate | (apply elem_of_cons; right; apply elem_of_cons; now left)].
Defined.

(** X24.  Without an end of the window a pair cannot be loaded: [TypeError], with
    or without a cache file, and before any request is sent.  Without a
    cache file the directory of the exchange may have been made by then. *)
Theorem load_pair_without_end (cfg : Config) (fuel : nat) (pair name : string) (s : state) :
  generate_datafile_name cfg pair s = (Ok name, s) ->
  backtesting_to s = None ->
  (fs s !! (exchange_path cfg ++ [name]) = None ->
   exists s0, load_pair cfg fuel pair s = (Raise TypeError, s0) /\
              only_dirs_towards (exchange_path cfg) s s0) /\
  (forall r0 df0, fs s !! (exchange_path cfg ++ [name]) = Some (cache_of (r0 :: df0)) ->
     is_Some (fs s !! exchange_path cfg) ->
     load_pair cfg fuel pair s = (Raise TypeError, s)).
Proof.
  intros Hname Hto. split.
  - intros Hfile.
    destruct (load_pair_fresh cfg fuel pair name s Hname Hfile) as (s0 & Hs0 & _ & ->).
    exists s0. split; [|assumption]. rewrite Hto.
    unfold download_data_for_pair. munfold. now destruct (backtesting_from s).
  - intros r0 df0 Hfile Hdir.
    rewrite (load_pair_cached cfg fuel pair name) by eauto.
    unfold read_data_from_datafile. rewrite (bind_Ok _ _ _ _ _ Hname).
    rewrite (bind_Ok _ _ _ _ _ (try_read _ s)).
    rewrite Hfile. unfold cache_of. cbv beta iota.
    unfold json_dump, json_loads, lift at 1. unfold bind at 1.
    unfold lift at 1. unfold bind at 1. rewrite pd_read_json_to_json.
    unfold set_index_time, lift at 1. unfold bind at 1.
    unfold lift at 1. unfold bind at 1.
    change (py_item (index_values (r0 :: df0)) 0) with (Ok (time r0)). cbv beta iota.
    destruct (exists_last (l := index_values (r0 :: df0))) as (l & y & E); [discriminate|].
    rewrite E. unfold lift at 1. unfold bind at 1. rewrite py_item_last.
    unfold get_state. unfold bind at 1. unfold number. rewrite Hto. reflexivity.
Qed.

Lemma load_pair_without_end_witness :
  load_pair config_1h 1 "BTC/USDT"
    (set_backtesting_to None
       (ready (regular_exchange hour) hour 0 0 (disk_with (cache_of (hourly 0 3))))) =
  (Raise TypeError,
   set_backtesting_to None
     (ready (regular_exchange hour) hour 0 0 (disk_with (cache_of (hourly 0 3))))).
Proof.
  apply (proj2 (load_pair_without_end config_1h 1 "BTC/USDT" "data-BTCUSDT1h.json"
                  (set_backtesting_to None
                     (ready (regular_exchange hour) hour 0 0
                        (disk_with (cache_of (hourly 0 3))))) eq_refl eq_refl)
           (make_row "BTC/USDT" (candle_at 0)) (hourly hour 2));
    [vm_compute; reflexivity | vm_compute; eauto].
Defined.

(** X25.  [remove_backtesting_file] undoes [save_dataframe].  In the directory of
    the exchange, removing a cache file that is not there raises
    [FileNotFoundError] and changes nothing; saving a new cache file and
    removing it again leaves the state as it was. *)
Theorem save_then_remove (cfg : Config) (pair name : string) (df : DataFrame) (s : state) :
  generate_datafile_name cfg pair s = (Ok name, s) ->
  fs s !! exchange_path cfg = Some Dir ->
  fs s !! (exchange_path cfg ++ [name]) = None ->
  remove_backtesting_file cfg pair s = (Raise FileNotFoundError, s) /\
  (save_dataframe cfg pair df ;;; remove_backtesting_file cfg pair) s = (Ok tt, s).
Proof.
  intros Hname Hdir Hfile.
  assert (Hpar : parent (exchange_path cfg ++ [name]) = exchange_path cfg)
    by (unfold parent; now rewrite removelast_last).
  split.
  - unfold remove_backtesting_file. rewrite (bind_Ok _ _ _ _ _ Hname).
    unfold remove_file, check_parent. munfold. rewrite Hfile, Hpar.
    unfold exchange_path in *. now rewrite Hdir.
  - assert (Hnd : fs s !! (exchange_path cfg ++ [name]) <> Some Dir) by congruence.
    rewrite (bind_Ok _ _ _ _ _
               (proj1 (save_dataframe_cases cfg pair name df s Hname Hnd) Hdir)).
    unfold remove_backtesting_file.
    rewrite (bind_Ok _ _ _ _ _ (generate_datafile_name_any _ _ _ _ _ Hname)).
    unfold remove_file. munfold.
    cbn [fs set_fs]. rewrite lookup_insert_eq. unfold cache_of. cbn [fs set_fs].
    rewrite delete_insert_id by assumption. now destruct s.
Qed.

Lemma save_then_remove_witness :
  remove_backtesting_file config_1h "BTC/USDT" (fresh (<[btc_dir := Dir]> ∅)) =
    (Raise FileNotFoundError, fresh (<[btc_dir := Dir]> ∅)) /\
  (save_dataframe config_1h "BTC/USDT" (hourly 0 2) ;;;
   remove_backtesting_file config_1h "BTC/USDT") (fresh (<[btc_dir := Dir]> ∅)) =
    (Ok tt, fresh (<[btc_dir := Dir]> ∅)).
Proof.
  apply (save_then_remove config_1h "BTC/USDT" "data-BTCUSDT1h.json" (hourly 0 2)
           (fresh (<[btc_dir := Dir]> ∅)));
    first [reflexivity | vm_compute; reflexivity].
Defined.

(** ** What loading touches *)

Lemma footprint_refl cfg pair s : footprint cfg pair s s.
Proof. unfold footprint. repeat split; auto. Qed.

Lemma footprint_requests cfg pair s s' : only_requests s s' -> footprint cfg pair s s'.
Proof.
  intros (rqs & ->). unfold footprint. cbn. repeat split; auto.
  now exists rqs.
Qed.

(** The state after [save_dataframe], however it ends. *)
Lemma save_dataframe_total cfg pair df s :
  snd (save_dataframe cfg pair df s) = s \/
  exists name, generate_datafile_name cfg pair s = (Ok name, s) /\
    fs s !! (exchange_path cfg ++ [name]) <> Some Dir /\
    snd (save_dataframe cfg pair df s) =
      set_fs (<[exchange_path cfg ++ [name] := cache_of df]> (fs s)) s.
Proof.
  destruct (generate_datafile_name_outcome cfg pair s) as [(name & Hname) | Hname].
  - unfold save_dataframe. rewrite (bind_Ok _ _ _ _ _ Hname).
    rewrite write_file_cases by discriminate.
    destruct (fs s !! (exchange_path cfg ++ [name])) as [[|t|]|] eqn:Hf;
      destruct (fs s !! exchange_path cfg) as [[|t'|]|] eqn:Hd; cbn [snd]; auto;
      right; exists name; (split; [assumption|]); (split; [congruence|]); reflexivity.
  - left. unfold save_dataframe. now rewrite (bind_Raise _ _ _ _ _ Hname).
Qed.

(** The state after a download, saved or not, however it ends. *)
Lemma download_total cfg fuel pair data_from data_to save s :
  exists s1, only_requests s s1 /\
    (snd (download_data_for_pair cfg fuel pair data_from data_to save s) = s1 \/
     exists name df, generate_datafile_name cfg pair s = (Ok name, s) /\
       fs s !! (exchange_path cfg ++ [name]) <> Some Dir /\
       snd (download_data_for_pair cfg fuel pair data_from data_to save s) =
         set_fs (<[exchange_path cfg ++ [name] := cache_of df]> (fs s1)) s1).
Proof.
  unfold download_data_for_pair.
  destruct data_from as [from|]; [|exists s; split; [apply only_requests_refl | now left]].
  destruct data_to as [to|]; [|exists s; split; [apply only_requests_refl | now left]].
  munfold. cbv beta iota.
  pose proof (download_loop_only_requests cfg fuel pair from to [] [] s) as Hreq.
  destruct (download_loop cfg fuel pair from to [] [] s) as [[r | e |] s1]; cbn [snd] in Hreq;
    exists s1; (split; [assumption|]); try (now left).
  destruct save; [|now left].
  destruct (save_dataframe_total cfg pair (make_frame pair (snd r)) s1) as [H | (name & Hn & Hf & H)].
  - left. destruct (save_dataframe cfg pair (make_frame pair (snd r)) s1) as [[u | e |] s2];
      cbn [snd] in *; assumption.
  - right. exists name, (make_frame pair (snd r)).
    split; [exact (generate_datafile_name_any _ _ _ _ _ Hn)|].
    split; [now rewrite <- (only_requests_fs _ _ Hreq)|].
    destruct (save_dataframe cfg pair (make_frame pair (snd r)) s1) as [[u | e |] s2];
      cbn [snd] in *; assumption.
Qed.

Lemma stage_requests cfg fuel pair (c : bool) a b (k : DataFrame -> DataFrame) df s :
  only_requests s
    (snd ((if c then x <- download_data_for_pair cfg fuel pair a b false ;; ret (k x)
           else ret df) s)).
Proof.
  destruct c; [|apply only_requests_refl]. unfold bind, ret.
  pose proof (download_only_requests cfg fuel pair a b s) as H.
  now destruct (download_data_for_pair cfg fuel pair a b false s) as [[x | e |] s1].
Qed.

(** The state after the reconciliation of a decoded cache file with the
    window, however it ends. *)
Lemma reconcile_total cfg fuel pair df df_begin df_end b_from b_to d s r s' :
  reconcile cfg fuel pair df df_begin df_end b_from b_to d s = (r, s') ->
  exists s1, only_requests s s1 /\
    (s' = s1 \/
     exists name df', generate_datafile_name cfg pair s = (Ok name, s) /\
       fs s !! (exchange_path cfg ++ [name]) <> Some Dir /\
       s' = set_fs (<[exchange_path cfg ++ [name] := cache_of df']> (fs s1)) s1).
Proof.
  unfold reconcile. unfold bind at 1.
  match goal with |- context [match ?m with (_, _) => _ end] =>
    assert (H1 : only_requests s (snd m))
      by exact (stage_requests cfg fuel pair _ _ _ (fun x => x ++ df) df s);
    destruct m as [[df1 | e |] s1]; cbn [snd] in H1
  end;
    try (intros [= _ <-]; exists s1; split; [assumption | now left]).
  unfold bind at 1.
  match goal with |- context [match ?m with (_, _) => _ end] =>
    assert (H2 : only_requests s1 (snd m))
      by exact (stage_requests cfg fuel pair _ _ _ (fun x => df1 ++ x) df1 s1);
    destruct m as [[df2 | e |] s2]; cbn [snd] in H2
  end.
  2,3: intros [= _ <-]; exists s2; split; [exact (only_requests_trans _ _ _ H1 H2) | now left].
  assert (H : only_requests s s2) by exact (only_requests_trans _ _ _ H1 H2).
  unfold lift, bind, ret.
  destruct (list_index b_from (index_values df2)) as [i | e |];
    try (intros [= _ <-]; exists s2; split; [assumption | now left]).
  destruct (list_index (b_to - d) (index_values df2)) as [j | e |];
    try (intros [= _ <-]; exists s2; split; [assumption | now left]).
  destruct (save_dataframe_total cfg pair (slice df2 i (j + 1)) s2)
    as [E | (name & Hn & Hf & E)];
    destruct (save_dataframe cfg pair (slice df2 i (j + 1)) s2) as [[u | e |] s3];
    cbn [snd] in E; intros [= _ <-]; exists s2; (split; [assumption|]);
    try (now left);
    right; exists name, (slice df2 i (j + 1));
    (split; [exact (generate_datafile_name_any _ _ _ _ _ Hn)|]);
    (split; [now rewrite <- (only_requests_fs _ _ H) | assumption]).
Qed.

(** A read ends where it began, or is the reconciliation of the decoded
    cache file with the window. *)
Lemma read_cases cfg fuel pair s r s' :
  read_data_from_datafile cfg fuel pair s = (r, s') ->
  s' = s \/
  exists df df_begin df_end b_from b_to d,
    reconcile cfg fuel pair df df_begin df_end b_from b_to d s = (r, s').
Proof.
  unfold read_data_from_datafile.
  destruct (generate_datafile_name_outcome cfg pair s) as [(name & Hname) | Hname];
    [|rewrite (bind_Raise _ _ _ _ _ Hname); intros [= _ <-]; now left].
  rewrite (bind_Ok _ _ _ _ _ Hname), (bind_Ok _ _ _ _ _ (try_read _ s)).
  destruct (fs s !! (exchange_path cfg ++ [name])) as [[|t|]|];
    try (intros [= _ <-]; now left).
  unfold lift at 1. unfold bind at 1.
  destruct (json_loads t) as [j | e |]; try (intros [= _ <-]; now left).
  unfold lift at 1. unfold bind at 1.
  destruct (pd_read_json j) as [df | e |]; try (intros [= _ <-]; now left).
  unfold lift at 1. unfold bind at 1.
  destruct (set_index_time df) as [df' | e |]; try (intros [= _ <-]; now left).
  unfold lift at 1. unfold bind at 1.
  destruct (py_item (index_values df') 0) as [df_begin | e |];
    try (intros [= _ <-]; now left).
  unfold lift at 1. unfold bind at 1.
  destruct (py_item (index_values df') _) as [df_end | e |];
    try (intros [= _ <-]; now left).
  unfold get_state at 1. unfold bind at 1.
  unfold number.
  destruct (backtesting_to s) as [b_to|]; [|intros [= _ <-]; now left].
  unfold ret at 1. unfold bind at 1.
  destruct (timeframe_calc s) as [d|]; [|intros [= _ <-]; now left].
  unfold ret at 1. unfold bind at 1.
  destruct (backtesting_from s) as [b_from|]; [|intros [= _ <-]; now left].
  unfold ret at 1. unfold bind at 1.
  intros H. right. exists df', df_begin, df_end, b_from, b_to, d. exact H.
Qed.

Lemma footprint_compose cfg pair name s s0 s1 s' :
  generate_datafile_name cfg pair s = (Ok name, s) ->
  only_dirs_towards (exchange_path cfg) s s0 -> only_requests s0 s1 ->
  (s' = s1 \/
   exists df, fs s0 !! (exchange_path cfg ++ [name]) <> Some Dir /\
     s' = set_fs (<[exchange_path cfg ++ [name] := cache_of df]> (fs s1)) s1) ->
  footprint cfg pair s s'.
Proof.
  intros Hname [E0 Hdirs] (rqs & E1) Hs'.
  assert (Hq : forall q, fs s1 !! q = fs s !! q \/
            (fs s !! q = None /\ fs s1 !! q = Some Dir /\ q `prefix_of` exchange_path cfg)).
  { intros q. subst s1. cbn [fs set_fetch_log]. apply Hdirs. }
  assert (Hrest : exchange s1 = exchange s /\ timeframe_calc s1 = timeframe_calc s /\
            backtesting_from s1 = backtesting_from s /\
            backtesting_to s1 = backtesting_to s /\
            history_data s1 = history_data s /\ fetch_log s `prefix_of` fetch_log s1).
  { subst s1. rewrite E0. cbn. repeat split; auto. now exists rqs. }
  destruct Hrest as (H1 & H2 & H3 & H4 & H5 & H6).
  destruct Hs' as [-> | (df & Hnd & ->)].
  - unfold footprint. repeat split; auto. intros q. destruct (Hq q) as [H | H]; auto.
  - unfold footprint. cbn [exchange timeframe_calc backtesting_from backtesting_to
                             history_data fetch_log fs set_fs].
    repeat split; auto. intros q.
    destruct (decide (q = exchange_path cfg ++ [name])) as [-> | Hne].
    + right. right. exists name, (json_dump (JStr (to_json_records df))).
      split; [assumption|]. split; [reflexivity|].
      split; [|now rewrite lookup_insert_eq].
      destruct (Hdirs (exchange_path cfg ++ [name])) as [H | (H & _)]; congruence.
    + rewrite lookup_insert_ne by congruence. destruct (Hq q) as [H | H]; auto.
Qed.

(** The state after loading a pair, however that ends. *)
Lemma load_pair_leaves (cfg : Config) (fuel : nat) (pair : string) (s : state) :
  footprint cfg pair s (snd (load_pair cfg fuel pair s)).
Proof.
  destruct (generate_datafile_name_outcome cfg pair s) as [(name & Hname) | Hname].
  - destruct (check_datafolder_run cfg pair name s Hname) as (s0 & Hcheck & Hdirs & _).
    assert (Hname0 : generate_datafile_name cfg pair s0 = (Ok name, s0))
      by exact (generate_datafile_name_any _ _ _ _ _ Hname).
    unfold load_pair. rewrite (bind_Ok _ _ _ _ _ Hcheck).
    destruct (bool_decide _); cbn [negb].
    + destruct (read_data_from_datafile cfg fuel pair s0) as [r s'] eqn:E. cbn [snd].
      destruct (read_cases _ _ _ _ _ _ E) as [-> | (df & b & e & f & t & d & Hrec)].
      * apply (footprint_compose cfg pair name s s0 s0); auto using only_requests_refl.
      * destruct (reconcile_total _ _ _ _ _ _ _ _ _ _ _ _ Hrec)
          as (s1 & Hreq & [-> | (name' & df' & Hn' & Hnd & ->)]).
        -- apply (footprint_compose cfg pair name s s0 s1); auto.
        -- assert (name' = name) by congruence. subst name'.
           apply (footprint_compose cfg pair name s s0 s1); eauto.
    + unfold get_state. unfold bind at 1. unfold bind at 1.
      destruct (download_total cfg fuel pair (backtesting_from s0) (backtesting_to s0) true s0)
        as (s1 & Hreq & H).
      destruct (download_data_for_pair cfg fuel pair _ _ true s0) as [[df | e |] s'];
        cbn [snd] in *;
        (destruct H as [-> | (name' & df' & Hn' & Hnd & ->)];
         [apply (footprint_compose cfg pair name s s0 s1); auto
         |assert (name' = name) by congruence; subst name';
          apply (footprint_compose cfg pair name s s0 s1); eauto]).
  - assert (H : load_pair cfg fuel pair s = (Raise ValueError, s)).
    { unfold load_pair, check_datafolder.
      now rewrite (bind_Raise _ _ _ _ _ (bind_Raise _ _ _ _ _ Hname)). }
    rewrite H. apply footprint_refl.
Qed.

(** X26.  What loading a pair can touch, however it ends: with a result, with an
    exception or out of fuel.  The exchange, the duration, the window and
    [history_data] stay as they were; requests are only added to the log;
    and in the file system every entry is as it was, except that directories
    on the way to the directory of the exchange may have been made and that
    the cache file of the pair may have been written.  Nothing is removed
    and no other file is written. *)
Theorem load_pair_footprint (cfg : Config) (fuel : nat) (pair : string) (s : state) :
  footprint cfg pair s (snd (load_pair cfg fuel pair s)).
Proof. exact (load_pair_leaves cfg fuel pair s). Qed.

(** What the loop over the pairs leaves in [history_data]. *)
Lemma load_pairs_run cfg fuel pairs : forall s r s',
  load_pairs cfg fuel pairs s = (r, s') ->
  exchange s' = exchange s /\ timeframe_calc s' = timeframe_calc s /\
  backtesting_from s' = backtesting_from s /\ backtesting_to s' = backtesting_to s /\
  (forall p, p ∉ pairs -> history_data s' !! p = history_data s !! p) /\
  (r = Ok tt -> forall p, p ∈ pairs -> is_Some (history_data s' !! p)).
Proof.
  induction pairs as [|pair rest IH]; intros s r s'.
  - cbn. unfold ret. intros [= <- <-]. repeat split; auto. intros _ p Hp.
    now apply elem_of_nil in Hp.
  - cbn [load_pairs]. unfold bind at 1.
    pose proof (load_pair_leaves cfg fuel pair s) as Hfoot.
    destruct (load_pair cfg fuel pair s) as [[df | e |] s1]; cbn [snd] in Hfoot;
      destruct Hfoot as (H1 & H2 & H3 & H4 & H5 & _).
    + unfold modify at 1. unfold bind at 1. intros Hrest.
      apply IH in Hrest. cbn in Hrest.
      destruct Hrest as (K1 & K2 & K3 & K4 & K5 & K6).
      repeat split; try congruence.
      * intros p Hp. apply not_elem_of_cons in Hp as [Hne Hp].
        rewrite (K5 p Hp), lookup_insert_ne by congruence. now rewrite H5.
      * intros Hr p Hp. destruct (decide (p ∈ rest)) as [Hin | Hnin]; [now apply K6|].
        apply elem_of_cons in Hp as [-> | Hp]; [|contradiction].
        rewrite (K5 pair Hnin), lookup_insert_eq. eauto.
    + intros [= <- <-]. repeat split; congruence.
    + intros [= <- <-]. repeat split; congruence.
Qed.

(** X27.  What the consumer is started with: the window as the module holds it,
    a result for every pair of the configuration, and every entry that
    [history_data] held before under another name, unchanged. *)
Theorem load_historical_data_hands_over (cfg : Config) (fuel : nat) (s s' : state)
    (h : handover) :
  load_historical_data cfg fuel s = (Ok h, s') ->
  h_from h = backtesting_from s /\ h_to h = backtesting_to s /\
  (forall p, p ∈ cfg_pairs cfg -> is_Some (h_data h !! p)) /\
  (forall p, p ∉ cfg_pairs cfg -> h_data h !! p = history_data s !! p).
Proof.
  unfold load_historical_data. unfold bind at 1.
  destruct (load_pairs cfg fuel (cfg_pairs cfg) s) as [[[] | e |] s1] eqn:E;
    try discriminate.
  apply load_pairs_run in E. destruct E as (_ & _ & K3 & K4 & K5 & K6).
  munfold. intros [= <- <-]. cbn. repeat split; auto.
Qed.

Lemma load_historical_data_hands_over_witness :
  let s := ready (regular_exchange hour) hour 0 (3 * hour) (disk_with Dir) in
  let h := {| h_data := <["BTC/USDT"%string := PyFalse]> ∅;
              h_from := Some 0; h_to := Some (3 * hour) |} in
  h_from h = backtesting_from s /\ h_to h = backtesting_to s /\
  (forall p, p ∈ cfg_pairs config_1h -> is_Some (h_data h !! p)) /\
  (forall p, p ∉ cfg_pairs config_1h -> h_data h !! p = history_data s !! p).
Proof.
  apply (load_historical_data_hands_over config_1h 1
           (ready (regular_exchange hour) hour 0 (3 * hour) (disk_with Dir))
           (set_history_data (<["BTC/USDT"%string := PyFalse]> ∅)
              (ready (regular_exchange hour) hour 0 (3 * hour) (disk_with Dir)))).
  vm_compute; reflexivity.
Defined.

(** X28.  A directory where the cache file should be.  [check_datafolder] finds
    the path, [open] fails, [read_data_from_datafile] returns [False], and
    the consumer is started with [False] as the data of the pair: no
    exception, no request and no download, whether or not the window and
    the duration are set. *)
Theorem load_historical_data_hands_over_false (cfg : Config) (fuel : nat)
    (pair name : string) (s : state) :
  cfg_pairs cfg = [pair] ->
  generate_datafile_name cfg pair s = (Ok name, s) ->
  is_Some (fs s !! exchange_path cfg) ->
  fs s !! (exchange_path cfg ++ [name]) = Some Dir ->
  load_historical_data cfg fuel s =
  (Ok {| h_data := <[pair := PyFalse]> (history_data s);
         h_from := backtesting_from s; h_to := backtesting_to s |},
   set_history_data (<[pair := PyFalse]> (history_data s)) s).
Proof.
  intros Hpairs Hname Hdir Hfile.
  assert (Hload : load_pair cfg fuel pair s = (Ok PyFalse, s)).
  { rewrite (load_pair_cached cfg fuel pair name) by eauto.
    apply (read_unreadable cfg fuel pair name s Hname). auto. }
  assert (Hrun : load_pairs cfg fuel [pair] s =
                 (Ok tt, set_history_data (<[pair := PyFalse]> (history_data s)) s)).
  { cbn [load_pairs]. now rewrite (bind_Ok _ _ _ _ _ Hload). }
  unfold load_historical_data. rewrite Hpairs. now rewrite (bind_Ok _ _ _ _ _ Hrun).
Qed.

Lemma load_historical_data_hands_over_false_witness :
  load_historical_data config_1h 0 (fresh (disk_with Dir)) =
  (Ok {| h_data := <["BTC/USDT"%string := PyFalse]> ∅; h_from := None; h_to := None |},
   set_history_data (<["BTC/USDT"%string := PyFalse]> ∅) (fresh (disk_with Dir))).
Proof.
  apply (load_historical_data_hands_over_false config_1h 0 "BTC/USDT" "data-BTCUSDT1h.json"
           (fresh (disk_with Dir)));
    first [reflexivity | vm_compute; eauto | vm_compute; reflexivity].
Defined.

(** X29.  A timeframe in days passes the start-up and then fails in the
    download.  With a timeframe of digits followed by [d] that the exchange
    lists, a window that is not empty and a first pair without a cache file,
    [__init__] raises [TypeError]: the duration was never set, no request
    was sent, and the consumer is not started. *)
Theorem init_daily_timeframe_fails (cfg : Config) (ccxt : string -> option attribute)
    (x : Exchange) (tfs : list string) (ds pair name : string) (rest : list string)
    (from to : Z) (fuel : nat) (f : gmap path node) :
  ds <> EmptyString -> all_digits ds = true ->
  cfg_timeframe cfg = ds +:+ "d" ->
  ccxt (cfg_exchange cfg) = Some (ExchangeClass x) -> has_fetchOHLCV x = true ->
  timeframes x = Listed tfs -> cfg_timeframe cfg ∈ tfs ->
  cfg_backtesting_till_now cfg = "False"%string ->
  parse8601 x (cfg_backtesting_from cfg +:+ "T00:00:00Z") = Some from ->
  parse8601 x (cfg_backtesting_to cfg +:+ "T00:00:00Z") = Some to ->
  from < to -> (0 < fuel)%nat ->
  cfg_pairs cfg = pair :: rest ->
  generate_datafile_name cfg pair (fresh f) = (Ok name, fresh f) ->
  f !! (exchange_path cfg ++ [name]) = None ->
  exists s', init cfg ccxt fuel (fresh f) = (Raise TypeError, s') /\
             timeframe_calc s' = None /\ fetch_log s' = [] /\ history_data s' = ∅.
Proof.
  intros Hds Hall Htf Hccxt Hhas Htfs Hin Hflag Hfrom Hto Hlt Hfuel Hpairs Hname Hfile.
  assert (Hcalc : config_timeframe_calc cfg (fresh f) = (Ok tt, fresh f)).
  { apply (config_timeframe_calc_other_unit cfg ds "d"); try assumption;
      first [reflexivity | discriminate]. }
  unfold init. rewrite (bind_Ok _ _ _ _ _ Hcalc).
  unfold load_exchange. rewrite Hccxt. unfold modify at 1. unfold bind at 1.
  rewrite Hhas, Htfs. cbn [negb].
  rewrite bool_decide_eq_true_2 by assumption. cbn [negb].
  unfold load_markets.
  rewrite (bind_Ok _ _ _ _ _
             (proj1 (proj2 (config_from_to_run cfg x (set_exchange (Some x) (fresh f))
                              eq_refl)) Hflag)).
  rewrite Hfrom, Hto.
  set (s := set_backtesting_to (Some to) (set_backtesting_from (Some from)
              (set_exchange (Some x) (fresh f)))).
  destruct (load_pair_fresh cfg fuel pair name s
              (generate_datafile_name_any _ _ _ _ _ Hname) Hfile)
    as (s0 & (E0 & _) & _ & Hload).
  assert (Hd : download_data_for_pair cfg fuel pair (Some from) (Some to) true s0 =
               (Raise TypeError, s0)).
  { apply (download_no_duration cfg fuel pair from to true s0); try assumption.
    now rewrite E0. }
  assert (Hp : load_pair cfg fuel pair s = (Raise TypeError, s0)).
  { rewrite Hload. cbn [backtesting_from backtesting_to s set_backtesting_to
                          set_backtesting_from].
    now rewrite (bind_Raise _ _ _ _ _ Hd). }
  unfold load_historical_data. rewrite Hpairs. cbn [load_pairs].
  rewrite (bind_Raise _ _ _ _ _ (bind_Raise _ _ _ _ _ Hp)).
  exists s0. split; [reflexivity|]. rewrite E0. cbn. auto.
Qed.

Lemma init_daily_timeframe_fails_witness :
  exists s', init (with_timeframe "1d" config_1h) (binance_only (regular_exchange day)) 1
               (fresh ∅) = (Raise TypeError, s') /\
             timeframe_calc s' = None /\ fetch_log s' = [] /\ history_data s' = ∅.
Proof.
  apply (init_daily_timeframe_fails (with_timeframe "1d" config_1h)
           (binance_only (regular_exchange day)) (regular_exchange day)
           ["1m"; "1h"; "1d"]%string "1" "BTC/USDT" "data-BTCUSDT1d.json" []
           1609459200000 1609545600000 1 ∅);
    first [reflexivity | discriminate | lia
          | (apply elem_of_cons; right; apply elem_of_cons; right; apply elem_of_cons; now left) ].
Defined.
